(** * QwenChat client: a shallow embedding of [src/QwenChat/src/client.py]

    The development follows the Python source function by function.
    Python values produced by [json.loads] are an inductive type, the dynamic
    operations the client applies to them ([in], [x[k]], [.get], iteration,
    truthiness, [+=]) return a result or raise, and the methods of
    [QwenClient] are state-passing functions over the client object and a
    world that records console output and the HTTP requests issued. *)

From Stdlib Require Import String Ascii List ZArith QArith Bool.
Import ListNotations.

Set Warnings "-register-all".
Local Close Scope Q_scope.
Local Open Scope string_scope.
Local Open Scope list_scope.

(** ** Python strings

    A character of the model is a code point below 256. *)

Module PyStr.

(** [str.isspace] on code points below 256: tab to carriage return,
    the four separators 28..31, space, NEL (133) and NBSP (160). *)
Definition isspace (c : ascii) : bool :=
  let n := nat_of_ascii c in
  (Nat.leb 9 n && Nat.leb n 13) || (Nat.leb 28 n && Nat.leb n 32)
  || Nat.eqb n 133 || Nat.eqb n 160.

(** [s.startswith(p)] *)
Definition startswith (p s : string) : bool := String.prefix p s.

(** [s[n:]] *)
Fixpoint drop (n : nat) (s : string) : string :=
  match n, s with
  | O, _ => s
  | S _, EmptyString => EmptyString
  | S n', String _ s' => drop n' s'
  end.

(** [s[:n]] *)
Fixpoint take (n : nat) (s : string) : string :=
  match n, s with
  | O, _ => EmptyString
  | S _, EmptyString => EmptyString
  | S n', String c s' => String c (take n' s')
  end.

(** [s.lstrip()] *)
Fixpoint lstrip (s : string) : string :=
  match s with
  | EmptyString => EmptyString
  | String c s' => if isspace c then lstrip s' else s
  end.

(** [s.rstrip()]: a character is kept when it is not a space or when
    something is kept after it. *)
Fixpoint rstrip (s : string) : string :=
  match s with
  | EmptyString => EmptyString
  | String c s' =>
      match rstrip s' with
      | EmptyString => if isspace c then EmptyString else String c EmptyString
      | r => String c r
      end
  end.

(** [s.strip()] *)
Definition strip (s : string) : string := rstrip (lstrip s).

(** [sub in s] for two strings: [sub] occurs in [s]. *)
Fixpoint contains (sub s : string) : bool :=
  String.prefix sub s ||
  match s with
  | EmptyString => false
  | String _ s' => contains sub s'
  end.

(** The one-character strings a [for] loop over a string yields. *)
Fixpoint chars (s : string) : list string :=
  match s with
  | EmptyString => []
  | String c s' => String c EmptyString :: chars s'
  end.

(** [not s] *)
Definition is_empty (s : string) : bool :=
  match s with EmptyString => true | _ => false end.

(** The newline character of the f-string in [send_message]. *)
Definition nl : string := String (ascii_of_nat 10) EmptyString.

End PyStr.

(** ** Exceptions *)

Inductive exn : Type :=
| TypeError
| AttributeError
| KeyError
| JSONDecodeError
| FileNotFoundError
| TransportError.

Inductive res (A : Type) : Type :=
| Ok (a : A)
| Raise (e : exn).
Arguments Ok {A} a.
Arguments Raise {A} e.

Definition bind {A B : Type} (m : res A) (k : A -> res B) : res B :=
  match m with
  | Ok a => k a
  | Raise e => Raise e
  end.

Declare Scope res_scope.
Delimit Scope res_scope with res.
Notation "x <- m ;; k" := (bind m (fun x => k))
  (at level 61, m at next level, right associativity) : res_scope.

(** ** Python values, as [json.loads] builds them *)

(** A float is not-a-number, an infinity or a finite value; a finite value is
    kept as the rational it denotes.  The client only tests floats for
    truth and equality. *)
Inductive pyfloat : Type :=
| FNaN
| FInf (negative : bool)
| FFinite (q : Q).

Inductive pyval : Type :=
| PNone
| PBool (b : bool)
| PInt (n : Z)
| PFloat (f : pyfloat)
| PStr (s : string)
| PList (items : list pyval)
| PDict (items : list (string * pyval)).

Module Py.

(** Dictionary lookup; the first binding of a key is the one seen. *)
Fixpoint assoc (k : string) (items : list (string * pyval)) : option pyval :=
  match items with
  | [] => None
  | (k', v) :: rest => if String.eqb k k' then Some v else assoc k rest
  end.

Definition has_key (k : string) (items : list (string * pyval)) : bool :=
  match assoc k items with Some _ => true | None => false end.

(** [bool(v)] *)
Definition truthy (v : pyval) : bool :=
  match v with
  | PNone => false
  | PBool b => b
  | PInt n => negb (n =? 0)%Z
  | PFloat FNaN => true
  | PFloat (FInf _) => true
  | PFloat (FFinite q) => negb (Qeq_bool q 0%Q)
  | PStr s => negb (PyStr.is_empty s)
  | PList items => match items with [] => false | _ => true end
  | PDict items => match items with [] => false | _ => true end
  end.

(** The numeric tower: booleans and integers compare with floats by value. *)
Definition to_num (v : pyval) : option pyfloat :=
  match v with
  | PBool b => Some (FFinite (inject_Z (if b then 1 else 0)))
  | PInt n => Some (FFinite (inject_Z n))
  | PFloat f => Some f
  | _ => None
  end.

Definition num_eq (a b : pyfloat) : bool :=
  match a, b with
  | FFinite p, FFinite q => Qeq_bool p q
  | FInf s, FInf t => Bool.eqb s t
  | _, _ => false
  end.

(** [x == y] on values of two different parses. *)
Fixpoint eq (x y : pyval) {struct x} : bool :=
  match x, y with
  | PNone, PNone => true
  | PStr a, PStr b => String.eqb a b
  | PList xs, PList ys =>
      (fix all2 (xs : list pyval) (ys : list pyval) {struct xs} : bool :=
         match xs, ys with
         | [], [] => true
         | x' :: xs', y' :: ys' => eq x' y' && all2 xs' ys'
         | _, _ => false
         end) xs ys
  | PDict xs, PDict ys =>
      Nat.eqb (length xs) (length ys) &&
      (fix all1 (xs : list (string * pyval)) {struct xs} : bool :=
         match xs with
         | [] => true
         | (k, v) :: xs' =>
             match assoc k ys with
             | Some w => eq v w
             | None => false
             end && all1 xs'
         end) xs
  | PBool a, _ =>
      match to_num y with
      | Some n => num_eq (FFinite (inject_Z (if a then 1 else 0))) n
      | None => false
      end
  | PInt a, _ =>
      match to_num y with
      | Some n => num_eq (FFinite (inject_Z a)) n
      | None => false
      end
  | PFloat a, _ =>
      match to_num y with
      | Some n => num_eq a n
      | None => false
      end
  | _, _ => false
  end.

(** [v == "lit"] *)
Definition eq_str (v : pyval) (lit : string) : bool := eq v (PStr lit).

(** [key in v] for a string [key]. *)
Definition contains (key : string) (v : pyval) : res bool :=
  match v with
  | PDict items => Ok (has_key key items)
  | PList items => Ok (existsb (fun x => eq (PStr key) x) items)
  | PStr s => Ok (PyStr.contains key s)
  | _ => Raise TypeError
  end.

(** [v[key]] for a string [key]. *)
Definition getitem (v : pyval) (key : string) : res pyval :=
  match v with
  | PDict items =>
      match assoc key items with
      | Some x => Ok x
      | None => Raise KeyError
      end
  | _ => Raise TypeError
  end.

(** [v.get(key, default)] *)
Definition get (v : pyval) (key : string) (default : pyval) : res pyval :=
  match v with
  | PDict items =>
      match assoc key items with
      | Some x => Ok x
      | None => Ok default
      end
  | _ => Raise AttributeError
  end.

(** The values [for x in v] binds. *)
Definition iter (v : pyval) : res (list pyval) :=
  match v with
  | PList items => Ok items
  | PDict items => Ok (map (fun kv => PStr (fst kv)) items)
  | PStr s => Ok (map PStr (PyStr.chars s))
  | _ => Raise TypeError
  end.

(** [v[:n]] *)
Definition slice_to (n : nat) (v : pyval) : res pyval :=
  match v with
  | PStr s => Ok (PStr (PyStr.take n s))
  | PList items => Ok (PList (firstn n items))
  | _ => Raise TypeError
  end.

(** [s += v] on a string variable [s]. *)
Definition iadd (s : string) (v : pyval) : res string :=
  match v with
  | PStr t => Ok (s ++ t)%string
  | _ => Raise TypeError
  end.

End Py.

(** ** The client object, its configuration and what it prints *)

(** [config.py] is not among the sources: the constants the client reads
    from [Config()] are the fields of a record the client carries.
    [USER_AGENT] stands for [BASE_HEADERS["User-Agent"]]. *)
Record Config : Type := {
  BASE_URL : string;
  COOKIES_FILE : string;
  TOKEN_FILE : string;
  USER_AGENT : string
}.

(** The attributes [__init__] sets on [self]; [self.client], the HTTP
    client, is the transport of the environment below. *)
Record QwenClient : Type := {
  config : Config;
  cookies : pyval;
  token : pyval;
  conversation_id : pyval;
  parent_id : pyval;
  thinking_enabled : bool;
  thinking_budget : Z
}.

Definition set_conversation_id (v : pyval) (self : QwenClient) : QwenClient :=
  {| config := config self; cookies := cookies self; token := token self;
     conversation_id := v; parent_id := parent_id self;
     thinking_enabled := thinking_enabled self;
     thinking_budget := thinking_budget self |}.

Definition set_parent_id (v : pyval) (self : QwenClient) : QwenClient :=
  {| config := config self; cookies := cookies self; token := token self;
     conversation_id := conversation_id self; parent_id := v;
     thinking_enabled := thinking_enabled self;
     thinking_budget := thinking_budget self |}.

Definition set_token (v : pyval) (self : QwenClient) : QwenClient :=
  {| config := config self; cookies := cookies self; token := v;
     conversation_id := conversation_id self; parent_id := parent_id self;
     thinking_enabled := thinking_enabled self;
     thinking_budget := thinking_budget self |}.

Definition set_thinking (enabled : bool) (budget : Z) (self : QwenClient)
  : QwenClient :=
  {| config := config self; cookies := cookies self; token := token self;
     conversation_id := conversation_id self; parent_id := parent_id self;
     thinking_enabled := enabled; thinking_budget := budget |}.

(** The messages of the [print_status] calls of [client.py], one
    constructor per call site, carrying the values the f-string formats. *)
Inductive status_msg : Type :=
| MsgCreated (id_prefix : pyval)
| MsgCreateFailed (status_code : Z)
| MsgResponse (text : string)
| MsgCreateError (e : exn)
| MsgThinkingMode (enabled : bool) (budget : Z)
| MsgNoCookies
| MsgCreatingSession
| MsgFailedSession
| MsgSending
| MsgRequestFailed (status_code : Z)
| MsgError (text : string)
| MsgChatError (e : exn)
| MsgReady.

(** The calls into [display.py], in the order they are made. *)
Inductive event : Type :=
| print_status (m : status_msg)
| print_response_start
| stream_thinking (content : string)
| stream_live (content : string).

(** ** The stream decoder of [chat] (lines 172-241) *)

(** The three local variables of the loop. *)
Record locals : Type := {
  thinking_content : string;
  answer_content : string;
  current_phase : pyval
}.

Definition initial_locals : locals :=
  {| thinking_content := ""; answer_content := ""; current_phase := PNone |}.

(** What the loop of [chat] can change: the client object [self] (its
    [parent_id]), the locals and the console. *)
Record frame : Type := {
  client : QwenClient;
  vars : locals;
  console : list event
}.

(** How the body of [for choice in data["choices"]] ends. *)
Inductive ctl : Type :=
| Next
| Break
| Exc (e : exn).

(** Lines 177-183 and 335-341: the payload of a line the loop goes on to
    parse; [None] is [continue] (or a line without the prefix). *)
Definition data_payload (line : string) : option string :=
  if PyStr.is_empty line then None
  else if PyStr.startswith "data:" line then
    let json_str := PyStr.strip (PyStr.drop 5 line) in
    if PyStr.is_empty json_str || String.eqb json_str "[DONE]" then None
    else Some json_str
  else None.

(** Lines 190-193 and 347-349: the body of [if "response.created" in data]. *)
Definition response_created (self : QwenClient) (data : pyval)
  : res QwenClient :=
  (created_info <- Py.getitem data "response.created" ;;
   has_id <- Py.contains "response_id" created_info ;;
   if (has_id : bool)
   then (response_id <- Py.getitem created_info "response_id" ;;
         Ok (set_parent_id response_id self))
   else Ok self)%res.

(** Lines 199-202: the four reads at the head of the choice loop. *)
Definition read_delta (choice : pyval) : res (pyval * pyval * pyval) :=
  (delta <- Py.get choice "delta" (PDict []) ;;
   content <- Py.get delta "content" (PStr "") ;;
   phase <- Py.get delta "phase" (PStr "answer") ;;
   status <- Py.get delta "status" (PStr "") ;;
   Ok (content, phase, status))%res.

(** Lines 205-222: [if phase != current_phase: ...]. *)
Definition phase_changed (phase : pyval) (l : locals) (out : list event)
  : locals * list event :=
  if negb (Py.eq phase (current_phase l)) then
    let out1 :=
      if Py.eq_str (current_phase l) "think"
         && negb (PyStr.is_empty (thinking_content l))
      then out ++ [stream_thinking (thinking_content l)]
      else out in
    let out2 :=
      if Py.eq_str phase "answer" && Py.eq_str (current_phase l) "think"
      then out1 ++ [print_response_start]
      else out1 in
    ({| thinking_content := thinking_content l;
        answer_content := answer_content l;
        current_phase := phase |}, out2)
  else (l, out).

(** Lines 225-229: [if content: ...]. *)
Definition accumulate (content phase : pyval) (l : locals) : res locals :=
  if Py.truthy content then
    if Py.eq_str phase "think" then
      (s <- Py.iadd (thinking_content l) content ;;
       Ok {| thinking_content := s; answer_content := answer_content l;
             current_phase := current_phase l |})%res
    else
      (s <- Py.iadd (answer_content l) content ;;
       Ok {| thinking_content := thinking_content l; answer_content := s;
             current_phase := current_phase l |})%res
  else Ok l.

(** Lines 199-232: one turn of the choice loop. *)
Definition chat_choice (f : frame) (choice : pyval) : frame * ctl :=
  match read_delta choice with
  | Raise e => (f, Exc e)
  | Ok (content, phase, status) =>
      let (l1, out1) := phase_changed phase (vars f) (console f) in
      match accumulate content phase l1 with
      | Raise e => ({| client := client f; vars := l1; console := out1 |}, Exc e)
      | Ok l2 =>
          ({| client := client f; vars := l2; console := out1 |},
           if Py.eq_str status "finished" && Py.eq_str phase "answer"
           then Break else Next)
      end
  end.

(** Line 198: the choice loop; [break] leaves it, an exception leaves it
    with the exception. *)
Fixpoint chat_choices (f : frame) (choices : list pyval)
  : frame * option exn :=
  match choices with
  | [] => (f, None)
  | choice :: rest =>
      match chat_choice f choice with
      | (f', Next) => chat_choices f' rest
      | (f', Break) => (f', None)
      | (f', Exc e) => (f', Some e)
      end
  end.

Section Decoder.

(** [json.loads]; [None] is [json.JSONDecodeError]. *)
Variable json_loads : string -> option pyval.

(** Lines 177-235: one turn of [for line in resp.iter_lines()].  The
    second component is the exception that leaves the loop, if any: only
    [json.JSONDecodeError] is caught inside it. *)
Definition chat_line (f : frame) (line : string) : frame * option exn :=
  match data_payload line with
  | None => (f, None)
  | Some json_str =>
      match json_loads json_str with
      | None => (f, None)
      | Some data =>
          match Py.contains "response.created" data with
          | Raise e => (f, Some e)
          | Ok true =>
              match response_created (client f) data with
              | Raise e => (f, Some e)
              | Ok self' =>
                  ({| client := self'; vars := vars f; console := console f |},
                   None)
              end
          | Ok false =>
              match Py.contains "choices" data with
              | Raise e => (f, Some e)
              | Ok false => (f, None)
              | Ok true =>
                  match (v <- Py.getitem data "choices" ;; Py.iter v)%res with
                  | Raise e => (f, Some e)
                  | Ok choices => chat_choices f choices
                  end
              end
          end
      end
  end.

Fixpoint chat_lines (f : frame) (lines : list string)
  : frame * option exn :=
  match lines with
  | [] => (f, None)
  | line :: rest =>
      match chat_line f line with
      | (f', None) => chat_lines f' rest
      | (f', Some e) => (f', Some e)
      end
  end.

(** ** The stream decoder of [send_message] (lines 332-364) *)

(** Lines 354-359: one turn of the choice loop; the only local is
    [answer_content]. *)
Definition send_choice (answer : string) (choice : pyval) : res string :=
  (delta <- Py.get choice "delta" (PDict []) ;;
   content <- Py.get delta "content" (PStr "") ;;
   phase <- Py.get delta "phase" (PStr "answer") ;;
   if Py.truthy content && Py.eq_str phase "answer"
   then Py.iadd answer content
   else Ok answer)%res.

Fixpoint send_choices (answer : string) (choices : list pyval)
  : res string :=
  match choices with
  | [] => Ok answer
  | choice :: rest =>
      (answer' <- send_choice answer choice ;; send_choices answer' rest)%res
  end.

(** Lines 335-362: one turn of the line loop, on [self] and
    [answer_content]. *)
Definition send_line (st : QwenClient * string) (line : string)
  : (QwenClient * string) * option exn :=
  match data_payload line with
  | None => (st, None)
  | Some json_str =>
      match json_loads json_str with
      | None => (st, None)
      | Some data =>
          match Py.contains "response.created" data with
          | Raise e => (st, Some e)
          | Ok true =>
              match response_created (fst st) data with
              | Raise e => (st, Some e)
              | Ok self' => ((self', snd st), None)
              end
          | Ok false =>
              match Py.contains "choices" data with
              | Raise e => (st, Some e)
              | Ok false => (st, None)
              | Ok true =>
                  match (v <- Py.getitem data "choices" ;; Py.iter v)%res with
                  | Raise e => (st, Some e)
                  | Ok choices =>
                      match send_choices (snd st) choices with
                      | Ok answer' => ((fst st, answer'), None)
                      | Raise e => (st, Some e)
                      end
                  end
              end
          end
      end
  end.

Fixpoint send_lines (st : QwenClient * string) (lines : list string)
  : (QwenClient * string) * option exn :=
  match lines with
  | [] => (st, None)
  | line :: rest =>
      match send_line st line with
      | (st', None) => send_lines st' rest
      | (st', Some e) => (st', Some e)
      end
  end.

End Decoder.

(** ** The environment: transport, identifiers, clock, files *)

(** [self.client.post(...)] and [self.client.stream("POST", ...)]. *)
Inductive call_kind : Type :=
| Post
| Stream.

(** The two URLs: [f"{BASE_URL}/api/v2/chats/new"] and
    [f"{BASE_URL}/api/v2/chat/completions?chat_id={self.conversation_id}"]. *)
Inductive endpoint : Type :=
| ChatsNew (base : string)
| ChatCompletions (base : string) (chat_id : pyval).

(** The arguments of one HTTP call. *)
Record request : Type := {
  call : call_kind;
  url : endpoint;
  headers : list (string * string);
  sent_cookies : pyval;
  json : pyval
}.

(** What the transport does with a call: it raises, or it gives a response
    with its [status_code], its [text] and the lines [iter_lines()] yields. *)
Inductive http_reply : Type :=
| Failed
| Response (status_code : Z) (text : string) (lines : list string).

(** The console, the calls made so far (oldest first), and how many
    identifiers and clock readings have been drawn. *)
Record world : Type := {
  out : list event;
  sent : list request;
  uuids : nat;
  ticks : nat
}.

Definition emit (e : event) (w : world) : world :=
  {| out := out w ++ [e]; sent := sent w; uuids := uuids w; ticks := ticks w |}.

Definition say (m : status_msg) (w : world) : world := emit (print_status m) w.

Definition with_out (o : list event) (w : world) : world :=
  {| out := o; sent := sent w; uuids := uuids w; ticks := ticks w |}.

Definition record_call (r : request) (w : world) : world :=
  {| out := out w; sent := sent w ++ [r]; uuids := uuids w; ticks := ticks w |}.

(** [int(x)] on a number: truncation towards zero. *)
Definition py_int (x : Q) : Z := Z.quot (Qnum x) (Zpos (Qden x)).

(** A file the constructor opens for reading: [open] raises
    [FileNotFoundError], or the file has contents. *)
Inductive file : Type :=
| Missing
| Text (contents : string).

Definition model_name : string := "qwen3-max-2025-10-30".

Section Client.

Variable json_loads : string -> option pyval.

(** The reply of the service to a call, given the calls before it. *)
Variable transport : list request -> request -> http_reply.

(** [str(uuid.uuid4())] and [time.time()], by the number of earlier draws. *)
Variable uuid4 : nat -> string.
Variable time_time : nat -> Q.

Definition fresh_uuid (w : world) : string * world :=
  (uuid4 (uuids w),
   {| out := out w; sent := sent w; uuids := S (uuids w); ticks := ticks w |}).

Definition read_clock (w : world) : Q * world :=
  (time_time (ticks w),
   {| out := out w; sent := sent w; uuids := uuids w; ticks := S (ticks w) |}).

(** Lines 20-25. *)
Definition _load_cookies (cfg : Config) (open_ : string -> file)
  : res pyval :=
  match open_ (COOKIES_FILE cfg) with
  | Missing => Ok (PDict [])
  | Text contents =>
      match json_loads contents with
      | Some v => Ok v
      | None => Raise JSONDecodeError
      end
  end.

(** Lines 27-35, on the cookies just loaded. *)
Definition _get_token_from_cookies (cfg : Config) (open_ : string -> file)
    (cookies : pyval) : res pyval :=
  (has_token <- Py.contains "token" cookies ;;
   if (has_token : bool) then Py.getitem cookies "token"
   else
     match open_ (TOKEN_FILE cfg) with
     | Missing => Ok PNone
     | Text contents => Ok (PStr (PyStr.strip contents))
     end)%res.

(** Lines 10-18: [QwenClient()]. *)
Definition __init__ (cfg : Config) (open_ : string -> file)
  : res QwenClient :=
  (cookies <- _load_cookies cfg open_ ;;
   token <- _get_token_from_cookies cfg open_ cookies ;;
   Ok {| config := cfg; cookies := cookies; token := token;
         conversation_id := PNone; parent_id := PNone;
         thinking_enabled := false; thinking_budget := 81920 |})%res.

(** Lines 37-47. *)
Definition _get_headers (self : QwenClient) (w : world)
  : list (string * string) * world :=
  let (request_id, w') := fresh_uuid w in
  ([("Accept", "application/json");
    ("Content-Type", "application/json");
    ("Origin", BASE_URL (config self));
    ("Referer", (BASE_URL (config self) ++ "/")%string);
    ("User-Agent", USER_AGENT (config self));
    ("X-Request-Id", request_id);
    ("X-Accel-Buffering", "no");
    ("source", "web")], w').

(** Lines 56-63. *)
Definition new_chat_payload (timestamp : Z) : pyval :=
  PDict [("title", PStr "New Chat");
         ("models", PList [PStr model_name]);
         ("chat_mode", PStr "normal");
         ("chat_type", PStr "t2t");
         ("timestamp", PInt timestamp);
         ("project_id", PStr "")].

(** Line 75: [data.get("success") and data.get("data", {}).get("id")],
    as the truth value the [if] tests. *)
Definition creation_succeeded (data : pyval) : res bool :=
  (success <- Py.get data "success" PNone ;;
   if Py.truthy success
   then (d <- Py.get data "data" (PDict []) ;;
         id <- Py.get d "id" PNone ;;
         Ok (Py.truthy id))
   else Ok false)%res.

(** Lines 82-84. *)
Definition creation_failed (status_code : Z) (text : string)
    (self : QwenClient) (w : world) : pyval * QwenClient * world :=
  (PNone, self,
   say (MsgResponse (PyStr.take 200 text)) (say (MsgCreateFailed status_code) w)).

(** Lines 54-71: the call that creates a conversation, with the world
    after its arguments are built. *)
Definition creation_request (self : QwenClient) (w : world)
  : request * world :=
  let (headers, w1) := _get_headers self w in
  let (now, w2) := read_clock w1 in
  ({| call := Post; url := ChatsNew (BASE_URL (config self));
      headers := headers; sent_cookies := cookies self;
      json := new_chat_payload (py_int (now * 1000)%Q) |}, w2).

(** What the transport answers to it. *)
Definition creation_reply (self : QwenClient) (w : world) : http_reply :=
  let (req, w') := creation_request self w in transport (sent w') req.

(** Lines 49-88. *)
Definition _create_conversation (self : QwenClient) (w : world)
  : pyval * QwenClient * world :=
  if Py.truthy (conversation_id self) then (conversation_id self, self, w)
  else
    let (req, w2) := creation_request self w in
    let w3 := record_call req w2 in
    match transport (sent w2) req with
    | Failed => (PNone, self, say (MsgCreateError TransportError) w3)
    | Response status_code text _ =>
        if (status_code =? 200)%Z then
          match json_loads text with
          | None => (PNone, self, say (MsgCreateError JSONDecodeError) w3)
          | Some data =>
              match creation_succeeded data with
              | Raise e => (PNone, self, say (MsgCreateError e) w3)
              | Ok false => creation_failed status_code text self w3
              | Ok true =>
                  match (d <- Py.getitem data "data" ;; Py.getitem d "id")%res with
                  | Raise e => (PNone, self, say (MsgCreateError e) w3)
                  | Ok id =>
                      let self' := set_conversation_id id self in
                      match Py.slice_to 8 id with
                      | Raise e => (PNone, self', say (MsgCreateError e) w3)
                      | Ok id_prefix =>
                          (id, self', say (MsgCreated id_prefix) w3)
                      end
                  end
              end
          end
        else creation_failed status_code text self w3
    end.

(** Lines 90-95. *)
Definition enable_thinking (enabled : bool) (budget : Z)
    (self : QwenClient) (w : world) : QwenClient * world :=
  (set_thinking enabled budget self, say (MsgThinkingMode enabled budget) w).

(** Lines 247-251. *)
Definition new_conversation (self : QwenClient) (w : world)
  : QwenClient * world :=
  (set_parent_id PNone (set_conversation_id PNone self), say MsgReady w).

(** Lines 117-124 and 283-290. *)
Definition feature_config (self : QwenClient) : pyval :=
  PDict ([("thinking_enabled", PBool (thinking_enabled self));
          ("output_schema", PStr "phase");
          ("research_mode", PStr "normal")]
         ++ (if thinking_enabled self
             then [("thinking_budget", PInt (thinking_budget self))]
             else [])).

(** Lines 126-153 and 292-319. *)
Definition turn_payload (self : QwenClient) (content : string)
    (message_fid child_id : string) (current_timestamp : Z) : pyval :=
  PDict [("stream", PBool true);
         ("version", PStr "2.1");
         ("incremental_output", PBool true);
         ("chat_id", conversation_id self);
         ("chat_mode", PStr "normal");
         ("model", PStr model_name);
         ("parent_id", parent_id self);
         ("messages",
          PList [PDict [("fid", PStr message_fid);
                        ("parentId", parent_id self);
                        ("childrenIds", PList [PStr child_id]);
                        ("role", PStr "user");
                        ("content", PStr content);
                        ("user_action", PStr "chat");
                        ("files", PList []);
                        ("timestamp", PInt current_timestamp);
                        ("models", PList [PStr model_name]);
                        ("chat_type", PStr "t2t");
                        ("feature_config", feature_config self);
                        ("extra",
                         PDict [("meta", PDict [("subChatType", PStr "t2t")])]);
                        ("sub_chat_type", PStr "t2t");
                        ("parent_id", parent_id self)]]);
         ("timestamp", PInt current_timestamp)].

(** Lines 110-114, 156-162 and 272-276, 322-328: the streaming call of a
    turn, with the world after it. *)
Definition turn_request (self : QwenClient) (content : string) (w : world)
  : request * world :=
  let (headers, w1) := _get_headers self w in
  let (message_fid, w2) := fresh_uuid w1 in
  let (child_id, w3) := fresh_uuid w2 in
  let (now, w4) := read_clock w3 in
  ({| call := Stream;
      url := ChatCompletions (BASE_URL (config self)) (conversation_id self);
      headers := headers; sent_cookies := cookies self;
      json := turn_payload self content message_fid child_id (py_int now) |},
   w4).

(** What the transport answers to the streaming call of a turn. *)
Definition turn_reply (self : QwenClient) (content : string) (w : world)
  : http_reply :=
  let (req, w') := turn_request self content w in transport (sent w') req.

(** Lines 108-245: the turn, once the conversation exists.  On a status
    other than 200 the body is taken to decode, so line 167 prints it. *)
Definition chat_turn (self : QwenClient) (prompt : string) (w : world)
  : option string * QwenClient * world :=
  let (req, w2) := turn_request self prompt (say MsgSending w) in
  let w3 := record_call req w2 in
  match transport (sent w2) req with
  | Failed => (None, self, say (MsgChatError TransportError) w3)
  | Response status_code text lines =>
      if negb (status_code =? 200)%Z then
        (None, self,
         say (MsgError (PyStr.take 300 text))
             (say (MsgRequestFailed status_code) w3))
      else
        match chat_lines json_loads
                {| client := self; vars := initial_locals; console := out w3 |}
                lines with
        | (f, Some e) =>
            (None, client f, say (MsgChatError e) (with_out (console f) w3))
        | (f, None) =>
            let answer := answer_content (vars f) in
            (Some answer, client f,
             with_out (if PyStr.is_empty answer then console f
                       else console f ++ [stream_live answer]) w3)
        end
  end.

(** Lines 97-245.  [None] is the [None] the method returns. *)
Definition chat (self : QwenClient) (prompt : string) (w : world)
  : option string * QwenClient * world :=
  if negb (Py.truthy (cookies self)) then (None, self, say MsgNoCookies w)
  else if negb (Py.truthy (conversation_id self)) then
    let '(id, self', w') :=
      _create_conversation self (say MsgCreatingSession w) in
    if negb (Py.truthy id) then (None, self', say MsgFailedSession w')
    else chat_turn self' prompt w'
  else chat_turn self prompt w.

(** What [send_message] returns: the answer, or one of its four
    ["Error: ..."] strings. *)
Inductive reply : Type :=
| Answer (answer_content : string)
| ErrorNoCookies
| ErrorSession
| ErrorStatus (status_code : Z)
| ErrorException (e : exn).

(** Lines 279-281. *)
Definition full_prompt (prompt : string) (system_prompt : option string)
  : string :=
  match system_prompt with
  | Some sp =>
      if PyStr.is_empty sp then prompt
      else ("[System Instructions: " ++ sp ++ "]" ++ PyStr.nl ++ PyStr.nl
            ++ "User Request: " ++ prompt)%string
  | None => prompt
  end.

(** Lines 272-367: the turn, once the conversation exists. *)
Definition send_turn (self : QwenClient) (content : string) (w : world)
  : reply * QwenClient * world :=
  let (req, w2) := turn_request self content w in
  let w3 := record_call req w2 in
  match transport (sent w2) req with
  | Failed => (ErrorException TransportError, self, w3)
  | Response status_code text lines =>
      if negb (status_code =? 200)%Z then (ErrorStatus status_code, self, w3)
      else
        match send_lines json_loads (self, "") lines with
        | (st, Some e) => (ErrorException e, fst st, w3)
        | (st, None) => (Answer (snd st), fst st, w3)
        end
  end.

(** Lines 253-367. *)
Definition send_message (self : QwenClient) (prompt : string)
    (system_prompt : option string) (w : world)
  : reply * QwenClient * world :=
  if negb (Py.truthy (cookies self)) then (ErrorNoCookies, self, w)
  else if negb (Py.truthy (conversation_id self)) then
    let '(id, self', w') := _create_conversation self w in
    if negb (Py.truthy id) then (ErrorSession, self', w')
    else send_turn self' (full_prompt prompt system_prompt) w'
  else send_turn self (full_prompt prompt system_prompt) w.

End Client.

(** ** The vocabulary of the specification

    What the specification calls the content deltas of a stream, their
    fields with the defaults it gives them, and the texts it speaks of.
    These definitions read the parsed records directly; they do not run the
    decoder. *)

(** The [delta] object of a choice; an absent one is the empty object. *)
Definition delta_of (choice : pyval) : list (string * pyval) :=
  match choice with
  | PDict items =>
      match Py.assoc "delta" items with
      | Some (PDict d) => d
      | _ => []
      end
  | _ => []
  end.

(** The [content] field, empty when absent. *)
Definition content_of (choice : pyval) : string :=
  match Py.assoc "content" (delta_of choice) with
  | Some (PStr s) => s
  | _ => ""
  end.

(** The effective phase: the [phase] field, [answer] when absent. *)
Definition phase_of (choice : pyval) : string :=
  match Py.assoc "phase" (delta_of choice) with
  | Some (PStr s) => s
  | _ => "answer"
  end.

(** The [status] field, empty when absent. *)
Definition status_of (choice : pyval) : pyval :=
  match Py.assoc "status" (delta_of choice) with
  | Some v => v
  | None => PStr ""
  end.

Definition is_answer (choice : pyval) : bool := String.eqb (phase_of choice) "answer".
Definition is_think (choice : pyval) : bool := String.eqb (phase_of choice) "think".

(** A delta that signals completion of the answer. *)
Definition is_finished_answer (choice : pyval) : bool :=
  Py.eq_str (status_of choice) "finished" && is_answer choice.

(** Concatenation in order. *)
Fixpoint join (l : list string) : string :=
  match l with
  | [] => ""
  | s :: rest => (s ++ join rest)%string
  end.

(** The content of the deltas of [choices] that satisfy [keep], in order. *)
Definition text_where (keep : pyval -> bool) (choices : list pyval) : string :=
  join (map content_of (filter keep choices)).

Definition answer_text : list pyval -> string := text_where is_answer.
Definition think_text : list pyval -> string := text_where is_think.
Definition non_think_text : list pyval -> string :=
  text_where (fun c => negb (is_think c)).

(** The deltas of one record that [chat] reads: those up to and including
    the first one that signals completion of the answer. *)
Fixpoint consumed (choices : list pyval) : list pyval :=
  match choices with
  | [] => []
  | c :: rest => if is_finished_answer c then [c] else c :: consumed rest
  end.

(** The content deltas a record carries: none when it is a
    [response.created] record. *)
Definition record_choices (data : pyval) : list pyval :=
  match data with
  | PDict items =>
      if Py.has_key "response.created" items then []
      else match Py.assoc "choices" items with
           | Some (PList choices) => choices
           | _ => []
           end
  | _ => []
  end.

(** The shape of the wire protocol: a choice is an object whose [delta], when
    present, is an object whose [content] and [phase], when present, are
    strings. *)
Definition absent_or_str (key : string) (d : list (string * pyval)) : bool :=
  match Py.assoc key d with
  | None => true
  | Some (PStr _) => true
  | Some _ => false
  end.

Definition wf_choice (choice : pyval) : bool :=
  match choice with
  | PDict items =>
      match Py.assoc "delta" items with
      | None => true
      | Some (PDict d) => absent_or_str "content" d && absent_or_str "phase" d
      | Some _ => false
      end
  | _ => false
  end.

(** A record is an object; its [response.created], when present, is an
    object; otherwise its [choices], when present, is an array of choices. *)
Definition wf_record (data : pyval) : bool :=
  match data with
  | PDict items =>
      match Py.assoc "response.created" items with
      | Some (PDict _) => true
      | Some _ => false
      | None =>
          match Py.assoc "choices" items with
          | None => true
          | Some (PList choices) => forallb wf_choice choices
          | Some _ => false
          end
      end
  | _ => false
  end.

(** The line whose payload is the sentinel. *)
Definition is_sentinel (line : string) : bool :=
  PyStr.startswith "data:" line
  && String.eqb (PyStr.strip (PyStr.drop 5 line)) "[DONE]".


(** The contents the console shows through [stream_thinking], in order. *)
Fixpoint flushes (out : list event) : list string :=
  match out with
  | [] => []
  | stream_thinking content :: rest => content :: flushes rest
  | _ :: rest => flushes rest
  end.

(** The running concatenations of a list of texts:
    [t1; t1 t2; t1 t2 t3; ...], each prefixed by [seen]. *)
Fixpoint cumulative (seen : string) (texts : list string) : list string :=
  match texts with
  | [] => []
  | t :: rest => (seen ++ t)%string :: cumulative (seen ++ t)%string rest
  end.


(** No delta of the record follows one that signals completion of the
    answer. *)
Fixpoint finish_last (choices : list pyval) : bool :=
  match choices with
  | [] => true
  | c :: rest =>
      if is_finished_answer c
      then match rest with [] => true | _ => false end
      else finish_last rest
  end.



(** The frame after the deltas [choices] have been read, one after the
    other, by the body of the choice loop of [chat]. *)
Definition feed (f : frame) (choices : list pyval) : frame :=
  fold_left (fun f c => fst (chat_choice f c)) choices f.

Definition with_client (s : QwenClient) (f : frame) : frame :=
  {| client := s; vars := vars f; console := console f |}.

(** The frame of [chat] with the token of its client replaced. *)
Definition retoken (t : pyval) (f : frame) : frame :=
  with_client (set_token t (client f)) f.

(** The keys of an object. *)
Definition keys (v : pyval) : list string :=
  match v with
  | PDict items => map fst items
  | _ => []
  end.

Section Streams.

Variable json_loads : string -> option pyval.

(** The record a line carries, if it carries one. *)
Definition line_record (line : string) : option pyval :=
  match data_payload line with
  | Some json_str => json_loads json_str
  | None => None
  end.

Definition line_choices (line : string) : list pyval :=
  match line_record line with
  | Some data => record_choices data
  | None => []
  end.

(** The content deltas of a stream, in arrival order. *)
Definition stream_deltas (lines : list string) : list pyval :=
  flat_map line_choices lines.

(** Those of them [chat] reads. *)
Definition chat_deltas (lines : list string) : list pyval :=
  flat_map (fun line => consumed (line_choices line)) lines.

(** A stream is well formed when every record it carries has the shape
    of the wire protocol. *)
Definition wf_line (line : string) : bool :=
  match line_record line with
  | Some data => wf_record data
  | None => true
  end.

Definition wf_stream (lines : list string) : bool := forallb wf_line lines.

Definition no_delta_after_finish (lines : list string) : bool :=
  forallb (fun line => finish_last (line_choices line)) lines.

End Streams.

(** ** Conversation creation, as the specification speaks of it *)

(** The calls that create a conversation among the calls made. *)
Definition creation_calls (calls : list request) : nat :=
  length (filter (fun r => match call r with Post => true | Stream => false end)
                 calls).




(** ** Sample data

    JSON texts and the values [json.loads] gives for them, for the worked
    examples.  The strings of a sample need no escape. *)

Module Samples.

Definition dq : string := String (ascii_of_nat 34) EmptyString.

Inductive jtree : Type :=
| JNull
| JBool (b : bool)
| JStr (s : string)
| JArr (items : list jtree)
| JObj (fields : list (string * jtree)).

(** The text of a document. *)
Fixpoint text_of (t : jtree) : string :=
  match t with
  | JNull => "null"
  | JBool b => if b then "true" else "false"
  | JStr s => dq ++ s ++ dq
  | JArr items => "[" ++ String.concat ", " (map text_of items) ++ "]"
  | JObj fields =>
      "{" ++ String.concat ", "
               (map (fun kv => match kv with
                               | (k, v) => dq ++ k ++ dq ++ ": " ++ text_of v
                               end) fields)
          ++ "}"
  end%string.

(** The value the text parses to. *)
Fixpoint value_of (t : jtree) : pyval :=
  match t with
  | JNull => PNone
  | JBool b => PBool b
  | JStr s => PStr s
  | JArr items => PList (map value_of items)
  | JObj fields =>
      PDict (map (fun kv => match kv with (k, v) => (k, value_of v) end) fields)
  end.

(** A choice with the given string fields in its delta, and a record of
    choices. *)
Definition delta (fields : list (string * string)) : jtree :=
  JObj [("delta", JObj (map (fun kv => (fst kv, JStr (snd kv))) fields))].

Definition choices (cs : list jtree) : jtree := JObj [("choices", JArr cs)].

Definition think (content : string) : jtree :=
  choices [delta [("content", content); ("phase", "think")]].

Definition answer (content : string) : jtree :=
  choices [delta [("content", content); ("phase", "answer")]].

(** An answer delta that signals completion, followed in the same record
    by one more answer delta. *)
Definition finished_then_more : jtree :=
  choices [delta [("content", "4"); ("phase", "answer"); ("status", "finished")];
           delta [("content", "2"); ("phase", "answer")]].

Definition summary : jtree :=
  choices [delta [("content", "x"); ("phase", "summary")]].

Definition created : jtree :=
  JObj [("response.created", JObj [("response_id", JStr "resp-1")])].

Definition creation_ok : jtree :=
  JObj [("success", JBool true); ("data", JObj [("id", JStr "conv-1")])].

Definition creation_rejected : jtree := JObj [("success", JBool false)].

Definition cookie_jar : jtree := JObj [("sid", JStr "abc")].

Definition documents : list jtree :=
  [think "thinking..."; answer "42"; think "r1"; answer "a1"; think "r2";
   answer "a2"; answer "4"; answer "2"; finished_then_more; summary; created;
   creation_ok; creation_rejected; cookie_jar].

(** [json.loads] on the sample texts; every other text met in the
    examples is not JSON. *)
Definition sample_json_loads (s : string) : option pyval :=
  match find (fun t => String.eqb (text_of t) s) documents with
  | Some t => Some (value_of t)
  | None => None
  end.

Definition data_line (t : jtree) : string := ("data: " ++ text_of t)%string.

Definition done : string := "data: [DONE]".

Definition sample_config : Config :=
  {| BASE_URL := "https://chat.qwen.ai"; COOKIES_FILE := "cookies.json";
     TOKEN_FILE := "token.txt"; USER_AGENT := "Mozilla/5.0" |}.

(** A client with cookies and no conversation yet, and one with an open
    conversation. *)
Definition fresh_client : QwenClient :=
  {| config := sample_config; cookies := value_of cookie_jar; token := PNone;
     conversation_id := PNone; parent_id := PNone;
     thinking_enabled := false; thinking_budget := 81920 |}.

Definition open_client : QwenClient := set_conversation_id (PStr "conv-1") fresh_client.

Definition silent : world := {| out := []; sent := []; uuids := 0; ticks := 0 |}.

(** A service that answers a creation call with [body] and streams
    [lines] back on a turn. *)
Definition service (status_code : Z) (body : jtree) (lines : list string)
  : list request -> request -> http_reply :=
  fun _ r =>
    match call r with
    | Post => Response status_code (text_of body) []
    | Stream => Response 200 "" lines
    end.

Definition sample_uuid4 (n : nat) : string :=
  ("00000000-0000-4000-8000-00000000000" ++ String (ascii_of_nat (48 + n)) "")%string.

Definition sample_time (n : nat) : Q := (1700000000 # 1)%Q.

Definition sample_chat (lines : list string) (self : QwenClient) (prompt : string)
  : option string * QwenClient * world :=
  chat sample_json_loads (service 200 creation_ok lines) sample_uuid4 sample_time
       self prompt silent.

Definition sample_send (lines : list string) (self : QwenClient) (prompt : string)
  : reply * QwenClient * world :=
  send_message sample_json_loads (service 200 creation_ok lines) sample_uuid4
               sample_time self prompt None silent.

End Samples.

(** ** More vocabulary: calls, identifiers, threading *)

From Stdlib Require Import Lia.

(** The streaming calls among the calls made. *)
Definition stream_calls (calls : list request) : nat :=
  length (filter (fun r => match call r with Stream => true | Post => false end)
                 calls).

(** The value of a header of a call. *)
Fixpoint header_value (name : string) (hs : list (string * string))
  : option string :=
  match hs with
  | [] => None
  | (k, v) :: rest => if String.eqb name k then Some v else header_value name rest
  end.

Definition request_id (r : request) : option string :=
  header_value "X-Request-Id" (headers r).

(** [ks] increases strictly, from [lo] on and below [hi]. *)
Fixpoint increasing_from (lo : nat) (ks : list nat) (hi : nat) : bool :=
  match ks with
  | [] => Nat.leb lo hi
  | k :: rest => Nat.leb lo k && increasing_from (S k) rest hi
  end.

(** The request ids of the calls made are identifiers drawn so far, each
    drawn after the one before. *)
Definition ids_drawn (uuid4 : nat -> string) (w : world) : Prop :=
  exists ks,
    map request_id (sent w) = map (fun k => Some (uuid4 k)) ks
    /\ increasing_from 0 ks (uuids w) = true.


(** Two clients that differ at most in the parent pointer. *)
Definition same_but_parent (a b : QwenClient) : Prop :=
  b = set_parent_id (parent_id b) a.

(** A payload that is no container: [None], a boolean or a number. *)
Definition is_scalar (v : pyval) : bool :=
  match v with
  | PNone | PBool _ | PInt _ | PFloat _ => true
  | _ => false
  end.

(** A string of white space only. *)
Fixpoint all_space (s : string) : bool :=
  match s with
  | EmptyString => true
  | String c rest => PyStr.isspace c && all_space rest
  end.

(** The [feature_config] of the one message of a turn payload. *)
Definition turn_feature_config (payload : pyval) : option pyval :=
  match payload with
  | PDict items =>
      match Py.assoc "messages" items with
      | Some (PList [PDict message]) => Py.assoc "feature_config" message
      | _ => None
      end
  | _ => None
  end.

Section MoreStreams.

Variable json_loads : string -> option pyval.


End MoreStreams.

(** Two clients with the same configuration, credentials and thinking
    settings. *)
Definition same_settings (a b : QwenClient) : Prop :=
  config b = config a
  /\ cookies b = cookies a
  /\ token b = token a
  /\ thinking_enabled b = thinking_enabled a
  /\ thinking_budget b = thinking_budget a.

(** The transport raised, or the status is not 200. *)
Definition turn_refused (r : http_reply) : bool :=
  match r with
  | Failed => true
  | Response status_code _ _ => negb (status_code =? 200)%Z
  end.

(** What a method adds to the calls made: [posts] creation calls, then
    [streams] streaming calls, their request ids drawn in order from the
    identifiers not drawn before. *)
Definition calls_added (uuid4 : nat -> string) (w w' : world)
    (posts streams : nat) : Prop :=
  exists cs ts ks,
    sent w' = sent w ++ cs ++ ts
    /\ creation_calls cs = length cs /\ length cs = posts
    /\ stream_calls ts = length ts /\ length ts = streams
    /\ map request_id (cs ++ ts) = map (fun k => Some (uuid4 k)) ks
    /\ increasing_from (uuids w) ks (uuids w') = true.

(** A payload that is an array with [key] among its elements, or a string
    in which [key] occurs. *)
Definition mentions (key : string) (v : pyval) : bool :=
  match v with
  | PList items => existsb (fun x => Py.eq (PStr key) x) items
  | PStr s => PyStr.contains key s
  | _ => false
  end.

Definition is_object (v : pyval) : bool :=
  match v with
  | PDict _ => true
  | _ => false
  end.

(** The exception the constructor raises on a cookie file with the given
    parse, if it raises: [json.load] fails, or [in] or the subscript of
    lines 29-30 does. *)
Definition cookie_file_error (parsed : option pyval) : option exn :=
  match parsed with
  | None => Some JSONDecodeError
  | Some v =>
      if is_object v then None
      else if is_scalar v || mentions "token" v then Some TypeError
      else None
  end.

(** ** More sample data *)

Module Cases.

Import Samples.

(** Identifiers that never repeat: the [n]th is ["id-"] followed by [n]
    marks. *)
Fixpoint marks (n : nat) : string :=
  match n with
  | O => EmptyString
  | S n' => String "i"%char (marks n')
  end.

Definition counting_uuid4 (n : nat) : string := ("id-" ++ marks n)%string.

Definition created_again : jtree :=
  JObj [("response.created", JObj [("response_id", JStr "resp-2")])].

(** A creation body whose id is the boolean [true]. *)
Definition creation_odd : jtree :=
  JObj [("success", JBool true); ("data", JObj [("id", JBool true)])].

Definition documents : list jtree :=
  Samples.documents
  ++ [JNull; JBool true; created_again; creation_odd;
      JArr [JStr "choices"]].

Definition json_loads (s : string) : option pyval :=
  match find (fun t => String.eqb (text_of t) s) documents with
  | Some t => Some (value_of t)
  | None => None
  end.

End Cases.

(** ** [display.py]: the live panel *)

Module Display.

(** Lines 39-57, on chunks that are strings: the value returned and the
    texts the panel is updated with, in order. *)
Fixpoint stream_live_from (full_content : string) (chunks : list string)
  : string * list string :=
  match chunks with
  | [] => (full_content, [])
  | chunk :: rest =>
      if negb (PyStr.is_empty chunk) then
        let full_content' := (full_content ++ chunk)%string in
        let (result, updates) := stream_live_from full_content' rest in
        (result, full_content' :: updates)
      else stream_live_from full_content rest
  end.

Definition stream_live (content_generator : list string)
  : string * list string :=
  stream_live_from "" content_generator.

End Display.

(** ** [llms/qwen_llm.py]: the wrapper the orchestration calls *)

Module Llm.

(** A message as CrewAI passes it: an object whose values are strings. *)
Definition message : Type := list (string * string).

(** [msg.get(key, default)] *)
Fixpoint msg_get (msg : message) (key default : string) : string :=
  match msg with
  | [] => default
  | (k, v) :: rest => if String.eqb key k then v else msg_get rest key default
  end.

(** The argument [messages]: a string or a list of messages. *)
Inductive messages : Type :=
| Plain (text : string)
| Chat (msgs : list message).

(** Lines 111-118: the loop, on the two variables it assigns. *)
Fixpoint scan_messages (msgs : list message) (prompt : string)
    (system_prompt : option string) : string * option string :=
  match msgs with
  | [] => (prompt, system_prompt)
  | msg :: rest =>
      let role := msg_get msg "role" "" in
      let content := msg_get msg "content" "" in
      if String.eqb role "system" then scan_messages rest prompt (Some content)
      else if String.eqb role "user" then scan_messages rest content system_prompt
      else scan_messages rest prompt system_prompt
  end.

(** Lines 104-121: the prompt and the system prompt of a call. *)
Definition extract_prompt (m : messages) : string * option string :=
  match m with
  | Plain text => (text, None)
  | Chat msgs =>
      let (prompt, system_prompt) := scan_messages msgs "" None in
      if PyStr.is_empty prompt
         && match msgs with [] => false | _ => true end
      then (msg_get (last msgs []) "content" "", system_prompt)
      else (prompt, system_prompt)
  end.

(** The two attributes of the wrapper. *)
Record QwenLLM : Type := {
  _client : option QwenClient;
  _initialized : bool
}.

(** Lines 75-78. *)
Definition new_llm : QwenLLM := {| _client := None; _initialized := false |}.

(** What [call] returns: the string of [send_message], the string
    ["No response received"], or the string of the handler at line 126. *)
Inductive call_text : Type :=
| Reply (r : reply)
| NoResponseReceived
| ErrorCalling (e : exn).

(** [call] raises the [RuntimeError] of line 88, carrying its cause, or
    returns. *)
Inductive call_result : Type :=
| CallRaises (cause : exn)
| CallReturns (text : call_text).

(** [bool(response)] on what [send_message] returns: each error string is
    non-empty. *)
Definition reply_truthy (r : reply) : bool :=
  match r with
  | Answer answer_content => negb (PyStr.is_empty answer_content)
  | _ => true
  end.

Section Wrapper.

Variable json_loads : string -> option pyval.
Variable transport : list request -> request -> http_reply.
Variable uuid4 : nat -> string.
Variable time_time : nat -> Q.

(** Lines 80-88.  The modules of [QwenChat/src] are taken to load. *)
Definition _ensure_client (llm : QwenLLM) (cfg : Config)
    (open_ : string -> file) : res QwenLLM :=
  if negb (_initialized llm) then
    match __init__ json_loads cfg open_ with
    | Ok c => Ok {| _client := Some c; _initialized := true |}
    | Raise e => Raise e
    end
  else Ok llm.

(** Lines 90-127.  [send_message] raises nothing, so the handler at line
    126 is reached only when [self._client] is [None]. *)
Definition call (llm : QwenLLM) (cfg : Config) (open_ : string -> file)
    (m : messages) (w : world) : call_result * QwenLLM * world :=
  match _ensure_client llm cfg open_ with
  | Raise e => (CallRaises e, llm, w)
  | Ok llm1 =>
      let (prompt, system_prompt) := extract_prompt m in
      match _client llm1 with
      | None => (CallReturns (ErrorCalling AttributeError), llm1, w)
      | Some c =>
          let '(response, c', w') :=
            send_message json_loads transport uuid4 time_time c prompt
              system_prompt w in
          (CallReturns (if reply_truthy response then Reply response
                        else NoResponseReceived),
           {| _client := Some c'; _initialized := _initialized llm1 |}, w')
      end
  end.

End Wrapper.

(** The content of the last message with the given role, if there is one. *)
Definition last_with_role (role : string) (msgs : list message)
  : option string :=
  match rev (filter (fun msg => String.eqb (msg_get msg "role" "") role) msgs) with
  | msg :: _ => Some (msg_get msg "content" "")
  | [] => None
  end.

End Llm.


(** ** [QwenChat/main.py]: the interactive loop *)

(** The prompt a streaming call carries: the content of its one message. *)
Definition sent_content (r : request) : option string :=
  match json r with
  | PDict items =>
      match Py.assoc "messages" items with
      | Some (PList [PDict msg]) =>
          match Py.assoc "content" msg with
          | Some (PStr content) => Some content
          | _ => None
          end
      | _ => None
      end
  | _ => None
  end.

(** Two clients with the same configuration, credentials and thinking
    budget. *)
Definition same_credentials (a b : QwenClient) : Prop :=
  config b = config a
  /\ cookies b = cookies a
  /\ token b = token a
  /\ thinking_budget b = thinking_budget a.

Module Cli.

(** [c.lower()] on a code point below 256: the letters A to Z and the
    capital letters of Latin-1 (192 to 222 but the multiplication sign)
    move up by 32. *)
Definition lower_char (c : ascii) : ascii :=
  let n := nat_of_ascii c in
  if (Nat.leb 65 n && Nat.leb n 90)
     || (Nat.leb 192 n && Nat.leb n 222 && negb (Nat.eqb n 215))
  then ascii_of_nat (n + 32)
  else c.

(** [s.lower()] *)
Fixpoint lower (s : string) : string :=
  match s with
  | EmptyString => EmptyString
  | String c s' => String (lower_char c) (lower s')
  end.

(** [cmd in [...]] *)
Definition among (cmd : string) (options : list string) : bool :=
  existsb (String.eqb cmd) options.

(** Where the program reads its next answer: at the prompt of
    [interactive_mode], at the prompt of [tools_menu], or nowhere, the
    loop being left. *)
Inductive place : Type :=
| AtPrompt
| InTools
| Left.

(** Line 60: [client.thinking_enabled = not client.thinking_enabled]. *)
Definition toggle_thinking (self : QwenClient) : QwenClient :=
  set_thinking (negb (thinking_enabled self)) (thinking_budget self) self.

(** Lines 39-71: one turn of the loop of [tools_menu], on the answer of
    [Prompt.ask].  [break] returns to [handle_command], which returns
    [True], and the loop of [interactive_mode] goes on. *)
Definition tools_menu_step (self : QwenClient) (answer : string)
  : place * QwenClient :=
  let cmd := lower (PyStr.strip answer) in
  if among cmd ["/back"; "back"; "/exit"; "exit"] then (AtPrompt, self)
  else if among cmd ["/thinking"; "thinking"] then (InTools, toggle_thinking self)
  else (InTools, self).

Section Loop.

Variable json_loads : string -> option pyval.
Variable transport : list request -> request -> http_reply.
Variable uuid4 : nat -> string.
Variable time_time : nat -> Q.

(** Lines 103-114 with [handle_command] (lines 74-90): one turn of the loop
    of [interactive_mode], on the answer of [get_user_input].  The world
    records what the client prints and sends; the panels and lines
    [main.py] prints itself are left out, and so is a keyboard interrupt.
    [chat] and [new_conversation] raise nothing, so the handler at line
    119 is not reached from them. *)
Definition interactive_step (self : QwenClient) (prompt : string) (w : world)
  : place * QwenClient * world :=
  if PyStr.is_empty prompt then (AtPrompt, self, w)
  else
    let cmd := lower (PyStr.strip prompt) in
    if among cmd ["/exit"; "/quit"; "/q"] then (Left, self, w)
    else if String.eqb cmd "/new" then
      let (self', w') := new_conversation self w in (AtPrompt, self', w')
    else if String.eqb cmd "/tools" then (InTools, self, w)
    else
      let '(_, self', w') :=
        chat json_loads transport uuid4 time_time self prompt w in
      (AtPrompt, self', w').

(** The program after one more answer. *)
Definition step (st : place * QwenClient * world) (answer : string)
  : place * QwenClient * world :=
  let '(p, self, w) := st in
  match p with
  | AtPrompt => interactive_step self answer w
  | InTools => let (p', self') := tools_menu_step self answer in (p', self', w)
  | Left => st
  end.

(** Lines 100-114: the loop of [interactive_mode] on a client, after the
    answers given so far. *)
Definition interactive_mode (self : QwenClient) (answers : list string)
    (w : world) : place * QwenClient * world :=
  fold_left step answers (AtPrompt, self, w).

End Loop.

(** An answer [handle_command] handles. *)
Definition is_command (answer : string) : bool :=
  among (lower (PyStr.strip answer)) ["/exit"; "/quit"; "/q"; "/new"; "/tools"].

(** The answers that are neither empty nor commands. *)
Definition plain_prompts (answers : list string) : list string :=
  filter (fun a => negb (PyStr.is_empty a) && negb (is_command a)) answers.

(** An answer that leaves the tools menu, and one that toggles thinking. *)
Definition leaves_menu (answer : string) : bool :=
  among (lower (PyStr.strip answer)) ["/back"; "back"; "/exit"; "exit"].

Definition toggles (answer : string) : bool :=
  negb (leaves_menu answer)
  && among (lower (PyStr.strip answer)) ["/thinking"; "thinking"].

End Cli.
(** * Facts *)

(** ** Strings and texts *)

Lemma append_nil_r (s : string) : (s ++ "")%string = s.
Proof. induction s as [|c s IH]; simpl; [reflexivity | now rewrite IH]. Qed.

Lemma append_assoc (a b c : string) :
  ((a ++ b) ++ c)%string = (a ++ (b ++ c))%string.
Proof. induction a as [|x a IH]; simpl; [reflexivity | now rewrite IH]. Qed.

Lemma join_app (l1 l2 : list string) :
  join (l1 ++ l2) = (join l1 ++ join l2)%string.
Proof.
  induction l1 as [|s l1 IH]; simpl; [reflexivity|].
  now rewrite IH, append_assoc.
Qed.

Lemma text_where_app (keep : pyval -> bool) (l1 l2 : list pyval) :
  text_where keep (l1 ++ l2)
  = (text_where keep l1 ++ text_where keep l2)%string.
Proof. unfold text_where. now rewrite filter_app, map_app, join_app. Qed.

Lemma text_where_cons (keep : pyval -> bool) (c : pyval) (l : list pyval) :
  text_where keep (c :: l)
  = ((if keep c then content_of c else "") ++ text_where keep l)%string.
Proof. unfold text_where. simpl. now destruct (keep c). Qed.

(** ** Comparison with a string literal *)

Lemma eq_str_true (v : pyval) (lit : string) :
  Py.eq_str v lit = true <-> v = PStr lit.
Proof.
  unfold Py.eq_str. split.
  - destruct v; simpl; try discriminate.
    intros H. apply String.eqb_eq in H. now subst.
  - intros ->. simpl. apply String.eqb_refl.
Qed.

Lemma eq_str_PStr (a lit : string) :
  Py.eq_str (PStr a) lit = String.eqb a lit.
Proof. reflexivity. Qed.

Lemma eq_PStr_l (a : string) (v : pyval) :
  Py.eq (PStr a) v = true <-> v = PStr a.
Proof.
  split.
  - destruct v; simpl; try discriminate.
    intros H. apply String.eqb_eq in H. now subst.
  - intros ->. simpl. apply String.eqb_refl.
Qed.

(** ** Reading a well-formed choice *)

Lemma read_delta_wf (c : pyval) :
  wf_choice c = true ->
  read_delta c = Ok (PStr (content_of c), PStr (phase_of c), status_of c).
Proof.
  unfold wf_choice, read_delta, content_of, phase_of, status_of, delta_of,
    absent_or_str.
  destruct c as [| | | | |?|items]; try discriminate. simpl.
  destruct (Py.assoc "delta" items) as [[| | | | |?|d]|]; try discriminate; simpl.
  - intros H. apply andb_true_iff in H as [Hc Hp].
    destruct (Py.assoc "content" d) as [[]|]; try discriminate;
    destruct (Py.assoc "phase" d) as [[]|]; try discriminate;
    destruct (Py.assoc "status" d); reflexivity.
  - reflexivity.
Qed.

Lemma truthy_PStr (s : string) :
  Py.truthy (PStr s) = negb (PyStr.is_empty s).
Proof. reflexivity. Qed.

Lemma is_empty_true (s : string) : PyStr.is_empty s = true <-> s = "".
Proof. destruct s; simpl; split; congruence. Qed.

(** ** The decoder of [send_message] on well-formed input *)

Lemma send_choice_wf (answer : string) (c : pyval) :
  wf_choice c = true ->
  send_choice answer c
  = Ok (answer ++ (if is_answer c then content_of c else ""))%string.
Proof.
  intros Hwf. pose proof (read_delta_wf c Hwf) as Hr.
  unfold read_delta, send_choice in *.
  destruct (Py.get c "delta" (PDict [])) as [delta|]; simpl in *; [|discriminate].
  destruct (Py.get delta "content" (PStr "")) as [content|]; simpl in *; [|discriminate].
  destruct (Py.get delta "phase" (PStr "answer")) as [phase|]; simpl in *; [|discriminate].
  destruct (Py.get delta "status" (PStr "")) as [status|]; simpl in *; [|discriminate].
  injection Hr as -> -> _.
  rewrite truthy_PStr, eq_str_PStr. unfold is_answer.
  destruct (content_of c) eqn:Hc; simpl.
  - destruct (phase_of c =? "answer")%string; now rewrite append_nil_r.
  - destruct (phase_of c =? "answer")%string; simpl;
      [reflexivity | now rewrite append_nil_r].
Qed.

Lemma send_choices_wf (choices : list pyval) : forall answer,
  forallb wf_choice choices = true ->
  send_choices answer choices = Ok (answer ++ answer_text choices)%string.
Proof.
  induction choices as [|c rest IH]; intros answer Hwf; simpl.
  - unfold answer_text, text_where. simpl. now rewrite append_nil_r.
  - simpl in Hwf. apply andb_true_iff in Hwf as [Hc Hrest].
    rewrite (send_choice_wf _ _ Hc). simpl. rewrite (IH _ Hrest).
    unfold answer_text. rewrite text_where_cons, append_assoc. reflexivity.
Qed.

Section SendFacts.

Variable json_loads : string -> option pyval.

Lemma send_line_wf (st : QwenClient * string) (line : string) :
  wf_line json_loads line = true ->
  exists self',
    send_line json_loads st line
    = ((self', snd st ++ answer_text (line_choices json_loads line))%string, None).
Proof.
  destruct st as [self0 answer].
  unfold wf_line, line_choices, line_record, send_line. simpl.
  destruct (data_payload line) as [json_str|];
    [|intros _; exists self0; now rewrite append_nil_r].
  destruct (json_loads json_str) as [data|];
    [|intros _; exists self0; now rewrite append_nil_r].
  unfold wf_record, record_choices.
  destruct data as [| | | | |?|items]; try discriminate.
  simpl. unfold Py.has_key.
  destruct (Py.assoc "response.created" items) as [ci|] eqn:Hci.
  - destruct ci as [| | | | |?|c]; try discriminate. intros _.
    unfold response_created. simpl. rewrite Hci. simpl. unfold Py.has_key.
    destruct (Py.assoc "response_id" c) as [rid|]; simpl;
      eexists; rewrite append_nil_r; reflexivity.
  - destruct (Py.assoc "choices" items) as [v|] eqn:Hch.
    + destruct v as [| | | | |choices|?]; try discriminate. intros Hwf.
      simpl. rewrite (send_choices_wf _ _ Hwf). eexists. reflexivity.
    + intros _. exists self0. now rewrite append_nil_r.
Qed.

Lemma send_lines_wf (lines : list string) : forall st,
  wf_stream json_loads lines = true ->
  exists self',
    send_lines json_loads st lines
    = ((self', snd st ++ answer_text (stream_deltas json_loads lines))%string, None).
Proof.
  induction lines as [|line rest IH]; intros st Hwf; simpl.
  - exists (fst st). destruct st; simpl. unfold answer_text, text_where. simpl.
    now rewrite append_nil_r.
  - simpl in Hwf. apply andb_true_iff in Hwf as [Hl Hrest].
    destruct (send_line_wf st line Hl) as [s1 ->].
    destruct (IH (s1, (snd st ++ answer_text (line_choices json_loads line))%string) Hrest)
      as [s2 ->].
    exists s2. simpl. unfold answer_text. now rewrite text_where_app, append_assoc.
Qed.

End SendFacts.

(** ** The decoder of [chat] on well-formed input *)

Lemma flushes_app (o1 o2 : list event) :
  flushes (o1 ++ o2) = flushes o1 ++ flushes o2.
Proof.
  induction o1 as [|e o1 IH]; simpl; [reflexivity|].
  destruct e; simpl; now rewrite IH.
Qed.

Lemma phase_changed_wf (p : string) (l : locals) (out : list event) :
  let r := phase_changed (PStr p) l out in
  thinking_content (fst r) = thinking_content l
  /\ answer_content (fst r) = answer_content l
  /\ current_phase (fst r) = PStr p
  /\ flushes (snd r)
     = flushes out
       ++ (if Py.eq_str (current_phase l) "think"
              && negb (String.eqb p "think")
              && negb (PyStr.is_empty (thinking_content l))
           then [thinking_content l] else []).
Proof.
  destruct l as [T A cur]. unfold phase_changed.
  cbn -[Py.eq Py.eq_str]. rewrite eq_str_PStr.
  destruct (Py.eq (PStr p) cur) eqn:Heq; cbn -[Py.eq Py.eq_str].
  - apply eq_PStr_l in Heq. subst cur. rewrite eq_str_PStr.
    destruct (p =? "think")%string; cbn; rewrite app_nil_r; auto.
  - destruct (Py.eq_str cur "think") eqn:Hthink; cbn.
    + apply eq_str_true in Hthink. subst cur. cbn in Heq.
      rewrite Heq. cbn.
      destruct (PyStr.is_empty T), (p =? "answer")%string; cbn;
        rewrite ?flushes_app; cbn; rewrite ?app_nil_r; auto.
    + rewrite andb_false_r. cbn. rewrite app_nil_r. auto.
Qed.

Lemma accumulate_wf (content p : string) (l : locals) :
  accumulate (PStr content) (PStr p) l
  = Ok {| thinking_content :=
            (thinking_content l ++ (if String.eqb p "think" then content else ""))%string;
          answer_content :=
            (answer_content l ++ (if String.eqb p "think" then "" else content))%string;
          current_phase := current_phase l |}.
Proof.
  destruct l as [T A cur]. unfold accumulate. rewrite truthy_PStr, eq_str_PStr.
  destruct content as [|ch content]; cbn.
  - destruct (p =? "think")%string; now rewrite !append_nil_r.
  - destruct (p =? "think")%string; cbn; now rewrite !append_nil_r.
Qed.

(** One well-formed delta: what it does to each component of the frame. *)
Lemma chat_choice_wf (f : frame) (c : pyval) :
  wf_choice c = true ->
  let f' := fst (chat_choice f c) in
  snd (chat_choice f c) = (if is_finished_answer c then Break else Next)
  /\ client f' = client f
  /\ thinking_content (vars f')
     = (thinking_content (vars f) ++ (if is_think c then content_of c else ""))%string
  /\ answer_content (vars f')
     = (answer_content (vars f) ++ (if is_think c then "" else content_of c))%string
  /\ current_phase (vars f') = PStr (phase_of c)
  /\ flushes (console f')
     = flushes (console f)
       ++ (if Py.eq_str (current_phase (vars f)) "think"
              && negb (is_think c)
              && negb (PyStr.is_empty (thinking_content (vars f)))
           then [thinking_content (vars f)] else []).
Proof.
  intros Hwf. unfold chat_choice. rewrite (read_delta_wf c Hwf).
  destruct (phase_changed_wf (phase_of c) (vars f) (console f))
    as (HT & HA & Hcur & Hfl).
  destruct (phase_changed (PStr (phase_of c)) (vars f) (console f)) as [l1 out1].
  cbn [fst snd] in *. rewrite accumulate_wf. cbn [fst snd client vars console
    thinking_content answer_content current_phase].
  unfold is_finished_answer, is_answer, is_think. rewrite eq_str_PStr.
  rewrite HT, HA, Hcur, Hfl. auto 10.
Qed.

Lemma feed_cons (f : frame) (c : pyval) (rest : list pyval) :
  feed f (c :: rest) = feed (fst (chat_choice f c)) rest.
Proof. reflexivity. Qed.

Lemma feed_app (f : frame) (l1 l2 : list pyval) :
  feed f (l1 ++ l2) = feed (feed f l1) l2.
Proof. unfold feed. apply fold_left_app. Qed.

Lemma chat_choice_with_client (s : QwenClient) (f : frame) (c : pyval) :
  chat_choice (with_client s f) c
  = (with_client s (fst (chat_choice f c)), snd (chat_choice f c)).
Proof.
  unfold chat_choice, with_client. cbn [client vars console].
  destruct (read_delta c) as [[[content phase] status]|e]; [|reflexivity].
  destruct (phase_changed phase (vars f) (console f)) as [l1 out1].
  destruct (accumulate content phase l1); reflexivity.
Qed.

Lemma with_client_same (f : frame) : with_client (client f) f = f.
Proof. now destruct f. Qed.

Lemma feed_with_client (s : QwenClient) (choices : list pyval) : forall f,
  feed (with_client s f) choices = with_client s (feed f choices).
Proof.
  induction choices as [|c rest IH]; intros f; [reflexivity|].
  rewrite !feed_cons, chat_choice_with_client. cbn [fst]. apply IH.
Qed.

(** The choice loop reads the consumed deltas and raises nothing. *)
Lemma chat_choices_wf (choices : list pyval) : forall f,
  forallb wf_choice choices = true ->
  chat_choices f choices = (feed f (consumed choices), None).
Proof.
  induction choices as [|c rest IH]; intros f Hwf; [reflexivity|].
  cbn [forallb] in Hwf. apply andb_true_iff in Hwf as [Hc Hrest].
  destruct (chat_choice_wf f c Hc) as (Hctl & _).
  cbn [chat_choices consumed].
  destruct (chat_choice f c) as [f' k] eqn:Hstep. cbn [snd] in Hctl. subst k.
  destruct (is_finished_answer c).
  - rewrite feed_cons, Hstep. reflexivity.
  - rewrite feed_cons, Hstep. cbn [fst]. now apply IH.
Qed.

Lemma consumed_wf (choices : list pyval) :
  forallb wf_choice choices = true ->
  forallb wf_choice (consumed choices) = true.
Proof.
  induction choices as [|c rest IH]; intros Hwf; [reflexivity|].
  cbn [forallb] in Hwf. apply andb_true_iff in Hwf as [Hc Hrest].
  cbn [consumed]. destruct (is_finished_answer c); cbn [forallb];
    rewrite Hc; [reflexivity | now apply IH].
Qed.

(** What a run of well-formed deltas leaves in the buffers. *)
Lemma feed_buffers (choices : list pyval) : forall f,
  forallb wf_choice choices = true ->
  client (feed f choices) = client f
  /\ thinking_content (vars (feed f choices))
     = (thinking_content (vars f) ++ think_text choices)%string
  /\ answer_content (vars (feed f choices))
     = (answer_content (vars f) ++ non_think_text choices)%string.
Proof.
  induction choices as [|c rest IH]; intros f Hwf.
  - cbn. unfold think_text, non_think_text, text_where. cbn.
    now rewrite !append_nil_r.
  - cbn [forallb] in Hwf. apply andb_true_iff in Hwf as [Hc Hrest].
    destruct (chat_choice_wf f c Hc) as (_ & Hs & HT & HA & _).
    rewrite feed_cons.
    destruct (IH (fst (chat_choice f c)) Hrest) as (Hs' & HT' & HA').
    rewrite Hs', HT', HA', Hs, HT, HA.
    unfold think_text, non_think_text. rewrite !text_where_cons, !append_assoc.
    destruct (is_think c); cbn [negb]; auto.
Qed.

Section ChatFacts.

Variable json_loads : string -> option pyval.

Lemma line_choices_wf (line : string) :
  wf_line json_loads line = true ->
  forallb wf_choice (line_choices json_loads line) = true.
Proof.
  unfold wf_line, line_choices.
  destruct (line_record json_loads line) as [data|]; [|reflexivity].
  unfold wf_record, record_choices, Py.has_key.
  destruct data as [| | | | |?|items]; try discriminate.
  destruct (Py.assoc "response.created" items); [reflexivity|].
  destruct (Py.assoc "choices" items) as [[]|]; try discriminate; auto.
Qed.

Lemma stream_deltas_wf (lines : list string) :
  wf_stream json_loads lines = true ->
  forallb wf_choice (stream_deltas json_loads lines) = true.
Proof.
  induction lines as [|line rest IH]; intros Hwf; [reflexivity|].
  cbn [wf_stream forallb] in Hwf. apply andb_true_iff in Hwf as [Hl Hrest].
  cbn [stream_deltas flat_map]. rewrite forallb_app.
  rewrite (line_choices_wf _ Hl). now apply IH.
Qed.

Lemma chat_deltas_wf (lines : list string) :
  wf_stream json_loads lines = true ->
  forallb wf_choice (chat_deltas json_loads lines) = true.
Proof.
  induction lines as [|line rest IH]; intros Hwf; [reflexivity|].
  cbn [wf_stream forallb] in Hwf. apply andb_true_iff in Hwf as [Hl Hrest].
  cbn [chat_deltas flat_map]. rewrite forallb_app.
  rewrite (consumed_wf _ (line_choices_wf _ Hl)). now apply IH.
Qed.

(** A well-formed line: the loop body reads its consumed deltas, may move
    the parent pointer, and raises nothing. *)
Lemma chat_line_wf (f : frame) (line : string) :
  wf_line json_loads line = true ->
  exists self',
    chat_line json_loads f line
    = (with_client self' (feed f (consumed (line_choices json_loads line))),
       None).
Proof.
  assert (Hsame : f = with_client (client f) (feed f (consumed [])))
    by (now destruct f).
  unfold wf_line, line_choices, line_record, chat_line.
  destruct (data_payload line) as [json_str|];
    [|intros _; exists (client f); now rewrite <- Hsame].
  destruct (json_loads json_str) as [data|];
    [|intros _; exists (client f); now rewrite <- Hsame].
  unfold wf_record, record_choices.
  destruct data as [| | | | |?|items]; try discriminate.
  cbn [Py.contains]. unfold Py.has_key.
  destruct (Py.assoc "response.created" items) as [ci|] eqn:Hci.
  - destruct ci as [| | | | |?|c]; try discriminate. intros _.
    unfold response_created. cbn [Py.getitem bind]. rewrite Hci.
    cbn [Py.contains bind]. unfold Py.has_key. cbn [Py.getitem].
    destruct (Py.assoc "response_id" c) as [rid|]; cbn [bind];
      eexists; reflexivity.
  - destruct (Py.assoc "choices" items) as [v|] eqn:Hch.
    + destruct v as [| | | | |choices|?]; try discriminate. intros Hwf.
      cbn [Py.getitem bind]. rewrite Hch. cbn [Py.iter bind].
      rewrite (chat_choices_wf _ _ Hwf). exists (client f).
      now rewrite <- feed_with_client, with_client_same.
    + intros _. exists (client f). now rewrite <- Hsame.
Qed.

Lemma chat_lines_wf (lines : list string) : forall f,
  wf_stream json_loads lines = true ->
  exists self',
    chat_lines json_loads f lines
    = (with_client self' (feed f (chat_deltas json_loads lines)), None).
Proof.
  induction lines as [|line rest IH]; intros f Hwf.
  - exists (client f). now destruct f.
  - cbn [wf_stream forallb] in Hwf. apply andb_true_iff in Hwf as [Hl Hrest].
    cbn [chat_lines]. destruct (chat_line_wf f line Hl) as [s1 ->].
    destruct (IH (with_client s1 (feed f (consumed (line_choices json_loads line)))) Hrest)
      as [s2 ->].
    exists s2. cbn [chat_deltas flat_map]. rewrite feed_app, feed_with_client.
    reflexivity.
Qed.

End ChatFacts.

(** ** Blocks of deltas of one phase *)

Lemma text_where_none (keep : pyval -> bool) (l : list pyval) :
  forallb (fun c => negb (keep c)) l = true -> text_where keep l = "".
Proof.
  induction l as [|c l IH]; intros H; [reflexivity|].
  cbn [forallb] in H. apply andb_true_iff in H as [Hc Hl].
  rewrite text_where_cons, (IH Hl). apply negb_true_iff in Hc. now rewrite Hc.
Qed.


Lemma forallb_impl {A : Type} (p q : A -> bool) (l : list A) :
  (forall x, p x = true -> q x = true) ->
  forallb p l = true -> forallb q l = true.
Proof.
  intros Hpq. induction l as [|x l IH]; intros H; [reflexivity|].
  cbn [forallb] in *. apply andb_true_iff in H as [Hx Hl].
  now rewrite (Hpq _ Hx), IH.
Qed.


Lemma is_think_not_answer (c : pyval) : is_think c = true -> is_answer c = false.
Proof.
  unfold is_answer, is_think. intros H. apply String.eqb_eq in H. now rewrite H.
Qed.


Lemma consumed_all (choices : list pyval) :
  finish_last choices = true -> consumed choices = choices.
Proof.
  induction choices as [|c rest IH]; intros H; [reflexivity|].
  cbn [finish_last consumed] in *. destruct (is_finished_answer c).
  - now destruct rest.
  - now rewrite IH.
Qed.







(** ** From the decoders to the methods *)

Section MethodFacts.

Variable json_loads : string -> option pyval.
Variable transport : list request -> request -> http_reply.
Variable uuid4 : nat -> string.
Variable time_time : nat -> Q.

Lemma turn_request_sent (self : QwenClient) (content : string) (w : world) :
  sent (snd (turn_request uuid4 time_time self content w)) = sent w.
Proof. reflexivity. Qed.

Lemma turn_request_say (self : QwenClient) (content : string)
    (m : status_msg) (w : world) :
  turn_request uuid4 time_time self content (say m w)
  = (fst (turn_request uuid4 time_time self content w),
     say m (snd (turn_request uuid4 time_time self content w))).
Proof. reflexivity. Qed.

Lemma turn_reply_say (self : QwenClient) (content : string)
    (m : status_msg) (w : world) :
  turn_reply transport uuid4 time_time self content (say m w)
  = turn_reply transport uuid4 time_time self content w.
Proof. reflexivity. Qed.

(** [chat] on an open conversation whose call is answered with status 200:
    the method returns what the line loop leaves in the answer buffer. *)
Lemma chat_streamed (self : QwenClient) (prompt : string) (w : world)
    (text : string) (lines : list string) :
  Py.truthy (cookies self) = true ->
  Py.truthy (conversation_id self) = true ->
  turn_reply transport uuid4 time_time self prompt w = Response 200 text lines ->
  wf_stream json_loads lines = true ->
  let f := feed {| client := self; vars := initial_locals;
                   console := out w ++ [print_status MsgSending] |}
                (chat_deltas json_loads lines) in
  exists self' w',
    chat json_loads transport uuid4 time_time self prompt w
    = (Some (answer_content (vars f)), self', w')
    /\ flushes (out w') = flushes (console f).
Proof.
  intros Hck Hconv Hreply Hwf f.
  unfold chat, chat_turn. rewrite Hck, Hconv. cbn [negb].
  rewrite <- (turn_reply_say self prompt MsgSending w) in Hreply.
  unfold turn_reply in Hreply.
  destruct (turn_request uuid4 time_time self prompt (say MsgSending w))
    as [req w2] eqn:Hreq.
  rewrite Hreply. cbn [Z.eqb Pos.eqb negb].
  assert (Hout : out (record_call req w2) = out w ++ [print_status MsgSending]).
  { rewrite turn_request_say in Hreq. injection Hreq as _ <-. reflexivity. }
  rewrite Hout.
  destruct (chat_lines_wf json_loads lines
              {| client := self; vars := initial_locals;
                 console := out w ++ [print_status MsgSending] |} Hwf)
    as [s' ->].
  fold f. cbn [with_client vars console client].
  eexists. eexists. split; [reflexivity|].
  cbn [out with_out].
  destruct (PyStr.is_empty (answer_content (vars f))); [reflexivity|].
  rewrite flushes_app. cbn. now rewrite app_nil_r.
Qed.

(** The same for [send_message]. *)
Lemma send_streamed (self : QwenClient) (prompt : string)
    (system_prompt : option string) (w : world)
    (text : string) (lines : list string) :
  Py.truthy (cookies self) = true ->
  Py.truthy (conversation_id self) = true ->
  turn_reply transport uuid4 time_time self
    (full_prompt prompt system_prompt) w = Response 200 text lines ->
  wf_stream json_loads lines = true ->
  exists self' w',
    send_message json_loads transport uuid4 time_time self prompt system_prompt w
    = (Answer (answer_text (stream_deltas json_loads lines)), self', w').
Proof.
  intros Hck Hconv Hreply Hwf.
  unfold send_message, send_turn. rewrite Hck, Hconv. cbn [negb].
  unfold turn_reply in Hreply.
  destruct (turn_request uuid4 time_time self
              (full_prompt prompt system_prompt) w) as [req w2].
  rewrite Hreply. cbn [Z.eqb Pos.eqb negb].
  destruct (send_lines_wf json_loads lines (self, "") Hwf) as [s' ->].
  cbn [fst snd append]. eexists. eexists. reflexivity.
Qed.

End MethodFacts.

Section StreamFacts.

Variable json_loads : string -> option pyval.

(** When no record has a delta after the one that completes the answer,
    [chat] reads every delta of the stream. *)
Lemma chat_deltas_all (lines : list string) :
  no_delta_after_finish json_loads lines = true ->
  chat_deltas json_loads lines = stream_deltas json_loads lines.
Proof.
  induction lines as [|line rest IH]; intros H; [reflexivity|].
  cbn [no_delta_after_finish forallb] in H.
  apply andb_true_iff in H as [Hl Hrest].
  cbn [chat_deltas stream_deltas flat_map].
  rewrite (consumed_all _ Hl). f_equal. now apply IH.
Qed.


End StreamFacts.


(** * The claims *)

Import Samples.




Lemma cumulative_length (texts : list string) : forall seen,
  length (cumulative seen texts) = length texts.
Proof.
  induction texts as [|t texts IH]; intros seen; [reflexivity|].
  cbn [cumulative length]. now rewrite IH.
Qed.




(** ** Lines the loops pass over *)

Section LineFacts.

Variable json_loads : string -> option pyval.

Lemma chat_lines_app (l1 l2 : list string) : forall f,
  chat_lines json_loads f (l1 ++ l2)
  = match chat_lines json_loads f l1 with
    | (f', None) => chat_lines json_loads f' l2
    | (f', Some e) => (f', Some e)
    end.
Proof.
  induction l1 as [|line l1 IH]; intros f; [reflexivity|].
  cbn [app chat_lines].
  destruct (chat_line json_loads f line) as [f' [e|]]; [reflexivity | apply IH].
Qed.

Lemma send_lines_app (l1 l2 : list string) : forall st,
  send_lines json_loads st (l1 ++ l2)
  = match send_lines json_loads st l1 with
    | (st', None) => send_lines json_loads st' l2
    | (st', Some e) => (st', Some e)
    end.
Proof.
  induction l1 as [|line l1 IH]; intros st; [reflexivity|].
  cbn [app send_lines].
  destruct (send_line json_loads st line) as [st' [e|]]; [reflexivity | apply IH].
Qed.

(** A line both loop bodies leave without effect can be removed from the
    stream. *)
Lemma chat_lines_skip (line : string) (pre post : list string) (f : frame) :
  (forall f', chat_line json_loads f' line = (f', None)) ->
  chat_lines json_loads f (pre ++ line :: post)
  = chat_lines json_loads f (pre ++ post).
Proof.
  intros Hskip. rewrite !chat_lines_app.
  destruct (chat_lines json_loads f pre) as [f' [e|]]; [reflexivity|].
  cbn [chat_lines]. now rewrite Hskip.
Qed.

Lemma send_lines_skip (line : string) (pre post : list string)
    (st : QwenClient * string) :
  (forall st', send_line json_loads st' line = (st', None)) ->
  send_lines json_loads st (pre ++ line :: post)
  = send_lines json_loads st (pre ++ post).
Proof.
  intros Hskip. rewrite !send_lines_app.
  destruct (send_lines json_loads st pre) as [st' [e|]]; [reflexivity|].
  cbn [send_lines]. now rewrite Hskip.
Qed.

Lemma sentinel_has_no_payload (line : string) :
  is_sentinel line = true -> data_payload line = None.
Proof.
  unfold is_sentinel, data_payload. intros H.
  apply andb_true_iff in H as [Hp Hd]. rewrite Hp, Hd, orb_true_r.
  now destruct (PyStr.is_empty line).
Qed.

End LineFacts.

(** C3, as amended.  A data line whose payload is the sentinel [[DONE]] is
    passed over by both decoders: it changes neither buffer nor the parent
    pointer and raises nothing, and the loop goes on with the lines that
    follow; the stream ends when its lines are exhausted.  So a stream with
    the sentinel decodes as the stream without it, and when the sentinel is
    the last line the decoder returns what was accumulated before it. *)
Theorem C3_sentinel_is_passed_over :
  forall json_loads f st line pre post,
    is_sentinel line = true ->
    chat_line json_loads f line = (f, None)
    /\ send_line json_loads st line = (st, None)
    /\ chat_lines json_loads f (pre ++ line :: post)
       = chat_lines json_loads f (pre ++ post)
    /\ send_lines json_loads st (pre ++ line :: post)
       = send_lines json_loads st (pre ++ post)
    /\ chat_lines json_loads f (pre ++ [line]) = chat_lines json_loads f pre
    /\ send_lines json_loads st (pre ++ [line]) = send_lines json_loads st pre.
Proof.
  intros json_loads f st line pre post Hs.
  pose proof (sentinel_has_no_payload line Hs) as Hp.
  assert (Hc : forall f', chat_line json_loads f' line = (f', None))
    by (intros f'; unfold chat_line; now rewrite Hp).
  assert (Hd : forall st', send_line json_loads st' line = (st', None))
    by (intros st'; unfold send_line; now rewrite Hp).
  repeat split; auto using chat_lines_skip, send_lines_skip.
  - rewrite (chat_lines_skip json_loads line pre [] f Hc). now rewrite app_nil_r.
  - rewrite (send_lines_skip json_loads line pre [] st Hd). now rewrite app_nil_r.
Qed.

Lemma C3_sentinel_is_passed_over_witness :
  let f := {| client := open_client; vars := initial_locals; console := [] |} in
  let st := (open_client, "") in
  let four := data_line (answer "4") in
  let two := data_line (answer "2") in
  chat_line sample_json_loads f done = (f, None)
  /\ send_line sample_json_loads st done = (st, None)
  /\ chat_lines sample_json_loads f ([four] ++ done :: [two])
     = chat_lines sample_json_loads f ([four] ++ [two])
  /\ send_lines sample_json_loads st ([four] ++ done :: [two])
     = send_lines sample_json_loads st ([four] ++ [two])
  /\ chat_lines sample_json_loads f ([four] ++ [done])
     = chat_lines sample_json_loads f [four]
  /\ send_lines sample_json_loads st ([four] ++ [done])
     = send_lines sample_json_loads st [four].
Proof.
  exact (C3_sentinel_is_passed_over sample_json_loads
           {| client := open_client; vars := initial_locals; console := [] |}
           (open_client, "") done [data_line (answer "4")]
           [data_line (answer "2")] eq_refl).
Defined.

(** C3 fails where it says that the sentinel ends the stream: a content
    line after the sentinel is decoded and changes the answer.  After "4"
    and the sentinel the answer accumulated is "4"; with one more answer
    line "2" behind the sentinel both methods return "42". *)
Lemma C3_counterexample :
  let pre := [data_line (answer "4"); done] in
  let post := [data_line (answer "2")] in
  fst (fst (sample_chat pre open_client "hi")) = Some "4"
  /\ fst (fst (sample_chat (pre ++ post) open_client "hi")) = Some "42"
  /\ fst (fst (sample_send pre open_client "hi")) = Answer "4"
  /\ fst (fst (sample_send (pre ++ post) open_client "hi")) = Answer "42"
  /\ fst (fst (sample_chat (pre ++ post) open_client "hi"))
     <> fst (fst (sample_chat pre open_client "hi"))
  /\ fst (fst (sample_send (pre ++ post) open_client "hi"))
     <> fst (fst (sample_send pre open_client "hi")).
Proof.
  cbv zeta. repeat split; try reflexivity; vm_compute; discriminate.
Qed.





(** ** Conversation creation *)

Lemma creation_calls_snoc (calls : list request) (r : request) :
  call r = Post -> creation_calls (calls ++ [r]) = creation_calls calls + 1.
Proof.
  intros H. unfold creation_calls. rewrite filter_app, length_app.
  cbn [filter]. now rewrite H.
Qed.

Section CreationFacts.

Variable json_loads : string -> option pyval.
Variable transport : list request -> request -> http_reply.
Variable uuid4 : nat -> string.
Variable time_time : nat -> Q.

Lemma creation_request_post (self : QwenClient) (w : world) :
  call (fst (creation_request uuid4 time_time self w)) = Post
  /\ sent (snd (creation_request uuid4 time_time self w)) = sent w.
Proof. split; reflexivity. Qed.

(** With an id already set the method returns it and does nothing. *)
Lemma create_when_set (self : QwenClient) (w : world) :
  Py.truthy (conversation_id self) = true ->
  _create_conversation json_loads transport uuid4 time_time self w
  = (conversation_id self, self, w).
Proof. intros H. unfold _create_conversation. now rewrite H. Qed.

Ltac break_match :=
  match goal with
  | |- context [match ?x with _ => _ end] => destruct x eqn:?
  end.

(** Without one it makes exactly one creation call, whatever the reply. *)
Lemma create_when_unset (self : QwenClient) (w : world) :
  Py.truthy (conversation_id self) = false ->
  creation_calls
    (sent (snd (_create_conversation json_loads transport uuid4 time_time self w)))
  = creation_calls (sent w) + 1.
Proof.
  intros H. unfold _create_conversation, creation_failed. rewrite H.
  destruct (creation_request_post self w) as [Hpost Hsent].
  destruct (creation_request uuid4 time_time self w) as [req w2].
  cbn [fst snd] in Hpost, Hsent.
  repeat break_match; cbn [snd say emit record_call sent];
    rewrite Hsent; now apply creation_calls_snoc.
Qed.

(** An id the method returns is the id it has stored. *)
Lemma create_returns_stored (self self' : QwenClient) (w w' : world)
    (id : pyval) :
  _create_conversation json_loads transport uuid4 time_time self w
  = (id, self', w') ->
  Py.truthy id = true ->
  conversation_id self' = id.
Proof.
  unfold _create_conversation, creation_failed.
  destruct (creation_request uuid4 time_time self w) as [req w2].
  repeat break_match; intros Heq Hid; injection Heq as <- <- <-;
    try discriminate; reflexivity.
Qed.

End CreationFacts.

(** C5.  From a client without a conversation, when the first call of
    [_create_conversation] returns an id, a second call in a row returns
    that same id and changes nothing: the two calls make exactly one
    creation call.  [new_conversation] clears the conversation id and the
    parent pointer of any client (it has no failing path), and the call
    after it makes a creation call again. *)
Theorem C5_creation_happens_once :
  forall json_loads transport uuid4 time_time self w id self1 w1,
    Py.truthy (conversation_id self) = false ->
    _create_conversation json_loads transport uuid4 time_time self w
    = (id, self1, w1) ->
    Py.truthy id = true ->
    _create_conversation json_loads transport uuid4 time_time self1 w1
    = (id, self1, w1)
    /\ creation_calls (sent w1) = creation_calls (sent w) + 1
    /\ (forall s w0,
          conversation_id (fst (new_conversation s w0)) = PNone
          /\ parent_id (fst (new_conversation s w0)) = PNone
          /\ sent (snd (new_conversation s w0)) = sent w0)
    /\ creation_calls
         (sent (snd (_create_conversation json_loads transport uuid4 time_time
                       (fst (new_conversation self1 w1))
                       (snd (new_conversation self1 w1)))))
       = creation_calls (sent w1) + 1.
Proof.
  intros json_loads transport uuid4 time_time self w id self1 w1 Hunset Hfirst Hid.
  pose proof (create_returns_stored _ _ _ _ _ _ _ _ _ Hfirst Hid) as Hstored.
  repeat split.
  - rewrite create_when_set; rewrite Hstored; [reflexivity | exact Hid].
  - pose proof (create_when_unset json_loads transport uuid4 time_time self w Hunset)
      as Hcalls.
    now rewrite Hfirst in Hcalls.
  - now rewrite create_when_unset.
Qed.

Lemma C5_creation_happens_once_witness :
  let create := _create_conversation sample_json_loads
                  (service 200 creation_ok []) sample_uuid4 sample_time in
  let self1 := snd (fst (create fresh_client silent)) in
  let w1 := snd (create fresh_client silent) in
  create self1 w1 = (PStr "conv-1", self1, w1)
  /\ creation_calls (sent w1) = 1
  /\ (forall s w0,
        conversation_id (fst (new_conversation s w0)) = PNone
        /\ parent_id (fst (new_conversation s w0)) = PNone
        /\ sent (snd (new_conversation s w0)) = sent w0)
  /\ creation_calls
       (sent (snd (create (fst (new_conversation self1 w1))
                          (snd (new_conversation self1 w1)))))
     = 2.
Proof.
  exact (C5_creation_happens_once sample_json_loads (service 200 creation_ok [])
           sample_uuid4 sample_time fresh_client silent (PStr "conv-1")
           (set_conversation_id (PStr "conv-1") fresh_client)
           (snd (_create_conversation sample_json_loads
                   (service 200 creation_ok []) sample_uuid4 sample_time
                   fresh_client silent))
           eq_refl eq_refl eq_refl).
Defined.



(** ** Loading credentials *)

(** C8, as amended.  A missing cookie file is treated as no cookies (the
    empty object) and a missing token file as no token: with the cookie
    file missing, or holding an object without a [token] key, and the token
    file missing, the constructor succeeds and no exception propagates; a
    token file that exists is read and stripped. *)
Theorem C8_missing_files_are_absent :
  forall json_loads cfg open_,
    (open_ (COOKIES_FILE cfg) = Missing ->
     __init__ json_loads cfg open_
     = Ok {| config := cfg; cookies := PDict [];
             token := match open_ (TOKEN_FILE cfg) with
                      | Missing => PNone
                      | Text contents => PStr (PyStr.strip contents)
                      end;
             conversation_id := PNone; parent_id := PNone;
             thinking_enabled := false; thinking_budget := 81920 |})
    /\ (forall contents items,
          open_ (COOKIES_FILE cfg) = Text contents ->
          json_loads contents = Some (PDict items) ->
          Py.has_key "token" items = false ->
          open_ (TOKEN_FILE cfg) = Missing ->
          __init__ json_loads cfg open_
          = Ok {| config := cfg; cookies := PDict items; token := PNone;
                  conversation_id := PNone; parent_id := PNone;
                  thinking_enabled := false; thinking_budget := 81920 |}).
Proof.
  intros json_loads cfg open_. split.
  - intros Hc. unfold __init__, _load_cookies, _get_token_from_cookies.
    rewrite Hc. cbn [bind Py.contains Py.has_key Py.assoc].
    now destruct (open_ (TOKEN_FILE cfg)).
  - intros contents items Hc Hj Hk Ht.
    unfold __init__, _load_cookies, _get_token_from_cookies.
    rewrite Hc, Hj. cbn [bind Py.contains]. rewrite Hk, Ht. reflexivity.
Qed.

Lemma C8_missing_files_are_absent_witness :
  __init__ sample_json_loads sample_config (fun _ => Missing)
  = Ok {| config := sample_config; cookies := PDict []; token := PNone;
          conversation_id := PNone; parent_id := PNone;
          thinking_enabled := false; thinking_budget := 81920 |}
  /\ __init__ sample_json_loads sample_config
       (fun path => if String.eqb path "cookies.json"
                    then Text (text_of cookie_jar) else Missing)
     = Ok fresh_client.
Proof.
  split.
  - exact (proj1 (C8_missing_files_are_absent sample_json_loads sample_config
                    (fun _ => Missing)) eq_refl).
  - exact (proj2 (C8_missing_files_are_absent sample_json_loads sample_config
                    (fun path => if String.eqb path "cookies.json"
                                 then Text (text_of cookie_jar) else Missing))
                 (text_of cookie_jar) [("sid", PStr "abc")]
                 eq_refl eq_refl eq_refl eq_refl).
Defined.

(** C8 fails for a corrupt cookie file: the file exists, its contents do
    not parse, and the decode error leaves the constructor. *)
Lemma C8_counterexample :
  let open_ := fun path => if String.eqb path "cookies.json"
                           then Text "{broken" else Missing in
  sample_json_loads "{broken" = None
  /\ __init__ sample_json_loads sample_config open_ = Raise JSONDecodeError
  /\ ~ (exists c, __init__ sample_json_loads sample_config open_ = Ok c).
Proof.
  cbv zeta. repeat split. intros [c H]. vm_compute in H. discriminate.
Qed.

(** ** The two decoders side by side *)

(** C9.  [chat] appends the content of a delta to the answer buffer
    whenever its phase is not [think], [send_message] only when its phase is
    [answer]; so on a stream whose one delta has some content and a phase
    that is neither, [chat] returns that content and [send_message] returns
    the empty string. *)
Theorem C9_decoders_classify_phases_differently :
  forall json_loads transport uuid4 time_time self prompt w text line c,
    Py.truthy (cookies self) = true ->
    Py.truthy (conversation_id self) = true ->
    turn_reply transport uuid4 time_time self prompt w
    = Response 200 text [line] ->
    line_record json_loads line = Some (PDict [("choices", PList [c])]) ->
    wf_choice c = true ->
    is_think c = false ->
    is_answer c = false ->
    PyStr.is_empty (content_of c) = false ->
    (forall f c',
        wf_choice c' = true ->
        answer_content (vars (fst (chat_choice f c')))
        = (answer_content (vars f)
           ++ (if is_think c' then "" else content_of c'))%string)
    /\ (forall answer c',
          wf_choice c' = true ->
          send_choice answer c'
          = Ok (answer ++ (if is_answer c' then content_of c' else ""))%string)
    /\ fst (fst (chat json_loads transport uuid4 time_time self prompt w))
       = Some (content_of c)
    /\ fst (fst (send_message json_loads transport uuid4 time_time
                   self prompt None w))
       = Answer ""
    /\ content_of c <> "".
Proof.
  intros json_loads transport uuid4 time_time self prompt w text line c
    Hck Hconv Hreply Hrec Hwf Hth Han Hne.
  assert (Hline : line_choices json_loads line = [c])
    by (unfold line_choices; now rewrite Hrec).
  assert (Hwfs : wf_stream json_loads [line] = true).
  { cbn [wf_stream forallb]. unfold wf_line. rewrite Hrec.
    cbn. now rewrite Hwf. }
  split; [|split; [|split; [|split]]].
  - intros f c' Hc'. now destruct (chat_choice_wf f c' Hc') as (_ & _ & _ & HA & _).
  - intros answer c' Hc'. now apply send_choice_wf.
  - destruct (chat_streamed json_loads transport uuid4 time_time self prompt
                w text [line] Hck Hconv Hreply Hwfs)
      as (s' & w' & -> & _).
    cbn [fst]. f_equal.
    destruct (feed_buffers (chat_deltas json_loads [line])
                {| client := self; vars := initial_locals;
                   console := out w ++ [print_status MsgSending] |}
                (chat_deltas_wf json_loads [line] Hwfs))
      as (_ & _ & HA).
    rewrite HA. cbn [vars initial_locals answer_content append chat_deltas flat_map].
    rewrite Hline, app_nil_r.
    assert (Hcons : consumed [c] = [c])
      by (cbn; now destruct (is_finished_answer c)).
    rewrite Hcons. unfold non_think_text. rewrite text_where_cons, Hth.
    cbn. apply append_nil_r.
  - destruct (send_streamed json_loads transport uuid4 time_time self prompt
                None w text [line] Hck Hconv Hreply Hwfs)
      as (s' & w' & ->).
    cbn [fst stream_deltas flat_map]. rewrite Hline, app_nil_r.
    unfold answer_text. now rewrite text_where_cons, Han.
  - intros H. now rewrite H in Hne.
Qed.

Lemma C9_decoders_classify_phases_differently_witness :
  let c := value_of (delta [("content", "x"); ("phase", "summary")]) in
  (forall f c',
      wf_choice c' = true ->
      answer_content (vars (fst (chat_choice f c')))
      = (answer_content (vars f)
         ++ (if is_think c' then "" else content_of c'))%string)
  /\ (forall answer c',
        wf_choice c' = true ->
        send_choice answer c'
        = Ok (answer ++ (if is_answer c' then content_of c' else ""))%string)
  /\ fst (fst (sample_chat [data_line summary] open_client "hi")) = Some "x"
  /\ fst (fst (sample_send [data_line summary] open_client "hi")) = Answer ""
  /\ "x" <> "".
Proof.
  exact (C9_decoders_classify_phases_differently sample_json_loads
           (service 200 creation_ok [data_line summary]) sample_uuid4
           sample_time open_client "hi" silent "" (data_line summary)
           (value_of (delta [("content", "x"); ("phase", "summary")]))
           eq_refl eq_refl eq_refl eq_refl eq_refl eq_refl eq_refl eq_refl).
Defined.

(** ** The token *)

Lemma chat_choices_client (choices : list pyval) : forall f,
  client (fst (chat_choices f choices)) = client f.
Proof.
  induction choices as [|c rest IH]; intros f; [reflexivity|].
  cbn [chat_choices].
  pose proof (chat_choice_with_client (client f) f c) as H.
  rewrite with_client_same in H.
  destruct (chat_choice f c) as [f' k]. cbn [fst snd] in H.
  injection H as H. assert (Hc : client f' = client f) by (now rewrite H).
  destruct k; cbn [fst]; [now rewrite IH | exact Hc | exact Hc].
Qed.

Lemma chat_choices_with_client (s : QwenClient) (choices : list pyval) :
  forall f,
    chat_choices (with_client s f) choices
    = (with_client s (fst (chat_choices f choices)),
       snd (chat_choices f choices)).
Proof.
  induction choices as [|c rest IH]; intros f; [reflexivity|].
  cbn [chat_choices]. rewrite chat_choice_with_client.
  destruct (chat_choice f c) as [f' k]. cbn [fst snd].
  destruct k; [apply IH | reflexivity | reflexivity].
Qed.

Lemma response_created_set_token (t : pyval) (self : QwenClient) (data : pyval) :
  response_created (set_token t self) data
  = match response_created self data with
    | Ok self' => Ok (set_token t self')
    | Raise e => Raise e
    end.
Proof.
  unfold response_created.
  destruct (Py.getitem data "response.created") as [ci|]; [|reflexivity].
  cbn [bind]. destruct (Py.contains "response_id" ci) as [[|]|];
    try reflexivity.
  cbn [bind]. now destruct (Py.getitem ci "response_id").
Qed.

Section TokenFacts.

Variable json_loads : string -> option pyval.
Variable transport : list request -> request -> http_reply.
Variable uuid4 : nat -> string.
Variable time_time : nat -> Q.

Lemma chat_line_retoken (t : pyval) (f : frame) (line : string) :
  chat_line json_loads (retoken t f) line
  = (retoken t (fst (chat_line json_loads f line)),
     snd (chat_line json_loads f line)).
Proof.
  unfold chat_line.
  destruct (data_payload line) as [json_str|]; [|reflexivity].
  destruct (json_loads json_str) as [data|]; [|reflexivity].
  destruct (Py.contains "response.created" data) as [[|]|]; [| |reflexivity].
  - cbn [retoken with_client client vars console].
    rewrite response_created_set_token.
    now destruct (response_created (client f) data).
  - destruct (Py.contains "choices" data) as [[|]|]; try reflexivity.
    destruct (v <- Py.getitem data "choices";; Py.iter v)%res as [choices|];
      [|reflexivity].
    unfold retoken at 1. rewrite chat_choices_with_client.
    unfold retoken. now rewrite chat_choices_client.
Qed.

Lemma chat_lines_retoken (t : pyval) (lines : list string) : forall f,
  chat_lines json_loads (retoken t f) lines
  = (retoken t (fst (chat_lines json_loads f lines)),
     snd (chat_lines json_loads f lines)).
Proof.
  induction lines as [|line rest IH]; intros f; [reflexivity|].
  cbn [chat_lines]. rewrite chat_line_retoken.
  destruct (chat_line json_loads f line) as [f' [e|]]; cbn [fst snd];
    [reflexivity | apply IH].
Qed.

Lemma send_line_retoken (t : pyval) (self : QwenClient) (answer : string)
    (line : string) :
  send_line json_loads (set_token t self, answer) line
  = ((set_token t (fst (fst (send_line json_loads (self, answer) line))),
      snd (fst (send_line json_loads (self, answer) line))),
     snd (send_line json_loads (self, answer) line)).
Proof.
  unfold send_line. cbn [fst snd].
  destruct (data_payload line) as [json_str|]; [|reflexivity].
  destruct (json_loads json_str) as [data|]; [|reflexivity].
  destruct (Py.contains "response.created" data) as [[|]|]; [| |reflexivity].
  - rewrite response_created_set_token.
    now destruct (response_created self data).
  - destruct (Py.contains "choices" data) as [[|]|]; try reflexivity.
    destruct (v <- Py.getitem data "choices";; Py.iter v)%res as [choices|];
      [|reflexivity].
    now destruct (send_choices answer choices).
Qed.

Lemma send_lines_retoken (t : pyval) (lines : list string) :
  forall self answer,
    send_lines json_loads (set_token t self, answer) lines
    = ((set_token t (fst (fst (send_lines json_loads (self, answer) lines))),
        snd (fst (send_lines json_loads (self, answer) lines))),
       snd (send_lines json_loads (self, answer) lines)).
Proof.
  induction lines as [|line rest IH]; intros self answer; [reflexivity|].
  cbn [send_lines]. rewrite send_line_retoken.
  destruct (send_line json_loads (self, answer) line) as [[s' a'] [e|]];
    cbn [fst snd]; [reflexivity | apply IH].
Qed.

(** The token is not read when a conversation is created. *)
Lemma create_conversation_set_token (t : pyval) (self : QwenClient) (w : world) :
  _create_conversation json_loads transport uuid4 time_time (set_token t self) w
  = (let '(id, self', w') :=
       _create_conversation json_loads transport uuid4 time_time self w in
     (id, set_token t self', w')).
Proof.
  unfold _create_conversation, creation_failed.
  cbn [set_token conversation_id].
  destruct (Py.truthy (conversation_id self)); [reflexivity|].
  change (creation_request uuid4 time_time (set_token t self) w)
    with (creation_request uuid4 time_time self w).
  destruct (creation_request uuid4 time_time self w) as [req w2].
  destruct (transport (sent w2) req) as [|status_code text lines];
    [reflexivity|].
  destruct (status_code =? 200)%Z; [|reflexivity].
  destruct (json_loads text) as [data|]; [|reflexivity].
  destruct (creation_succeeded data) as [[|]|]; try reflexivity.
  destruct (d <- Py.getitem data "data";; Py.getitem d "id")%res as [id|];
    [|reflexivity].
  now destruct (Py.slice_to 8 id).
Qed.

End TokenFacts.

Section TokenMethods.

Variable json_loads : string -> option pyval.
Variable transport : list request -> request -> http_reply.
Variable uuid4 : nat -> string.
Variable time_time : nat -> Q.

Lemma chat_turn_set_token (t : pyval) (self : QwenClient) (prompt : string)
    (w : world) :
  chat_turn json_loads transport uuid4 time_time (set_token t self) prompt w
  = (let '(result, self', w') :=
       chat_turn json_loads transport uuid4 time_time self prompt w in
     (result, set_token t self', w')).
Proof.
  unfold chat_turn.
  change (turn_request uuid4 time_time (set_token t self) prompt (say MsgSending w))
    with (turn_request uuid4 time_time self prompt (say MsgSending w)).
  destruct (turn_request uuid4 time_time self prompt (say MsgSending w))
    as [req w2].
  cbv zeta.
  destruct (transport (sent w2) req) as [|status_code text lines];
    [reflexivity|].
  destruct (negb (status_code =? 200)%Z); [reflexivity|].
  pose proof (chat_lines_retoken json_loads t lines
                {| client := self; vars := initial_locals;
                   console := out (record_call req w2) |}) as H.
  unfold retoken, with_client in H. cbn [client vars console] in H.
  rewrite H.
  destruct (chat_lines json_loads
              {| client := self; vars := initial_locals;
                 console := out (record_call req w2) |} lines)
    as [f [e|]]; reflexivity.
Qed.

Lemma chat_set_token (t : pyval) (self : QwenClient) (prompt : string)
    (w : world) :
  chat json_loads transport uuid4 time_time (set_token t self) prompt w
  = (let '(result, self', w') :=
       chat json_loads transport uuid4 time_time self prompt w in
     (result, set_token t self', w')).
Proof.
  unfold chat. cbn [set_token cookies conversation_id].
  destruct (Py.truthy (cookies self)); [|reflexivity]. cbn [negb].
  destruct (Py.truthy (conversation_id self)); cbn [negb].
  - apply chat_turn_set_token.
  - rewrite create_conversation_set_token.
    destruct (_create_conversation json_loads transport uuid4 time_time self
                (say MsgCreatingSession w)) as [[id s] w'].
    destruct (Py.truthy id); cbn [negb];
      [apply chat_turn_set_token | reflexivity].
Qed.

Lemma send_turn_set_token (t : pyval) (self : QwenClient) (content : string)
    (w : world) :
  send_turn json_loads transport uuid4 time_time (set_token t self) content w
  = (let '(result, self', w') :=
       send_turn json_loads transport uuid4 time_time self content w in
     (result, set_token t self', w')).
Proof.
  unfold send_turn.
  change (turn_request uuid4 time_time (set_token t self) content w)
    with (turn_request uuid4 time_time self content w).
  destruct (turn_request uuid4 time_time self content w) as [req w2].
  cbv zeta.
  destruct (transport (sent w2) req) as [|status_code text lines];
    [reflexivity|].
  destruct (negb (status_code =? 200)%Z); [reflexivity|].
  rewrite send_lines_retoken.
  destruct (send_lines json_loads (self, "") lines) as [[s' a'] [e|]];
    reflexivity.
Qed.

Lemma send_message_set_token (t : pyval) (self : QwenClient)
    (prompt : string) (system_prompt : option string) (w : world) :
  send_message json_loads transport uuid4 time_time (set_token t self)
    prompt system_prompt w
  = (let '(result, self', w') :=
       send_message json_loads transport uuid4 time_time self
         prompt system_prompt w in
     (result, set_token t self', w')).
Proof.
  unfold send_message. cbn [set_token cookies conversation_id].
  destruct (Py.truthy (cookies self)); [|reflexivity]. cbn [negb].
  destruct (Py.truthy (conversation_id self)); cbn [negb].
  - apply send_turn_set_token.
  - rewrite create_conversation_set_token.
    destruct (_create_conversation json_loads transport uuid4 time_time self w)
      as [[id s] w'].
    destruct (Py.truthy id); cbn [negb];
      [apply send_turn_set_token | reflexivity].
Qed.

End TokenMethods.

(** C10.  The token never influences a request.  For two clients that
    differ only in the token, [_get_headers] builds the same headers from
    the same request id, and [_create_conversation], [chat] and
    [send_message] return the same result and leave the same world -- the
    same calls with the same URLs, headers, cookies and payloads, and the
    same console -- and clients that again differ only in the token.  The
    headers have no [Authorization] entry and the two payloads no [token]
    key. *)
Theorem C10_token_never_influences_requests :
  forall json_loads transport uuid4 time_time self t w prompt system_prompt,
    _get_headers uuid4 (set_token t self) w = _get_headers uuid4 self w
    /\ map fst (fst (_get_headers uuid4 self w))
       = ["Accept"; "Content-Type"; "Origin"; "Referer"; "User-Agent";
          "X-Request-Id"; "X-Accel-Buffering"; "source"]
    /\ keys (json (fst (creation_request uuid4 time_time self w)))
       = ["title"; "models"; "chat_mode"; "chat_type"; "timestamp";
          "project_id"]
    /\ keys (json (fst (turn_request uuid4 time_time self prompt w)))
       = ["stream"; "version"; "incremental_output"; "chat_id"; "chat_mode";
          "model"; "parent_id"; "messages"; "timestamp"]
    /\ _create_conversation json_loads transport uuid4 time_time
         (set_token t self) w
       = (let '(id, self', w') :=
            _create_conversation json_loads transport uuid4 time_time self w in
          (id, set_token t self', w'))
    /\ chat json_loads transport uuid4 time_time (set_token t self) prompt w
       = (let '(result, self', w') :=
            chat json_loads transport uuid4 time_time self prompt w in
          (result, set_token t self', w'))
    /\ send_message json_loads transport uuid4 time_time (set_token t self)
         prompt system_prompt w
       = (let '(result, self', w') :=
            send_message json_loads transport uuid4 time_time self
              prompt system_prompt w in
          (result, set_token t self', w')).
Proof.
  intros json_loads transport uuid4 time_time self t w prompt system_prompt.
  repeat split.
  - apply create_conversation_set_token.
  - apply chat_set_token.
  - apply send_message_set_token.
Qed.


(** * More of the client *)

(** ** What a turn leaves of the client *)

Lemma same_but_parent_refl (s : QwenClient) : same_but_parent s s.
Proof. unfold same_but_parent. now destruct s. Qed.

Lemma same_but_parent_set (v : pyval) (a b : QwenClient) :
  same_but_parent a b -> same_but_parent a (set_parent_id v b).
Proof.
  unfold same_but_parent. intros H.
  destruct a, b. unfold set_parent_id in *. cbn in *. congruence.
Qed.

Lemma same_but_parent_trans (a b c : QwenClient) :
  same_but_parent a b -> same_but_parent b c -> same_but_parent a c.
Proof.
  unfold same_but_parent. intros Hab Hbc.
  destruct a, b, c. unfold set_parent_id in *. cbn in *. congruence.
Qed.

Lemma response_created_same (s s' : QwenClient) (data : pyval) :
  response_created s data = Ok s' -> same_but_parent s s'.
Proof.
  unfold response_created.
  destruct (Py.getitem data "response.created") as [ci|]; [|discriminate].
  cbn [bind]. destruct (Py.contains "response_id" ci) as [[|]|];
    cbn [bind]; try discriminate.
  - destruct (Py.getitem ci "response_id") as [rid|]; cbn [bind];
      [|discriminate].
    intros H. injection H as <-. apply same_but_parent_set, same_but_parent_refl.
  - intros H. injection H as <-. apply same_but_parent_refl.
Qed.

Section ClientKept.

Variable json_loads : string -> option pyval.

(** Whatever the line, well formed or not, the loop body of [chat] changes
    nothing of the client but the parent pointer. *)
Lemma chat_line_same (f : frame) (line : string) :
  same_but_parent (client f) (client (fst (chat_line json_loads f line))).
Proof.
  unfold chat_line.
  destruct (data_payload line) as [json_str|]; [|apply same_but_parent_refl].
  destruct (json_loads json_str) as [data|]; [|apply same_but_parent_refl].
  destruct (Py.contains "response.created" data) as [[|]|];
    try apply same_but_parent_refl.
  - destruct (response_created (client f) data) as [s'|] eqn:Hrc;
      [|apply same_but_parent_refl].
    cbn [fst client]. now apply response_created_same with (data := data).
  - destruct (Py.contains "choices" data) as [[|]|];
      try apply same_but_parent_refl.
    destruct (v <- Py.getitem data "choices";; Py.iter v)%res as [choices|];
      [|apply same_but_parent_refl].
    rewrite chat_choices_client. apply same_but_parent_refl.
Qed.

Lemma chat_lines_same (lines : list string) : forall f,
  same_but_parent (client f) (client (fst (chat_lines json_loads f lines))).
Proof.
  induction lines as [|line rest IH]; intros f; [apply same_but_parent_refl|].
  cbn [chat_lines]. pose proof (chat_line_same f line) as H1.
  destruct (chat_line json_loads f line) as [f' [e|]]; cbn [fst] in *;
    [exact H1|].
  eapply same_but_parent_trans; [exact H1 | apply IH].
Qed.

Lemma send_line_same (self : QwenClient) (answer : string) (line : string) :
  same_but_parent self (fst (fst (send_line json_loads (self, answer) line))).
Proof.
  unfold send_line. cbn [fst snd].
  destruct (data_payload line) as [json_str|]; [|apply same_but_parent_refl].
  destruct (json_loads json_str) as [data|]; [|apply same_but_parent_refl].
  destruct (Py.contains "response.created" data) as [[|]|];
    try apply same_but_parent_refl.
  - destruct (response_created self data) as [s'|] eqn:Hrc;
      [|apply same_but_parent_refl].
    cbn [fst]. now apply response_created_same with (data := data).
  - destruct (Py.contains "choices" data) as [[|]|];
      try apply same_but_parent_refl.
    destruct (v <- Py.getitem data "choices";; Py.iter v)%res as [choices|];
      [|apply same_but_parent_refl].
    destruct (send_choices answer choices); apply same_but_parent_refl.
Qed.

Lemma send_lines_same (lines : list string) : forall self answer,
  same_but_parent self (fst (fst (send_lines json_loads (self, answer) lines))).
Proof.
  induction lines as [|line rest IH]; intros self answer;
    [apply same_but_parent_refl|].
  cbn [send_lines]. pose proof (send_line_same self answer line) as H1.
  destruct (send_line json_loads (self, answer) line) as [[s' a'] [e|]];
    cbn [fst] in *; [exact H1|].
  eapply same_but_parent_trans; [exact H1 | apply IH].
Qed.

End ClientKept.

Ltac break_matches :=
  repeat match goal with
         | |- context [match ?x with _ => _ end] => destruct x eqn:?
         end.

Section MethodEffects.

Variable json_loads : string -> option pyval.
Variable transport : list request -> request -> http_reply.
Variable uuid4 : nat -> string.
Variable time_time : nat -> Q.

(** The id line 75 accepts is the id line 76 stores, and it is true. *)
Lemma accepted_id_truthy (data id : pyval) :
  creation_succeeded data = Ok true ->
  (d <- Py.getitem data "data" ;; Py.getitem d "id")%res = Ok id ->
  Py.truthy id = true.
Proof.
  unfold creation_succeeded.
  destruct data as [| | | | |?|items]; try discriminate.
  cbn [Py.get Py.getitem bind].
  destruct (Py.assoc "success" items) as [success|]; cbn [bind Py.truthy];
    [|discriminate].
  destruct (Py.truthy success); [|discriminate].
  destruct (Py.assoc "data" items) as [d|]; cbn [bind]; [|discriminate].
  destruct d as [| | | | |?|fields]; try discriminate.
  cbn [Py.get Py.getitem bind].
  destruct (Py.assoc "id" fields) as [v|]; cbn [bind Py.truthy];
    [|discriminate].
  intros H1 H2. injection H1 as H1. injection H2 as <-. exact H1.
Qed.

(** [_create_conversation] changes at most the conversation id, and sets
    it only to a value that is true. *)
Lemma create_kept (self : QwenClient) (w : world) :
  let s' := snd (fst (_create_conversation json_loads transport uuid4
                        time_time self w)) in
  s' = self
  \/ (Py.truthy (conversation_id self) = false
      /\ Py.truthy (conversation_id s') = true
      /\ s' = set_conversation_id (conversation_id s') self).
Proof.
  unfold _create_conversation, creation_failed.
  destruct (Py.truthy (conversation_id self)) eqn:Hconv; [now left|].
  destruct (creation_request uuid4 time_time self w) as [req w2].
  destruct (transport (sent w2) req) as [|status_code text lines];
    [now left|].
  destruct (status_code =? 200)%Z; [|now left].
  destruct (json_loads text) as [data|]; [|now left].
  destruct (creation_succeeded data) as [[|]|] eqn:Hok; try (now left).
  destruct (d <- Py.getitem data "data";; Py.getitem d "id")%res as [id|] eqn:Hid;
    [|now left].
  pose proof (accepted_id_truthy data id Hok Hid) as Htrue.
  destruct (Py.slice_to 8 id); right; cbn; auto.
Qed.

(** What the creation call adds to the world. *)
Lemma create_effect (self : QwenClient) (w : world) :
  Py.truthy (conversation_id self) = false ->
  let w' := snd (_create_conversation json_loads transport uuid4 time_time
                   self w) in
  exists c,
    sent w' = sent w ++ [c]
    /\ call c = Post
    /\ request_id c = Some (uuid4 (uuids w))
    /\ uuids w' = S (uuids w).
Proof.
  intros Hconv. unfold _create_conversation, creation_failed. rewrite Hconv.
  exists (fst (creation_request uuid4 time_time self w)).
  destruct (creation_request uuid4 time_time self w) as [req w2] eqn:Hreq.
  assert (Hw2 : sent w2 = sent w /\ uuids w2 = S (uuids w)
                /\ call req = Post /\ request_id req = Some (uuid4 (uuids w))).
  { unfold creation_request in Hreq. cbn in Hreq. injection Hreq as <- <-.
    repeat split. }
  destruct Hw2 as (Hs & Hu & Hc & Hr). cbn [fst].
  break_matches; cbn [snd say emit record_call sent uuids];
    rewrite Hs, Hu; auto.
Qed.

Lemma create_idle (self : QwenClient) (w : world) :
  Py.truthy (conversation_id self) = true ->
  _create_conversation json_loads transport uuid4 time_time self w
  = (conversation_id self, self, w).
Proof. intros H. unfold _create_conversation. now rewrite H. Qed.

(** What the turn of [chat] adds to the world and leaves of the client. *)
Lemma chat_turn_effect (self : QwenClient) (prompt : string) (w : world) :
  let r := chat_turn json_loads transport uuid4 time_time self prompt w in
  same_but_parent self (snd (fst r))
  /\ exists t,
       sent (snd r) = sent w ++ [t]
       /\ call t = Stream
       /\ request_id t = Some (uuid4 (uuids w))
       /\ uuids (snd r) = 3 + uuids w
       /\ t = fst (turn_request uuid4 time_time self prompt w).
Proof.
  unfold chat_turn. rewrite turn_request_say.
  destruct (turn_request uuid4 time_time self prompt w) as [req w2] eqn:Hreq.
  assert (Hw2 : sent w2 = sent w /\ uuids w2 = 3 + uuids w
                /\ call req = Stream /\ request_id req = Some (uuid4 (uuids w))).
  { unfold turn_request in Hreq. cbn in Hreq. injection Hreq as <- <-.
    repeat split. }
  destruct Hw2 as (Hs & Hu & Hc & Hr). cbn [fst snd].
  destruct (transport (sent (say MsgSending w2)) req)
    as [|status_code text lines].
  - split; [apply same_but_parent_refl|]. exists req. cbn. rewrite Hs, Hu. auto.
  - destruct (negb (status_code =? 200)%Z).
    + split; [apply same_but_parent_refl|]. exists req. cbn. rewrite Hs, Hu. auto.
    + pose proof (chat_lines_same json_loads lines
                    {| client := self; vars := initial_locals;
                       console := out (record_call req (say MsgSending w2)) |})
        as Hsame.
      destruct (chat_lines json_loads _ lines) as [f [e|]]; cbn [fst snd client] in *;
        (split; [exact Hsame|]); exists req; cbn; rewrite Hs, Hu; auto.
Qed.

Lemma send_turn_effect (self : QwenClient) (content : string) (w : world) :
  let r := send_turn json_loads transport uuid4 time_time self content w in
  same_but_parent self (snd (fst r))
  /\ out (snd r) = out w
  /\ exists t,
       sent (snd r) = sent w ++ [t]
       /\ call t = Stream
       /\ request_id t = Some (uuid4 (uuids w))
       /\ uuids (snd r) = 3 + uuids w
       /\ t = fst (turn_request uuid4 time_time self content w).
Proof.
  unfold send_turn.
  destruct (turn_request uuid4 time_time self content w) as [req w2] eqn:Hreq.
  assert (Hw2 : sent w2 = sent w /\ uuids w2 = 3 + uuids w /\ out w2 = out w
                /\ call req = Stream /\ request_id req = Some (uuid4 (uuids w))).
  { unfold turn_request in Hreq. cbn in Hreq. injection Hreq as <- <-.
    repeat split. }
  destruct Hw2 as (Hs & Hu & Ho & Hc & Hr). cbn [fst snd].
  destruct (transport (sent w2) req) as [|status_code text lines].
  - split; [apply same_but_parent_refl|]. split; [exact Ho|].
    exists req. cbn. rewrite Hs, Hu. auto.
  - destruct (negb (status_code =? 200)%Z).
    + split; [apply same_but_parent_refl|]. split; [exact Ho|].
      exists req. cbn. rewrite Hs, Hu. auto.
    + pose proof (send_lines_same json_loads lines self "") as Hsame.
      destruct (send_lines json_loads (self, "") lines) as [[s' a'] [e|]];
        cbn [fst snd] in *;
        (split; [exact Hsame|]); (split; [exact Ho|]);
        exists req; cbn; rewrite Hs, Hu; auto.
Qed.

End MethodEffects.

Lemma same_but_parent_settings (a b : QwenClient) :
  same_but_parent a b ->
  same_settings a b /\ conversation_id b = conversation_id a.
Proof.
  unfold same_but_parent, same_settings. intros ->. now destruct a.
Qed.

Lemma same_settings_trans (a b c : QwenClient) :
  same_settings a b -> same_settings b c -> same_settings a c.
Proof. unfold same_settings. intuition congruence. Qed.

Section Kept.

Variable json_loads : string -> option pyval.
Variable transport : list request -> request -> http_reply.
Variable uuid4 : nat -> string.
Variable time_time : nat -> Q.

Lemma create_settings (self : QwenClient) (w : world) :
  let s' := snd (fst (_create_conversation json_loads transport uuid4
                        time_time self w)) in
  same_settings self s' /\ parent_id s' = parent_id self
  /\ (Py.truthy (conversation_id self) = true -> s' = self).
Proof.
  cbv zeta.
  destruct (create_kept json_loads transport uuid4 time_time self w)
    as [-> | (Hunset & _ & ->)].
  - unfold same_settings. auto 10.
  - unfold same_settings. cbn. repeat split. congruence.
Qed.

End Kept.

(** X1.  Whatever the service answers, [chat] and [send_message] leave the
    configuration, the cookies, the token and the thinking settings of the
    client as they were, and they never replace a conversation id that is
    set: a turn moves the parent pointer at most. *)
Theorem X1_turn_keeps_credentials :
  forall json_loads transport uuid4 time_time self prompt system_prompt w,
    let after_chat :=
      snd (fst (chat json_loads transport uuid4 time_time self prompt w)) in
    let after_send :=
      snd (fst (send_message json_loads transport uuid4 time_time self prompt
                  system_prompt w)) in
    same_settings self after_chat
    /\ same_settings self after_send
    /\ (Py.truthy (conversation_id self) = true ->
        same_but_parent self after_chat /\ same_but_parent self after_send).
Proof.
  intros json_loads transport uuid4 time_time self prompt system_prompt w.
  cbv zeta. unfold chat, send_message.
  destruct (Py.truthy (cookies self)); cbn [negb].
  2:{ cbn [fst snd]. unfold same_settings. repeat split;
      intros; apply same_but_parent_refl. }
  destruct (Py.truthy (conversation_id self)) eqn:Hconv; cbn [negb].
  - destruct (chat_turn_effect json_loads transport uuid4 time_time self prompt w)
      as [Hc _].
    destruct (send_turn_effect json_loads transport uuid4 time_time self
                (full_prompt prompt system_prompt) w) as [Hs _].
    repeat split; try apply same_but_parent_settings; auto.
  - split; [|split; [|discriminate]].
    + pose proof (create_settings json_loads transport uuid4 time_time self
                    (say MsgCreatingSession w)) as (Hset & _).
      destruct (_create_conversation json_loads transport uuid4 time_time self
                  (say MsgCreatingSession w)) as [[id s1] w1].
      cbn [fst snd] in Hset.
      destruct (Py.truthy id); cbn [negb fst snd]; [|exact Hset].
      destruct (chat_turn_effect json_loads transport uuid4 time_time s1 prompt w1)
        as [Hc _].
      eapply same_settings_trans; [exact Hset|].
      now apply same_but_parent_settings.
    + pose proof (create_settings json_loads transport uuid4 time_time self w)
        as (Hset & _).
      destruct (_create_conversation json_loads transport uuid4 time_time self w)
        as [[id s1] w1].
      cbn [fst snd] in Hset.
      destruct (Py.truthy id); cbn [negb fst snd]; [|exact Hset].
      destruct (send_turn_effect json_loads transport uuid4 time_time s1
                  (full_prompt prompt system_prompt) w1) as [Hs _].
      eapply same_settings_trans; [exact Hset|].
      now apply same_but_parent_settings.
Qed.

(** ** The calls of a turn *)

Lemma increasing_from_one (n m : nat) :
  n < m -> increasing_from n [n] m = true.
Proof.
  intros H. cbn [increasing_from]. apply andb_true_iff.
  split; apply Nat.leb_le; lia.
Qed.

Lemma increasing_from_two (n m : nat) :
  S n < m -> increasing_from n [n; S n] m = true.
Proof.
  intros H. cbn [increasing_from]. rewrite !andb_true_iff.
  repeat split; apply Nat.leb_le; lia.
Qed.

Section Calls.

Variable json_loads : string -> option pyval.
Variable transport : list request -> request -> http_reply.
Variable uuid4 : nat -> string.
Variable time_time : nat -> Q.

Lemma chat_turn_result (self : QwenClient) (prompt : string) (w : world) :
  let r := chat_turn json_loads transport uuid4 time_time self prompt w in
  fst (fst r) <> None ->
  exists text lines,
    turn_reply transport uuid4 time_time self prompt w = Response 200 text lines.
Proof.
  cbv zeta. unfold chat_turn.
  rewrite <- (turn_reply_say transport uuid4 time_time self prompt MsgSending w).
  unfold turn_reply.
  destruct (turn_request uuid4 time_time self prompt (say MsgSending w))
    as [req w2].
  destruct (transport (sent w2) req) as [|status_code text lines];
    [intros H; now contradiction H|].
  destruct (status_code =? 200)%Z eqn:Hst; cbn [negb];
    [|intros H; now contradiction H].
  apply Z.eqb_eq in Hst. subst. intros _. now exists text, lines.
Qed.

Lemma chat_calls (self : QwenClient) (prompt : string) (w : world) :
  let r := chat json_loads transport uuid4 time_time self prompt w in
  exists posts streams,
    calls_added uuid4 w (snd r) posts streams
    /\ posts = (if Py.truthy (cookies self)
                   && negb (Py.truthy (conversation_id self))
                then 1 else 0)
    /\ streams <= 1
    /\ (fst (fst r) <> None -> streams = 1).
Proof.
  cbv zeta. unfold chat, calls_added.
  destruct (Py.truthy (cookies self)); cbn [negb andb].
  2:{ exists 0, 0. split; [|repeat split; auto; intros H; now contradiction H].
      exists [], [], []. cbn. rewrite app_nil_r, Nat.leb_refl. auto 10. }
  destruct (Py.truthy (conversation_id self)) eqn:Hconv; cbn [negb].
  - destruct (chat_turn_effect json_loads transport uuid4 time_time self prompt w)
      as (_ & t & Hs & Hc & Hid & Hu & _).
    exists 0, 1. split; [|auto].
    exists [], [t], [uuids w]. cbn [app length map]. rewrite Hs, Hid, Hu.
    unfold stream_calls, creation_calls. cbn [filter length]. rewrite Hc.
    repeat split. apply increasing_from_one. lia.
  - destruct (create_effect json_loads transport uuid4 time_time self
                (say MsgCreatingSession w) Hconv)
      as (c & Hs & Hc & Hid & Hu).
    destruct (_create_conversation json_loads transport uuid4 time_time self
                (say MsgCreatingSession w)) as [[id s1] w1].
    cbn [fst snd] in *. cbn [say emit sent uuids] in Hs, Hid, Hu.
    destruct (Py.truthy id); cbn [negb fst snd].
    + destruct (chat_turn_effect json_loads transport uuid4 time_time s1 prompt w1)
        as (_ & t & Hs' & Hc' & Hid' & Hu' & _).
      exists 1, 1. split; [|auto].
      exists [c], [t], [uuids w; S (uuids w)]. cbn [app length map].
      rewrite Hs', Hs, Hid', Hid, Hu', Hu, <- app_assoc.
      unfold stream_calls, creation_calls. cbn [filter length app].
      rewrite Hc, Hc'. repeat split. apply increasing_from_two. lia.
    + exists 1, 0. split; [|repeat split; auto; intros H; now contradiction H].
      exists [c], [], [uuids w]. cbn [app length map say emit sent uuids].
      rewrite Hs, Hid, Hu.
      unfold stream_calls, creation_calls. cbn [filter length]. rewrite Hc.
      repeat split. apply increasing_from_one. lia.
Qed.

Lemma send_calls (self : QwenClient) (prompt : string)
    (system_prompt : option string) (w : world) :
  let r := send_message json_loads transport uuid4 time_time self prompt
             system_prompt w in
  exists posts streams,
    calls_added uuid4 w (snd r) posts streams
    /\ posts = (if Py.truthy (cookies self)
                   && negb (Py.truthy (conversation_id self))
                then 1 else 0)
    /\ streams <= 1
    /\ (forall answer, fst (fst r) = Answer answer -> streams = 1).
Proof.
  cbv zeta. unfold send_message, calls_added.
  destruct (Py.truthy (cookies self)); cbn [negb andb].
  2:{ exists 0, 0. split; [|repeat split; auto; discriminate].
      exists [], [], []. cbn. rewrite app_nil_r, Nat.leb_refl. auto 10. }
  destruct (Py.truthy (conversation_id self)) eqn:Hconv; cbn [negb].
  - destruct (send_turn_effect json_loads transport uuid4 time_time self
                (full_prompt prompt system_prompt) w)
      as (_ & _ & t & Hs & Hc & Hid & Hu & _).
    exists 0, 1. split; [|auto].
    exists [], [t], [uuids w]. cbn [app length map]. rewrite Hs, Hid, Hu.
    unfold stream_calls, creation_calls. cbn [filter length]. rewrite Hc.
    repeat split. apply increasing_from_one. lia.
  - destruct (create_effect json_loads transport uuid4 time_time self w Hconv)
      as (c & Hs & Hc & Hid & Hu).
    destruct (_create_conversation json_loads transport uuid4 time_time self w)
      as [[id s1] w1].
    cbn [fst snd] in *.
    destruct (Py.truthy id); cbn [negb fst snd].
    + destruct (send_turn_effect json_loads transport uuid4 time_time s1
                  (full_prompt prompt system_prompt) w1)
        as (_ & _ & t & Hs' & Hc' & Hid' & Hu' & _).
      exists 1, 1. split; [|auto].
      exists [c], [t], [uuids w; S (uuids w)]. cbn [app length map].
      rewrite Hs', Hs, Hid', Hid, Hu', Hu, <- app_assoc.
      unfold stream_calls, creation_calls. cbn [filter length app].
      rewrite Hc, Hc'. repeat split. apply increasing_from_two. lia.
    + exists 1, 0. split; [|repeat split; auto; discriminate].
      exists [c], [], [uuids w]. cbn [app length map].
      rewrite Hs, Hid, Hu.
      unfold stream_calls, creation_calls. cbn [filter length]. rewrite Hc.
      repeat split. apply increasing_from_one. lia.
Qed.

End Calls.

Lemma increasing_from_weaken (ks : list nat) : forall lo lo' hi,
  lo <= lo' ->
  increasing_from lo' ks hi = true -> increasing_from lo ks hi = true.
Proof.
  destruct ks as [|k rest]; intros lo lo' hi Hle; cbn [increasing_from].
  - intros H. apply Nat.leb_le in H. apply Nat.leb_le. lia.
  - intros H. apply andb_true_iff in H as [H1 H2]. apply Nat.leb_le in H1.
    apply andb_true_iff. split; [apply Nat.leb_le; lia | exact H2].
Qed.

Lemma increasing_from_app (ks ks' : list nat) : forall lo mid hi,
  increasing_from lo ks mid = true ->
  increasing_from mid ks' hi = true ->
  increasing_from lo (ks ++ ks') hi = true.
Proof.
  induction ks as [|k rest IH]; intros lo mid hi H1 H2; cbn [app].
  - cbn [increasing_from] in H1. apply Nat.leb_le in H1.
    now apply increasing_from_weaken with (lo' := mid).
  - cbn [increasing_from] in *. apply andb_true_iff in H1 as [Hk Hrest].
    rewrite Hk. cbn [andb]. now apply IH with (mid := mid).
Qed.

Lemma increasing_from_lower (ks : list nat) : forall lo hi k,
  increasing_from lo ks hi = true -> In k ks -> lo <= k.
Proof.
  induction ks as [|k0 rest IH]; intros lo hi k H Hin; [contradiction|].
  cbn [increasing_from] in H. apply andb_true_iff in H as [H1 H2].
  apply Nat.leb_le in H1. destruct Hin as [<-|Hin]; [exact H1|].
  specialize (IH _ _ _ H2 Hin). lia.
Qed.

Lemma increasing_from_NoDup (ks : list nat) : forall lo hi,
  increasing_from lo ks hi = true -> NoDup ks.
Proof.
  induction ks as [|k rest IH]; intros lo hi H; [constructor|].
  cbn [increasing_from] in H. apply andb_true_iff in H as [_ H2].
  constructor; [|now apply IH with (lo := S k) (hi := hi)].
  intros Hin. pose proof (increasing_from_lower _ _ _ _ H2 Hin). lia.
Qed.

Lemma NoDup_map_injective {A B : Type} (g : A -> B) (l : list A) :
  (forall a b, g a = g b -> a = b) -> NoDup l -> NoDup (map g l).
Proof.
  intros Hinj. induction 1 as [|a l Hnotin Hnd IH]; cbn [map]; constructor;
    [|exact IH].
  intros Hin. apply in_map_iff in Hin as (b & Hb & Hbin).
  apply Hinj in Hb. now subst.
Qed.

(** Calls added with identifiers drawn in order keep the identifiers of
    the whole log in order, hence distinct when [uuid4] does not repeat. *)
Lemma ids_drawn_added (uuid4 : nat -> string) (w w' : world)
    (posts streams : nat) :
  ids_drawn uuid4 w -> calls_added uuid4 w w' posts streams ->
  ids_drawn uuid4 w'.
Proof.
  intros (ks & Hmap & Hinc) (cs & ts & ks' & Hsent & _ & _ & _ & _ & Hmap' & Hinc').
  exists (ks ++ ks'). split.
  - now rewrite Hsent, !map_app, Hmap, <- map_app, Hmap'.
  - now apply increasing_from_app with (mid := uuids w).
Qed.

Lemma ids_drawn_NoDup (uuid4 : nat -> string) (w : world) :
  (forall a b, uuid4 a = uuid4 b -> a = b) ->
  ids_drawn uuid4 w -> NoDup (map request_id (sent w)).
Proof.
  intros Hinj (ks & Hmap & Hinc). rewrite Hmap.
  apply NoDup_map_injective; [|now apply increasing_from_NoDup in Hinc].
  intros a b H. injection H as H. now apply Hinj.
Qed.

Section CreateCalls.

Variable json_loads : string -> option pyval.
Variable transport : list request -> request -> http_reply.
Variable uuid4 : nat -> string.
Variable time_time : nat -> Q.

Lemma create_calls (self : QwenClient) (w : world) :
  exists posts,
    calls_added uuid4 w
      (snd (_create_conversation json_loads transport uuid4 time_time self w))
      posts 0.
Proof.
  destruct (Py.truthy (conversation_id self)) eqn:Hconv.
  - rewrite create_idle by exact Hconv. exists 0, [], [], []. cbn.
    rewrite app_nil_r, Nat.leb_refl. auto 10.
  - destruct (create_effect json_loads transport uuid4 time_time self w Hconv)
      as (c & Hs & Hc & Hid & Hu).
    exists 1, [c], [], [uuids w]. cbn [app length map].
    rewrite Hs, Hid, Hu. unfold stream_calls, creation_calls.
    cbn [filter length]. rewrite Hc. repeat split.
    apply increasing_from_one. lia.
Qed.

End CreateCalls.

(** X2.  A call of [chat] or of [send_message] only appends to the calls
    made, and appends at most one creation call followed by at most one
    streaming call: no call without cookies, a creation call exactly when
    there are cookies and no conversation yet, and a streaming call
    whenever [chat] returns a string or [send_message] an answer. *)
Theorem X2_calls_of_a_turn :
  forall json_loads transport uuid4 time_time self prompt system_prompt w,
    let posts := if Py.truthy (cookies self)
                    && negb (Py.truthy (conversation_id self))
                 then 1 else 0 in
    let after_chat := chat json_loads transport uuid4 time_time self prompt w in
    let after_send := send_message json_loads transport uuid4 time_time self
                        prompt system_prompt w in
    (exists cs ts,
        sent (snd after_chat) = sent w ++ cs ++ ts
        /\ creation_calls cs = length cs /\ length cs = posts
        /\ stream_calls ts = length ts /\ length ts <= 1
        /\ (Py.truthy (cookies self) = false -> ts = [])
        /\ (fst (fst after_chat) <> None -> length ts = 1))
    /\ (exists cs ts,
          sent (snd after_send) = sent w ++ cs ++ ts
          /\ creation_calls cs = length cs /\ length cs = posts
          /\ stream_calls ts = length ts /\ length ts <= 1
          /\ (Py.truthy (cookies self) = false -> ts = [])
          /\ (forall answer,
                fst (fst after_send) = Answer answer -> length ts = 1)).
Proof.
  intros json_loads transport uuid4 time_time self prompt system_prompt w.
  cbv zeta. split.
  - destruct (chat_calls json_loads transport uuid4 time_time self prompt w)
      as (posts & streams & (cs & ts & ks & Hs & Hc & Hlc & Ht & Hlt & _)
          & Hposts & Hle & Hres).
    exists cs, ts. subst posts streams. repeat split; auto.
    intros Hck. unfold chat in Hs. rewrite Hck in Hs. cbn in Hs.
    rewrite <- (app_nil_r (sent w)) in Hs at 1.
    apply app_inv_head in Hs. symmetry in Hs. now apply app_eq_nil in Hs.
  - destruct (send_calls json_loads transport uuid4 time_time self prompt
                system_prompt w)
      as (posts & streams & (cs & ts & ks & Hs & Hc & Hlc & Ht & Hlt & _)
          & Hposts & Hle & Hres).
    exists cs, ts. subst posts streams. repeat split; auto.
    intros Hck. unfold send_message in Hs. rewrite Hck in Hs. cbn in Hs.
    rewrite <- (app_nil_r (sent w)) in Hs at 1.
    apply app_inv_head in Hs. symmetry in Hs. now apply app_eq_nil in Hs.
Qed.

Lemma marks_injective (a : nat) : forall b,
  Cases.marks a = Cases.marks b -> a = b.
Proof.
  induction a as [|a IH]; intros [|b] H; cbn in H; try discriminate;
    [reflexivity|].
  injection H as H. f_equal. now apply IH.
Qed.

Lemma counting_uuid4_injective (a b : nat) :
  Cases.counting_uuid4 a = Cases.counting_uuid4 b -> a = b.
Proof.
  unfold Cases.counting_uuid4. cbn. intros H. injection H as H.
  now apply marks_injective.
Qed.

(** X3.  Request ids never repeat.  When the [X-Request-Id] of every call
    made so far is an identifier drawn so far, in the order of the draws,
    the same holds after [_create_conversation], after [chat] and after
    [send_message]; so, with a [uuid4] that never returns the same
    identifier twice, no two calls ever made carry the same request id. *)
Theorem X3_request_ids_never_repeat :
  forall json_loads transport uuid4 time_time self prompt system_prompt w,
    ids_drawn uuid4 w ->
    (forall a b, uuid4 a = uuid4 b -> a = b) ->
    let w1 := snd (_create_conversation json_loads transport uuid4 time_time
                     self w) in
    let w2 := snd (chat json_loads transport uuid4 time_time self prompt w) in
    let w3 := snd (send_message json_loads transport uuid4 time_time self
                     prompt system_prompt w) in
    (ids_drawn uuid4 w1 /\ NoDup (map request_id (sent w1)))
    /\ (ids_drawn uuid4 w2 /\ NoDup (map request_id (sent w2)))
    /\ (ids_drawn uuid4 w3 /\ NoDup (map request_id (sent w3))).
Proof.
  intros json_loads transport uuid4 time_time self prompt system_prompt w
    Hdrawn Hinj. cbv zeta.
  destruct (create_calls json_loads transport uuid4 time_time self w)
    as (p1 & H1).
  destruct (chat_calls json_loads transport uuid4 time_time self prompt w)
    as (p2 & s2 & H2 & _).
  destruct (send_calls json_loads transport uuid4 time_time self prompt
              system_prompt w) as (p3 & s3 & H3 & _).
  pose proof (ids_drawn_added _ _ _ _ _ Hdrawn H1) as D1.
  pose proof (ids_drawn_added _ _ _ _ _ Hdrawn H2) as D2.
  pose proof (ids_drawn_added _ _ _ _ _ Hdrawn H3) as D3.
  split; [|split];
    (split; [assumption | now apply ids_drawn_NoDup with (uuid4 := uuid4)]).
Qed.

Lemma X3_request_ids_never_repeat_witness :
  let create := _create_conversation Samples.sample_json_loads
                  (Samples.service 200 Samples.creation_ok [Samples.done])
                  Cases.counting_uuid4 Samples.sample_time in
  let chat' := chat Samples.sample_json_loads
                 (Samples.service 200 Samples.creation_ok [Samples.done])
                 Cases.counting_uuid4 Samples.sample_time in
  let send := send_message Samples.sample_json_loads
                (Samples.service 200 Samples.creation_ok [Samples.done])
                Cases.counting_uuid4 Samples.sample_time in
  let w1 := snd (create Samples.fresh_client Samples.silent) in
  let w2 := snd (chat' Samples.fresh_client "hi" Samples.silent) in
  let w3 := snd (send Samples.fresh_client "hi" None Samples.silent) in
  (ids_drawn Cases.counting_uuid4 w1 /\ NoDup (map request_id (sent w1)))
  /\ (ids_drawn Cases.counting_uuid4 w2 /\ NoDup (map request_id (sent w2)))
  /\ (ids_drawn Cases.counting_uuid4 w3 /\ NoDup (map request_id (sent w3))).
Proof.
  exact (X3_request_ids_never_repeat Samples.sample_json_loads
           (Samples.service 200 Samples.creation_ok [Samples.done])
           Cases.counting_uuid4 Samples.sample_time Samples.fresh_client
           "hi" None Samples.silent
           (ex_intro _ [] (conj eq_refl eq_refl))
           counting_uuid4_injective).
Defined.

(** ** Turns that fail before anything is decoded *)

Section Refused.

Variable json_loads : string -> option pyval.
Variable transport : list request -> request -> http_reply.
Variable uuid4 : nat -> string.
Variable time_time : nat -> Q.

Lemma creation_reply_say (self : QwenClient) (m : status_msg) (w : world) :
  creation_reply transport uuid4 time_time self (say m w)
  = creation_reply transport uuid4 time_time self w.
Proof. reflexivity. Qed.


End Refused.

(** X4.  A turn whose streaming call is refused -- the transport raises, or
    the status is not 200 -- decodes nothing: [chat] returns [None] after
    printing the failure, [send_message] returns the error that names the
    status or the exception and prints nothing, and both leave the client
    exactly as it was, parent pointer included. *)
Theorem X4_refused_turn :
  forall json_loads transport uuid4 time_time self prompt w,
    Py.truthy (cookies self) = true ->
    Py.truthy (conversation_id self) = true ->
    turn_refused (turn_reply transport uuid4 time_time self prompt w) = true ->
    (exists w',
        chat json_loads transport uuid4 time_time self prompt w
        = (None, self, w')
        /\ out w'
           = out w ++ print_status MsgSending
               :: match turn_reply transport uuid4 time_time self prompt w with
                  | Failed => [print_status (MsgChatError TransportError)]
                  | Response status_code text _ =>
                      [print_status (MsgRequestFailed status_code);
                       print_status (MsgError (PyStr.take 300 text))]
                  end)
    /\ (exists w',
          send_message json_loads transport uuid4 time_time self prompt None w
          = (match turn_reply transport uuid4 time_time self prompt w with
             | Failed => ErrorException TransportError
             | Response status_code _ _ => ErrorStatus status_code
             end, self, w')
          /\ out w' = out w).
Proof.
  intros json_loads transport uuid4 time_time self prompt w Hck Hconv Href.
  unfold chat, chat_turn, send_message, send_turn. rewrite Hck, Hconv.
  cbn [negb full_prompt].
  rewrite turn_request_say.
  unfold turn_reply in *.
  destruct (turn_request uuid4 time_time self prompt w) as [req w2] eqn:Hreq.
  assert (Ho : out w2 = out w).
  { unfold turn_request in Hreq. cbn in Hreq. now injection Hreq as _ <-. }
  cbn [fst snd].
  change (sent (say MsgSending w2)) with (sent w2).
  destruct (transport (sent w2) req) as [|status_code text lines].
  - split; eexists; (split; [reflexivity|]); cbn; rewrite Ho;
      [now rewrite <- app_assoc | reflexivity].
  - cbn [turn_refused] in Href. rewrite Href.
    split; eexists; (split; [reflexivity|]); cbn; rewrite Ho;
      [now rewrite <- !app_assoc | reflexivity].
Qed.

Lemma X4_refused_turn_witness :
  let busy := fun (_ : list request) (_ : request) => Response 503 "busy" [] in
  (exists w',
      chat Samples.sample_json_loads busy Samples.sample_uuid4
        Samples.sample_time Samples.open_client "hi" Samples.silent
      = (None, Samples.open_client, w')
      /\ out w' = [print_status MsgSending; print_status (MsgRequestFailed 503);
                   print_status (MsgError "busy")])
  /\ (exists w',
        send_message Samples.sample_json_loads busy Samples.sample_uuid4
          Samples.sample_time Samples.open_client "hi" None Samples.silent
        = (ErrorStatus 503, Samples.open_client, w')
        /\ out w' = []).
Proof.
  exact (X4_refused_turn Samples.sample_json_loads
           (fun _ _ => Response 503 "busy" []) Samples.sample_uuid4
           Samples.sample_time Samples.open_client "hi" Samples.silent
           eq_refl eq_refl eq_refl).
Defined.



(** ** The parent pointer *)

Section Threading.

Variable json_loads : string -> option pyval.

Lemma set_parent_id_twice (a b : pyval) (s : QwenClient) :
  set_parent_id a (set_parent_id b s) = set_parent_id a s.
Proof. reflexivity. Qed.







End Threading.

(** ** A turn whose call is answered *)

Section Answered.

Variable json_loads : string -> option pyval.
Variable transport : list request -> request -> http_reply.
Variable uuid4 : nat -> string.
Variable time_time : nat -> Q.

(** [chat] on an open conversation whose call is answered with status 200:
    the method is the line loop, followed by lines 237-245. *)
Lemma chat_answered (self : QwenClient) (prompt : string) (w : world)
    (text : string) (lines : list string) :
  Py.truthy (cookies self) = true ->
  Py.truthy (conversation_id self) = true ->
  turn_reply transport uuid4 time_time self prompt w = Response 200 text lines ->
  exists w3,
    out w3 = out w ++ [print_status MsgSending]
    /\ chat json_loads transport uuid4 time_time self prompt w
       = match chat_lines json_loads
                 {| client := self; vars := initial_locals; console := out w3 |}
                 lines with
         | (f, Some e) =>
             (None, client f, say (MsgChatError e) (with_out (console f) w3))
         | (f, None) =>
             (Some (answer_content (vars f)), client f,
              with_out (if PyStr.is_empty (answer_content (vars f))
                        then console f
                        else console f ++ [stream_live (answer_content (vars f))])
                       w3)
         end.
Proof.
  intros Hck Hconv Hreply.
  unfold chat, chat_turn. rewrite Hck, Hconv. cbn [negb].
  rewrite <- (turn_reply_say transport uuid4 time_time self prompt MsgSending w)
    in Hreply.
  unfold turn_reply in Hreply.
  destruct (turn_request uuid4 time_time self prompt (say MsgSending w))
    as [req w2] eqn:Hreq.
  rewrite Hreply. cbn [Z.eqb Pos.eqb negb].
  exists (record_call req w2). split; [|reflexivity].
  rewrite turn_request_say in Hreq. now injection Hreq as _ <-.
Qed.

Lemma send_answered (self : QwenClient) (prompt : string)
    (system_prompt : option string) (w : world)
    (text : string) (lines : list string) :
  Py.truthy (cookies self) = true ->
  Py.truthy (conversation_id self) = true ->
  turn_reply transport uuid4 time_time self
    (full_prompt prompt system_prompt) w = Response 200 text lines ->
  exists w3,
    out w3 = out w
    /\ send_message json_loads transport uuid4 time_time self prompt
         system_prompt w
       = match send_lines json_loads (self, "") lines with
         | (st, Some e) => (ErrorException e, fst st, w3)
         | (st, None) => (Answer (snd st), fst st, w3)
         end.
Proof.
  intros Hck Hconv Hreply.
  unfold send_message, send_turn. rewrite Hck, Hconv. cbn [negb].
  unfold turn_reply in Hreply.
  destruct (turn_request uuid4 time_time self
              (full_prompt prompt system_prompt) w) as [req w2] eqn:Hreq.
  rewrite Hreply. cbn [Z.eqb Pos.eqb negb].
  exists (record_call req w2). split; [|reflexivity].
  unfold turn_request in Hreq. cbn in Hreq. now injection Hreq as _ <-.
Qed.

End Answered.



(** ** Payloads that are not records *)




(** ** Where the two methods agree *)



(** ** Reasoning that no answer follows *)

Lemma phase_changed_think (l : locals) (out : list event) :
  snd (phase_changed (PStr "think") l out) = out.
Proof.
  unfold phase_changed.
  destruct (Py.eq (PStr "think") (current_phase l)) eqn:Heq; cbn [negb];
    [reflexivity|].
  destruct (Py.eq_str (current_phase l) "think") eqn:Hth; [|reflexivity].
  apply eq_str_true in Hth. rewrite Hth in Heq. discriminate.
Qed.

Lemma chat_choice_think_console (f : frame) (c : pyval) :
  wf_choice c = true -> is_think c = true ->
  console (fst (chat_choice f c)) = console f.
Proof.
  intros Hwf Hth. unfold chat_choice. rewrite (read_delta_wf c Hwf).
  unfold is_think in Hth. apply String.eqb_eq in Hth. rewrite Hth.
  pose proof (phase_changed_think (vars f) (console f)) as Hout.
  destruct (phase_changed (PStr "think") (vars f) (console f)) as [l1 out1].
  cbn [snd] in Hout. subst out1. rewrite accumulate_wf. reflexivity.
Qed.

Lemma feed_think_console (r : list pyval) : forall f,
  forallb wf_choice r = true -> forallb is_think r = true ->
  console (feed f r) = console f.
Proof.
  induction r as [|c r IH]; intros f Hwf Hth; [reflexivity|].
  cbn [forallb] in Hwf, Hth.
  apply andb_true_iff in Hwf as [Hc Hwf]. apply andb_true_iff in Hth as [Ht Hth].
  rewrite feed_cons, (IH _ Hwf Hth). now apply chat_choice_think_console.
Qed.

Lemma think_finish_last (cs : list pyval) :
  forallb is_think cs = true -> finish_last cs = true.
Proof.
  induction cs as [|c cs IH]; intros H; [reflexivity|].
  cbn [forallb] in H. apply andb_true_iff in H as [Hc Hcs].
  cbn [finish_last]. unfold is_finished_answer.
  rewrite (is_think_not_answer _ Hc), andb_false_r. now apply IH.
Qed.

Lemma think_stream_nothing_skipped (json_loads : string -> option pyval)
    (lines : list string) :
  forallb is_think (stream_deltas json_loads lines) = true ->
  no_delta_after_finish json_loads lines = true.
Proof.
  induction lines as [|line rest IH]; intros H; [reflexivity|].
  cbn [stream_deltas flat_map] in H. rewrite forallb_app in H.
  apply andb_true_iff in H as [Hl Hrest].
  cbn [no_delta_after_finish forallb]. rewrite (think_finish_last _ Hl).
  now apply IH.
Qed.

(** X9.  Reasoning is shown only when an answer follows it.  On a
    well-formed stream whose deltas are all reasoning -- and so on a stream
    without any delta -- [chat] shows nothing: no reasoning panel, no
    response rule, no live answer; the console gains the one status line
    printed before the call.  [chat] returns the empty string and
    [send_message] the empty answer, neither an error. *)
Theorem X9_reasoning_alone_is_never_shown :
  forall json_loads transport uuid4 time_time self prompt w text lines,
    Py.truthy (cookies self) = true ->
    Py.truthy (conversation_id self) = true ->
    turn_reply transport uuid4 time_time self prompt w
    = Response 200 text lines ->
    wf_stream json_loads lines = true ->
    forallb is_think (stream_deltas json_loads lines) = true ->
    exists self' w',
      chat json_loads transport uuid4 time_time self prompt w
      = (Some "", self', w')
      /\ out w' = out w ++ [print_status MsgSending]
      /\ fst (fst (send_message json_loads transport uuid4 time_time self
                     prompt None w))
         = Answer "".
Proof.
  intros json_loads transport uuid4 time_time self prompt w text lines
    Hck Hconv Hreply Hwf Hthink.
  pose proof (think_stream_nothing_skipped json_loads lines Hthink) as Hlast.
  pose proof (chat_deltas_wf json_loads lines Hwf) as Hwfd.
  rewrite (chat_deltas_all json_loads lines Hlast) in Hwfd.
  assert (Hnone : non_think_text (stream_deltas json_loads lines) = "").
  { apply text_where_none. revert Hthink. apply forallb_impl.
    intros c ->. reflexivity. }
  assert (Hans : answer_text (stream_deltas json_loads lines) = "").
  { apply text_where_none. revert Hthink. apply forallb_impl.
    intros c Hc. now rewrite (is_think_not_answer _ Hc). }
  destruct (chat_answered json_loads transport uuid4 time_time self prompt w
              text lines Hck Hconv Hreply) as (w3 & Hout & ->).
  destruct (chat_lines_wf json_loads lines
              {| client := self; vars := initial_locals; console := out w3 |}
              Hwf) as [s' ->].
  rewrite (chat_deltas_all json_loads lines Hlast).
  cbn [with_client client vars console].
  destruct (feed_buffers _ {| client := self; vars := initial_locals;
                              console := out w3 |} Hwfd) as (_ & _ & HA).
  rewrite HA, Hnone. cbn [vars initial_locals answer_content append PyStr.is_empty].
  rewrite (feed_think_console _ _ Hwfd Hthink). cbn [console].
  eexists. eexists. split; [reflexivity|]. split; [exact Hout|].
  destruct (send_answered json_loads transport uuid4 time_time self prompt
              None w text lines Hck Hconv Hreply) as (w4 & _ & ->).
  destruct (send_lines_wf json_loads lines (self, "") Hwf) as [s'' ->].
  cbn [fst snd append]. now rewrite Hans.
Qed.

Lemma X9_reasoning_alone_is_never_shown_witness :
  let lines := [Samples.data_line (Samples.think "r1");
                Samples.data_line (Samples.think "r2"); Samples.done] in
  let serve := Samples.service 200 Samples.creation_ok lines in
  exists self' w',
    chat Samples.sample_json_loads serve Samples.sample_uuid4
      Samples.sample_time Samples.open_client "hi" Samples.silent
    = (Some "", self', w')
    /\ out w' = [print_status MsgSending]
    /\ fst (fst (send_message Samples.sample_json_loads serve
                   Samples.sample_uuid4 Samples.sample_time
                   Samples.open_client "hi" None Samples.silent))
       = Answer "".
Proof.
  exact (X9_reasoning_alone_is_never_shown Samples.sample_json_loads
           (Samples.service 200 Samples.creation_ok
              [Samples.data_line (Samples.think "r1");
               Samples.data_line (Samples.think "r2"); Samples.done])
           Samples.sample_uuid4 Samples.sample_time Samples.open_client "hi"
           Samples.silent ""
           [Samples.data_line (Samples.think "r1");
            Samples.data_line (Samples.think "r2"); Samples.done]
           eq_refl eq_refl eq_refl eq_refl eq_refl).
Defined.

(** ** What [send_message] prints *)

(** X10.  [send_message] prints nothing unless it has to create the
    conversation: without cookies, or with a conversation id already set,
    the console after the call is the console before it, whatever the
    service answers and whatever the stream holds. *)
Theorem X10_send_message_is_silent_on_an_open_conversation :
  forall json_loads transport uuid4 time_time self prompt system_prompt w,
    Py.truthy (cookies self) = false
    \/ Py.truthy (conversation_id self) = true ->
    out (snd (send_message json_loads transport uuid4 time_time self prompt
                system_prompt w))
    = out w.
Proof.
  intros json_loads transport uuid4 time_time self prompt system_prompt w H.
  unfold send_message.
  destruct (Py.truthy (cookies self)); cbn [negb]; [|reflexivity].
  destruct H as [H|H]; [discriminate|]. rewrite H. cbn [negb].
  now destruct (send_turn_effect json_loads transport uuid4 time_time self
                  (full_prompt prompt system_prompt) w) as (_ & Ho & _).
Qed.

Lemma X10_send_message_is_silent_on_an_open_conversation_witness :
  out (snd (send_message Samples.sample_json_loads
              (Samples.service 200 Samples.creation_ok
                 [Samples.data_line (Samples.think "r1");
                  Samples.data_line (Samples.answer "a1")])
              Samples.sample_uuid4 Samples.sample_time Samples.open_client
              "hi" (Some "be brief") Samples.silent))
  = [].
Proof.
  exact (X10_send_message_is_silent_on_an_open_conversation
           Samples.sample_json_loads
           (Samples.service 200 Samples.creation_ok
              [Samples.data_line (Samples.think "r1");
               Samples.data_line (Samples.answer "a1")])
           Samples.sample_uuid4 Samples.sample_time Samples.open_client
           "hi" (Some "be brief") Samples.silent (or_intror eq_refl)).
Defined.

(** ** Thinking mode and the payload of a turn *)

(** X11.  The thinking budget is sent only when thinking is enabled.
    After [enable_thinking(enabled, budget)] the streaming call of the next
    [chat] or [send_message] carries a [feature_config] with
    [thinking_enabled] as set, and with [thinking_budget] equal to the
    budget exactly when thinking is enabled: with thinking disabled the
    key is absent, not zero. *)
Theorem X11_thinking_budget_is_sent_only_when_enabled :
  forall json_loads transport uuid4 time_time self prompt system_prompt w
         enabled budget,
    Py.truthy (cookies self) = true ->
    Py.truthy (conversation_id self) = true ->
    let configured := enable_thinking enabled budget self w in
    let expected :=
      PDict ([("thinking_enabled", PBool enabled);
              ("output_schema", PStr "phase");
              ("research_mode", PStr "normal")]
             ++ (if enabled then [("thinking_budget", PInt budget)] else [])) in
    (exists t,
        sent (snd (chat json_loads transport uuid4 time_time (fst configured)
                     prompt (snd configured)))
        = sent w ++ [t]
        /\ call t = Stream
        /\ turn_feature_config (json t) = Some expected)
    /\ (exists t,
          sent (snd (send_message json_loads transport uuid4 time_time
                       (fst configured) prompt system_prompt (snd configured)))
          = sent w ++ [t]
          /\ call t = Stream
          /\ turn_feature_config (json t) = Some expected).
Proof.
  intros json_loads transport uuid4 time_time self prompt system_prompt w
    enabled budget Hck Hconv. cbv zeta.
  unfold chat, send_message. cbn [enable_thinking fst snd set_thinking
    cookies conversation_id]. rewrite Hck, Hconv. cbn [negb]. split.
  - destruct (chat_turn_effect json_loads transport uuid4 time_time
                (set_thinking enabled budget self) prompt
                (say (MsgThinkingMode enabled budget) w))
      as (_ & t & Hs & Hc & _ & _ & Ht).
    exists t. split; [exact Hs|]. split; [exact Hc|]. rewrite Ht. reflexivity.
  - destruct (send_turn_effect json_loads transport uuid4 time_time
                (set_thinking enabled budget self)
                (full_prompt prompt system_prompt)
                (say (MsgThinkingMode enabled budget) w))
      as (_ & _ & t & Hs & Hc & _ & _ & Ht).
    exists t. split; [exact Hs|]. split; [exact Hc|]. rewrite Ht. reflexivity.
Qed.

Lemma X11_thinking_budget_is_sent_only_when_enabled_witness :
  let serve := Samples.service 200 Samples.creation_ok [Samples.done] in
  let configured := enable_thinking false 4096 Samples.open_client
                      Samples.silent in
  let expected := PDict [("thinking_enabled", PBool false);
                         ("output_schema", PStr "phase");
                         ("research_mode", PStr "normal")] in
  (exists t,
      sent (snd (chat Samples.sample_json_loads serve Samples.sample_uuid4
                   Samples.sample_time (fst configured) "hi" (snd configured)))
      = [t]
      /\ call t = Stream
      /\ turn_feature_config (json t) = Some expected)
  /\ (exists t,
        sent (snd (send_message Samples.sample_json_loads serve
                     Samples.sample_uuid4 Samples.sample_time (fst configured)
                     "hi" None (snd configured)))
        = [t]
        /\ call t = Stream
        /\ turn_feature_config (json t) = Some expected).
Proof.
  exact (X11_thinking_budget_is_sent_only_when_enabled
           Samples.sample_json_loads
           (Samples.service 200 Samples.creation_ok [Samples.done])
           Samples.sample_uuid4 Samples.sample_time Samples.open_client "hi"
           None Samples.silent false 4096 eq_refl eq_refl).
Defined.

(** ** A new conversation *)

(** X12.  A new conversation does not inherit the thread of the old one.
    The [chat] that follows [new_conversation] first makes a creation call;
    when it goes on to the streaming call, that call is addressed to the
    conversation id just stored, which is true, and sends [None] as
    [parent_id], whatever the parent pointer was before the reset. *)
Theorem X12_new_conversation_starts_a_fresh_thread :
  forall json_loads transport uuid4 time_time self prompt w,
    Py.truthy (cookies self) = true ->
    let fresh := new_conversation self w in
    let r := chat json_loads transport uuid4 time_time (fst fresh) prompt
               (snd fresh) in
    exists c,
      call c = Post
      /\ (sent (snd r) = sent w ++ [c]
          \/ exists t,
               sent (snd r) = sent w ++ [c; t]
               /\ call t = Stream
               /\ Py.getitem (json t) "parent_id" = Ok PNone
               /\ url t = ChatCompletions (BASE_URL (config self))
                            (conversation_id (snd (fst r)))
               /\ Py.truthy (conversation_id (snd (fst r))) = true).
Proof.
  intros json_loads transport uuid4 time_time self prompt w Hck. cbv zeta.
  unfold chat. cbn [new_conversation fst snd set_parent_id set_conversation_id
    cookies conversation_id Py.truthy]. rewrite Hck. cbn [negb].
  set (s0 := set_parent_id PNone (set_conversation_id PNone self)).
  set (w0 := say MsgCreatingSession (say MsgReady w)).
  destruct (create_effect json_loads transport uuid4 time_time s0 w0 eq_refl)
    as (c & Hs & Hc & _ & _).
  pose proof (create_settings json_loads transport uuid4 time_time s0 w0)
    as ((Hcfg & _) & Hpar & _).
  destruct (_create_conversation json_loads transport uuid4 time_time s0 w0)
    as [[id s1] w1] eqn:Hcreate.
  cbn [fst snd] in *. exists c. split; [exact Hc|].
  destruct (Py.truthy id) eqn:Hid; cbn [negb fst snd].
  2:{ left. cbn. exact Hs. }
  right.
  pose proof (create_returns_stored _ _ _ _ _ _ _ _ _ Hcreate Hid) as Hstored.
  destruct (chat_turn_effect json_loads transport uuid4 time_time s1 prompt w1)
    as (Hsame & t & Hs' & Hc' & _ & _ & Ht).
  apply same_but_parent_settings in Hsame as [_ Hcid].
  exists t. rewrite Hs', Hs, <- app_assoc. split; [reflexivity|].
  split; [exact Hc'|]. rewrite Hcid, Hstored, Ht.
  assert (Hp : Py.getitem (json (fst (turn_request uuid4 time_time s1 prompt w1)))
                 "parent_id" = Ok (parent_id s1)) by reflexivity.
  assert (Hu : url (fst (turn_request uuid4 time_time s1 prompt w1))
               = ChatCompletions (BASE_URL (config s1)) (conversation_id s1))
    by reflexivity.
  rewrite Hp, Hu, Hpar, Hcfg, Hstored. repeat split. exact Hid.
Qed.

Lemma X12_new_conversation_starts_a_fresh_thread_witness :
  let old := set_parent_id (PStr "resp-1") Samples.open_client in
  let serve := Samples.service 200 Samples.creation_ok [Samples.done] in
  let fresh := new_conversation old Samples.silent in
  let r := chat Samples.sample_json_loads serve Samples.sample_uuid4
             Samples.sample_time (fst fresh) "hi" (snd fresh) in
  exists c,
    call c = Post
    /\ (sent (snd r) = [c]
        \/ exists t,
             sent (snd r) = [c; t]
             /\ call t = Stream
             /\ Py.getitem (json t) "parent_id" = Ok PNone
             /\ url t = ChatCompletions "https://chat.qwen.ai"
                          (conversation_id (snd (fst r)))
             /\ Py.truthy (conversation_id (snd (fst r))) = true).
Proof.
  exact (X12_new_conversation_starts_a_fresh_thread Samples.sample_json_loads
           (Samples.service 200 Samples.creation_ok [Samples.done])
           Samples.sample_uuid4 Samples.sample_time
           (set_parent_id (PStr "resp-1") Samples.open_client) "hi"
           Samples.silent eq_refl).
Defined.

(** ** White space around the payload *)

Lemma lstrip_spaces (ws s : string) :
  all_space ws = true -> PyStr.lstrip (ws ++ s) = PyStr.lstrip s.
Proof.
  induction ws as [|c ws IH]; intros H; [reflexivity|].
  cbn [all_space] in H. apply andb_true_iff in H as [Hc Hws].
  cbn [append PyStr.lstrip]. rewrite Hc. now apply IH.
Qed.

Lemma rstrip_all_space (ws : string) :
  all_space ws = true -> PyStr.rstrip ws = "".
Proof.
  induction ws as [|c ws IH]; intros H; [reflexivity|].
  cbn [all_space] in H. apply andb_true_iff in H as [Hc Hws].
  cbn [PyStr.rstrip]. now rewrite (IH Hws), Hc.
Qed.

Lemma rstrip_spaces (s ws : string) :
  all_space ws = true -> PyStr.rstrip (s ++ ws) = PyStr.rstrip s.
Proof.
  intros H. induction s as [|c s IH]; cbn [append PyStr.rstrip].
  - now apply rstrip_all_space.
  - now rewrite IH.
Qed.

Lemma rstrip_length (s : string) :
  String.length (PyStr.rstrip s) <= String.length s.
Proof.
  induction s as [|c s IH]; cbn [PyStr.rstrip String.length]; [lia|].
  destruct (PyStr.rstrip s); [destruct (PyStr.isspace c)|];
    cbn [String.length] in *; lia.
Qed.

Lemma lstrip_length (s : string) :
  String.length (PyStr.lstrip s) <= String.length s.
Proof.
  induction s as [|c s IH]; cbn [PyStr.lstrip String.length]; [lia|].
  destruct (PyStr.isspace c); cbn [String.length]; lia.
Qed.

(** A string that [strip] leaves alone has no leading space. *)
Lemma stripped_lstrip (p : string) :
  PyStr.strip p = p -> PyStr.lstrip p = p.
Proof.
  unfold PyStr.strip. intros H. destruct p as [|c p]; [reflexivity|].
  cbn [PyStr.lstrip] in *. destruct (PyStr.isspace c); [|reflexivity].
  pose proof (rstrip_length (PyStr.lstrip p)) as H1.
  pose proof (lstrip_length p) as H2.
  rewrite H in H1. cbn [String.length] in H1. lia.
Qed.

Lemma lstrip_append (p s : string) :
  PyStr.lstrip p = p -> p <> "" -> PyStr.lstrip (p ++ s) = (p ++ s)%string.
Proof.
  destruct p as [|c p]; [congruence|]. intros H _.
  cbn [append PyStr.lstrip] in *.
  destruct (PyStr.isspace c); [|reflexivity].
  pose proof (lstrip_length p) as Hl. rewrite H in Hl.
  cbn [String.length] in Hl. lia.
Qed.

(** Padding the payload with white space changes nothing. *)
Lemma strip_padded (ws1 p ws2 : string) :
  all_space ws1 = true -> all_space ws2 = true ->
  PyStr.strip p = p ->
  PyStr.strip (ws1 ++ p ++ ws2) = p.
Proof.
  intros H1 H2 Hp. pose proof (stripped_lstrip p Hp) as Hl.
  unfold PyStr.strip in *. rewrite (lstrip_spaces _ _ H1).
  destruct p as [|c p].
  - cbn [append]. rewrite <- (append_nil_r ws2), (lstrip_spaces _ _ H2).
    reflexivity.
  - rewrite lstrip_append by (auto; discriminate).
    rewrite (rstrip_spaces _ _ H2). now rewrite Hl in Hp.
Qed.

Lemma prefix_empty (s : string) : String.prefix "" s = true.
Proof. now destruct s. Qed.

Lemma data_payload_prefixed (s : string) :
  data_payload ("data:" ++ s)
  = (let json_str := PyStr.strip s in
     if PyStr.is_empty json_str || String.eqb json_str "[DONE]" then None
     else Some json_str).
Proof.
  assert (Hstart : PyStr.startswith "data:" ("data:" ++ s) = true)
    by (unfold PyStr.startswith; cbn; apply prefix_empty).
  unfold data_payload. rewrite Hstart. reflexivity.
Qed.

(** X13.  The framing of a line tolerates white space around the payload.
    Whatever white space stands between the [data:] prefix and the payload
    and after the payload, the line is decoded as the line without it:
    both loop bodies do the same on the two lines, and a padded sentinel is
    still the sentinel. *)
Theorem X13_white_space_around_the_payload_is_ignored :
  forall json_loads ws1 p ws2 f st,
    all_space ws1 = true ->
    all_space ws2 = true ->
    PyStr.strip p = p ->
    data_payload ("data:" ++ ws1 ++ p ++ ws2) = data_payload ("data:" ++ p)
    /\ chat_line json_loads f ("data:" ++ ws1 ++ p ++ ws2)
       = chat_line json_loads f ("data:" ++ p)
    /\ send_line json_loads st ("data:" ++ ws1 ++ p ++ ws2)
       = send_line json_loads st ("data:" ++ p)
    /\ is_sentinel ("data:" ++ ws1 ++ "[DONE]" ++ ws2) = true.
Proof.
  intros json_loads ws1 p ws2 f st H1 H2 Hp.
  assert (Hpay : data_payload ("data:" ++ ws1 ++ p ++ ws2)
                 = data_payload ("data:" ++ p)).
  { rewrite !data_payload_prefixed. cbv zeta.
    now rewrite (strip_padded ws1 p ws2 H1 H2 Hp), Hp. }
  split; [exact Hpay|]. unfold chat_line, send_line. rewrite Hpay.
  repeat split.
  unfold is_sentinel.
  change (PyStr.drop 5 ("data:" ++ ws1 ++ "[DONE]" ++ ws2))
    with (ws1 ++ "[DONE]" ++ ws2)%string.
  rewrite (strip_padded ws1 "[DONE]" ws2 H1 H2 eq_refl).
  unfold PyStr.startswith. cbn. now rewrite prefix_empty.
Qed.

Lemma X13_white_space_around_the_payload_is_ignored_witness :
  let f := {| client := Samples.open_client; vars := initial_locals;
              console := [] |} in
  let st := (Samples.open_client, "") in
  let p := Samples.text_of (Samples.answer "42") in
  data_payload ("data:" ++ "  " ++ p ++ " ") = data_payload ("data:" ++ p)
  /\ chat_line Samples.sample_json_loads f ("data:" ++ "  " ++ p ++ " ")
     = chat_line Samples.sample_json_loads f ("data:" ++ p)
  /\ send_line Samples.sample_json_loads st ("data:" ++ "  " ++ p ++ " ")
     = send_line Samples.sample_json_loads st ("data:" ++ p)
  /\ is_sentinel ("data:" ++ "  " ++ "[DONE]" ++ " ") = true.
Proof.
  exact (X13_white_space_around_the_payload_is_ignored
           Samples.sample_json_loads "  "
           (Samples.text_of (Samples.answer "42")) " "
           {| client := Samples.open_client; vars := initial_locals;
              console := [] |}
           (Samples.open_client, "") eq_refl eq_refl eq_refl).
Defined.

(** * The live panel *)

Lemma stream_live_from_spec (chunks : list string) : forall full_content,
  Display.stream_live_from full_content chunks
  = ((full_content ++ join chunks)%string,
     cumulative full_content
       (filter (fun chunk => negb (PyStr.is_empty chunk)) chunks)).
Proof.
  induction chunks as [|chunk rest IH]; intros full_content.
  - cbn. now rewrite append_nil_r.
  - cbn [Display.stream_live_from join filter].
    destruct chunk as [|ch chunk]; cbn [PyStr.is_empty negb].
    + rewrite IH. reflexivity.
    + rewrite IH. cbn [cumulative]. now rewrite append_assoc.
Qed.

Lemma cumulative_last (texts : list string) : forall seen,
  texts <> [] ->
  last (cumulative seen texts) "" = (seen ++ join texts)%string.
Proof.
  induction texts as [|t rest IH]; intros seen Hne; [congruence|].
  destruct rest as [|t' rest].
  - cbn. now rewrite append_nil_r.
  - specialize (IH (seen ++ t)%string ltac:(discriminate)).
    change (last (cumulative seen (t :: t' :: rest)) "")
      with (last (cumulative (seen ++ t) (t' :: rest)) "").
    rewrite IH. cbn [join]. now rewrite append_assoc.
Qed.

Lemma join_nonempty_chunks (chunks : list string) :
  join (filter (fun chunk => negb (PyStr.is_empty chunk)) chunks) = join chunks.
Proof.
  induction chunks as [|chunk rest IH]; [reflexivity|].
  cbn [filter join]. destruct chunk; cbn [PyStr.is_empty negb join append];
    now rewrite IH.
Qed.

(** X14.  [stream_live] returns the concatenation of its chunks; it
    updates the panel once for each chunk that is not empty, each update
    showing everything received so far, so that the last update shows the
    text returned. *)
Theorem X14_stream_live_shows_what_it_returns :
  forall chunks,
    let shown := snd (Display.stream_live chunks) in
    fst (Display.stream_live chunks) = join chunks
    /\ shown = cumulative ""
                 (filter (fun chunk => negb (PyStr.is_empty chunk)) chunks)
    /\ length shown
       = length (filter (fun chunk => negb (PyStr.is_empty chunk)) chunks)
    /\ (shown <> [] -> last shown "" = fst (Display.stream_live chunks)).
Proof.
  intros chunks. cbv zeta. unfold Display.stream_live.
  rewrite stream_live_from_spec. cbn [fst snd append].
  repeat split.
  - apply cumulative_length.
  - intros Hne. rewrite cumulative_last.
    + cbn [append]. apply join_nonempty_chunks.
    + intros Heq. now rewrite Heq in Hne.
Qed.

(** * The wrapper *)

Lemma last_with_role_cons (role : string) (msg : Llm.message)
    (rest : list Llm.message) :
  Llm.last_with_role role (msg :: rest)
  = match Llm.last_with_role role rest with
    | Some content => Some content
    | None =>
        if String.eqb (Llm.msg_get msg "role" "") role
        then Some (Llm.msg_get msg "content" "")
        else None
    end.
Proof.
  unfold Llm.last_with_role. cbn [filter].
  destruct (String.eqb (Llm.msg_get msg "role" "") role); cbn [rev];
    destruct (rev (filter (fun m => String.eqb (Llm.msg_get m "role" "") role)
                     rest));
    reflexivity.
Qed.

Lemma scan_messages_spec (msgs : list Llm.message) :
  forall prompt system_prompt,
    Llm.scan_messages msgs prompt system_prompt
    = (match Llm.last_with_role "user" msgs with
       | Some content => content
       | None => prompt
       end,
       match Llm.last_with_role "system" msgs with
       | Some content => Some content
       | None => system_prompt
       end).
Proof.
  induction msgs as [|msg rest IH]; intros prompt system_prompt;
    [reflexivity|].
  cbn [Llm.scan_messages]. rewrite !last_with_role_cons.
  destruct (String.eqb (Llm.msg_get msg "role" "") "system") eqn:Hs.
  - apply String.eqb_eq in Hs. rewrite Hs. cbn [String.eqb Ascii.eqb Bool.eqb].
    rewrite IH.
    destruct (Llm.last_with_role "user" rest),
             (Llm.last_with_role "system" rest); reflexivity.
  - destruct (String.eqb (Llm.msg_get msg "role" "") "user") eqn:Hu.
    + rewrite IH.
      destruct (Llm.last_with_role "user" rest),
               (Llm.last_with_role "system" rest); reflexivity.
    + rewrite IH.
      destruct (Llm.last_with_role "user" rest),
               (Llm.last_with_role "system" rest); reflexivity.
Qed.

(** X15.  Which messages a call sends.  The prompt is the content of the
    last message with role [user] when that content is not empty, and
    otherwise the content of the last message, whatever its role; the
    system prompt is the content of the last message with role [system],
    and absent when there is none.  Earlier user and system messages are
    dropped.  A plain string is the prompt itself, with no system
    prompt. *)
Theorem X15_call_sends_the_last_user_message :
  forall msgs text,
    let fallback := Llm.msg_get (last msgs []) "content" "" in
    Llm.extract_prompt (Llm.Chat msgs)
    = (match Llm.last_with_role "user" msgs with
       | Some content => if PyStr.is_empty content then fallback else content
       | None => fallback
       end,
       Llm.last_with_role "system" msgs)
    /\ Llm.extract_prompt (Llm.Plain text) = (text, None).
Proof.
  intros msgs text. cbv zeta. split; [|reflexivity].
  unfold Llm.extract_prompt. rewrite scan_messages_spec.
  destruct msgs as [|msg rest].
  - reflexivity.
  - rewrite andb_true_r.
    destruct (Llm.last_with_role "user" (msg :: rest)) as [content|];
      destruct (Llm.last_with_role "system" (msg :: rest));
      try destruct (PyStr.is_empty content); reflexivity.
Qed.

Section WrapperFacts.

Variable json_loads : string -> option pyval.
Variable transport : list request -> request -> http_reply.
Variable uuid4 : nat -> string.
Variable time_time : nat -> Q.




End WrapperFacts.



(** * Creation that succeeds *)

Section Accepted.

Variable json_loads : string -> option pyval.
Variable transport : list request -> request -> http_reply.
Variable uuid4 : nat -> string.
Variable time_time : nat -> Q.

(** A body with a true [success] and a true [data.id]: the id is stored
    before line 77 slices it for the status line. *)
Lemma create_accepted (self : QwenClient) (w : world) (text : string)
    (lines : list string) (items d : list (string * pyval))
    (success id : pyval) :
  Py.truthy (conversation_id self) = false ->
  creation_reply transport uuid4 time_time self w = Response 200 text lines ->
  json_loads text = Some (PDict items) ->
  Py.assoc "success" items = Some success ->
  Py.truthy success = true ->
  Py.assoc "data" items = Some (PDict d) ->
  Py.assoc "id" d = Some id ->
  Py.truthy id = true ->
  exists w3,
    out w3 = out w
    /\ sent w3 = sent w ++ [fst (creation_request uuid4 time_time self w)]
    /\ uuids w3 = S (uuids w)
    /\ _create_conversation json_loads transport uuid4 time_time self w
       = match Py.slice_to 8 id with
         | Ok id_prefix =>
             (id, set_conversation_id id self, say (MsgCreated id_prefix) w3)
         | Raise e =>
             (PNone, set_conversation_id id self, say (MsgCreateError e) w3)
         end.
Proof.
  intros Hunset Hreply Hj Hsucc Htrue Hdata Hid Hidtrue.
  unfold _create_conversation, creation_reply in *. rewrite Hunset.
  destruct (creation_request uuid4 time_time self w) as [req w2] eqn:Hreq.
  assert (Hw2 : out w2 = out w /\ sent w2 = sent w /\ uuids w2 = S (uuids w)).
  { unfold creation_request in Hreq. cbn in Hreq. injection Hreq as _ <-.
    repeat split. }
  destruct Hw2 as (Ho & Hs & Hu).
  rewrite Hreply. cbn [Z.eqb Pos.eqb]. rewrite Hj.
  unfold creation_succeeded. cbn [Py.get Py.getitem bind].
  rewrite Hsucc. cbn [bind]. rewrite Htrue, Hdata. cbn [bind Py.get Py.getitem].
  rewrite Hid. cbn [bind]. rewrite Hidtrue.
  exists (record_call req w2). cbn [fst record_call out sent uuids].
  rewrite Ho, Hs, Hu. split; [reflexivity|]. split; [reflexivity|].
  split; [reflexivity|]. now destruct (Py.slice_to 8 id).
Qed.

End Accepted.



Lemma scalar_slice (v : pyval) :
  is_scalar v = true -> Py.slice_to 8 v = Raise TypeError.
Proof. now destruct v. Qed.

(** X18.  An id that is a number or [True] is stored and then lost to the
    caller.  Line 76 assigns [data.id] to the client before line 77 slices
    it for the status line; on a number or a boolean the slice raises
    TypeError, so [_create_conversation] prints the error and returns
    [None] with the id already stored.  The [chat] that asked for the
    conversation gives up after its creation call; the next [chat] on that
    client finds the id set, makes no creation call and streams to it. *)
Theorem X18_numeric_id_is_stored_but_not_returned :
  forall json_loads transport uuid4 time_time self prompt w text lines
         items d success id,
    Py.truthy (cookies self) = true ->
    Py.truthy (conversation_id self) = false ->
    creation_reply transport uuid4 time_time self w = Response 200 text lines ->
    json_loads text = Some (PDict items) ->
    Py.assoc "success" items = Some success ->
    Py.truthy success = true ->
    Py.assoc "data" items = Some (PDict d) ->
    Py.assoc "id" d = Some id ->
    Py.truthy id = true ->
    is_scalar id = true ->
    let self' := set_conversation_id id self in
    (exists w',
        _create_conversation json_loads transport uuid4 time_time self w
        = (PNone, self', w')
        /\ out w' = out w ++ [print_status (MsgCreateError TypeError)])
    /\ (exists c w',
           chat json_loads transport uuid4 time_time self prompt w
           = (None, self', w')
           /\ sent w' = sent w ++ [c] /\ call c = Post)
    /\ forall again w2, exists t,
         sent (snd (chat json_loads transport uuid4 time_time self' again w2))
         = sent w2 ++ [t]
         /\ call t = Stream
         /\ url t = ChatCompletions (BASE_URL (config self)) id.
Proof.
  intros json_loads transport uuid4 time_time self prompt w text lines
    items d success id Hck Hunset Hreply Hj Hsucc Htrue Hdata Hid Hidtrue
    Hscalar self'.
  split; [|split].
  - destruct (create_accepted json_loads transport uuid4 time_time self w text
                lines items d success id Hunset Hreply Hj Hsucc Htrue
                Hdata Hid Hidtrue) as (w3 & Ho & _ & _ & ->).
    rewrite (scalar_slice id Hscalar).
    eexists. split; [reflexivity|]. cbn. now rewrite Ho.
  - unfold chat. rewrite Hck, Hunset. cbn [negb].
    rewrite <- (creation_reply_say transport uuid4 time_time self
                  MsgCreatingSession w) in Hreply.
    destruct (create_accepted json_loads transport uuid4 time_time self
                (say MsgCreatingSession w) text lines items d success id
                Hunset Hreply Hj Hsucc Htrue Hdata Hid Hidtrue)
      as (w3 & _ & Hs & _ & ->).
    rewrite (scalar_slice id Hscalar). cbn [Py.truthy negb].
    exists (fst (creation_request uuid4 time_time self
                   (say MsgCreatingSession w))).
    eexists. split; [reflexivity|]. cbn [say emit sent]. rewrite Hs.
    split; reflexivity.
  - intros again w2. unfold chat. subst self'.
    cbn [cookies conversation_id set_conversation_id].
    rewrite Hck, Hidtrue. cbn [negb].
    destruct (chat_turn_effect json_loads transport uuid4 time_time
                (set_conversation_id id self) again w2)
      as (_ & t & Hs & Hc & _ & _ & Ht).
    exists t. rewrite Hs, Ht. repeat split; auto.
Qed.

Lemma X18_numeric_id_is_stored_but_not_returned_witness :
  let serve := Samples.service 200 Cases.creation_odd [Samples.done] in
  let self' := set_conversation_id (PBool true) Samples.fresh_client in
  (exists w',
      _create_conversation Cases.json_loads serve Samples.sample_uuid4
        Samples.sample_time Samples.fresh_client Samples.silent
      = (PNone, self', w')
      /\ out w' = [print_status (MsgCreateError TypeError)])
  /\ (exists c w',
         chat Cases.json_loads serve Samples.sample_uuid4 Samples.sample_time
           Samples.fresh_client "hi" Samples.silent
         = (None, self', w')
         /\ sent w' = [c] /\ call c = Post)
  /\ forall again w2, exists t,
       sent (snd (chat Cases.json_loads serve Samples.sample_uuid4
                    Samples.sample_time self' again w2))
       = sent w2 ++ [t]
       /\ call t = Stream
       /\ url t = ChatCompletions "https://chat.qwen.ai" (PBool true).
Proof.
  exact (X18_numeric_id_is_stored_but_not_returned Cases.json_loads
           (Samples.service 200 Cases.creation_odd [Samples.done])
           Samples.sample_uuid4 Samples.sample_time Samples.fresh_client "hi"
           Samples.silent (Samples.text_of Cases.creation_odd) []
           [("success", PBool true); ("data", PDict [("id", PBool true)])]
           [("id", PBool true)] (PBool true) (PBool true)
           eq_refl eq_refl eq_refl eq_refl eq_refl eq_refl eq_refl eq_refl
           eq_refl eq_refl).
Defined.

(** * Payloads that are arrays or strings *)

Lemma mentions_contains (key : string) (data : pyval) :
  is_object data = false -> is_scalar data = false ->
  Py.contains key data = Ok (mentions key data).
Proof. now destruct data. Qed.

Lemma not_object_getitem (key : string) (data : pyval) :
  is_object data = false -> Py.getitem data key = Raise TypeError.
Proof. now destruct data. Qed.

(** X19.  A payload that parses to an array or a string is tested with
    [in] like a record.  When neither ["response.created"] nor ["choices"]
    is an element of the array (a substring of the string), both decoders
    pass the line over and the stream decodes as the stream without it.
    Otherwise the subscript that follows raises TypeError, which leaves
    the line loop: the lines before have had their effect, the lines
    behind are not read. *)
Theorem X19_array_or_string_payload :
  forall json_loads f st line json_str data pre post,
    data_payload line = Some json_str ->
    json_loads json_str = Some data ->
    is_object data = false ->
    is_scalar data = false ->
    let hit := mentions "response.created" data || mentions "choices" data in
    chat_line json_loads f line = (f, if hit then Some TypeError else None)
    /\ send_line json_loads st line = (st, if hit then Some TypeError else None)
    /\ chat_lines json_loads f (pre ++ line :: post)
       = (if hit
          then match chat_lines json_loads f pre with
               | (f', None) => (f', Some TypeError)
               | stopped => stopped
               end
          else chat_lines json_loads f (pre ++ post))
    /\ send_lines json_loads st (pre ++ line :: post)
       = (if hit
          then match send_lines json_loads st pre with
               | (st', None) => (st', Some TypeError)
               | stopped => stopped
               end
          else send_lines json_loads st (pre ++ post)).
Proof.
  intros json_loads f st line json_str data pre post Hp Hj Hobj Hsc hit.
  assert (Hc : forall f',
             chat_line json_loads f' line
             = (f', if hit then Some TypeError else None)).
  { intros f'. unfold chat_line, response_created. rewrite Hp, Hj.
    rewrite !(mentions_contains _ data Hobj Hsc).
    rewrite !(not_object_getitem _ data Hobj). subst hit. cbn [bind].
    destruct (mentions "response.created" data); [reflexivity|].
    now destruct (mentions "choices" data). }
  assert (Hd : forall st',
             send_line json_loads st' line
             = (st', if hit then Some TypeError else None)).
  { intros st'. unfold send_line, response_created. rewrite Hp, Hj.
    rewrite !(mentions_contains _ data Hobj Hsc).
    rewrite !(not_object_getitem _ data Hobj). subst hit. cbn [bind].
    destruct (mentions "response.created" data); [reflexivity|].
    now destruct (mentions "choices" data). }
  split; [apply Hc|]. split; [apply Hd|].
  destruct hit.
  - rewrite chat_lines_app, send_lines_app. split.
    + destruct (chat_lines json_loads f pre) as [f' [e|]]; [reflexivity|].
      cbn [chat_lines]. now rewrite Hc.
    + destruct (send_lines json_loads st pre) as [st' [e|]]; [reflexivity|].
      cbn [send_lines]. now rewrite Hd.
  - split; [now apply chat_lines_skip | now apply send_lines_skip].
Qed.

Lemma X19_array_or_string_payload_witness :
  let f := {| client := Samples.open_client;
              vars := {| thinking_content := ""; answer_content := "4";
                         current_phase := PStr "answer" |};
              console := [] |} in
  let st := (Samples.open_client, "4") in
  let line := Samples.data_line (JArr [JStr "choices"]) in
  let pre := [Samples.data_line (Samples.answer "2")] in
  chat_line Cases.json_loads f line = (f, Some TypeError)
  /\ send_line Cases.json_loads st line = (st, Some TypeError)
  /\ chat_lines Cases.json_loads f (pre ++ line :: [Samples.done])
     = match chat_lines Cases.json_loads f pre with
       | (f', None) => (f', Some TypeError)
       | stopped => stopped
       end
  /\ send_lines Cases.json_loads st (pre ++ line :: [Samples.done])
     = match send_lines Cases.json_loads st pre with
       | (st', None) => (st', Some TypeError)
       | stopped => stopped
       end.
Proof.
  exact (X19_array_or_string_payload Cases.json_loads
           {| client := Samples.open_client;
              vars := {| thinking_content := ""; answer_content := "4";
                         current_phase := PStr "answer" |};
              console := [] |}
           (Samples.open_client, "4")
           (Samples.data_line (JArr [JStr "choices"]))
           (Samples.text_of (JArr [JStr "choices"]))
           (PList [PStr "choices"])
           [Samples.data_line (Samples.answer "2")] [Samples.done]
           eq_refl eq_refl eq_refl eq_refl).
Defined.

(** * The wrapper and the credential files *)

Lemma init_outcome (json_loads : string -> option pyval) (cfg : Config)
    (open_ : string -> file) (contents : string) :
  open_ (COOKIES_FILE cfg) = Text contents ->
  match cookie_file_error (json_loads contents) with
  | Some e => __init__ json_loads cfg open_ = Raise e
  | None =>
      exists c, __init__ json_loads cfg open_ = Ok c
                /\ Some (cookies c) = json_loads contents
  end.
Proof.
  intros Hc. unfold __init__, _load_cookies, _get_token_from_cookies.
  rewrite Hc. destruct (json_loads contents) as [v|]; [|reflexivity].
  unfold cookie_file_error. cbn [bind].
  destruct v as [| | | | s | items | items]; cbn [is_object is_scalar orb];
    try reflexivity.
  - cbn [mentions Py.contains bind Py.getitem].
    destruct (PyStr.contains "token" s); [reflexivity|].
    destruct (open_ (TOKEN_FILE cfg)); eexists; split; reflexivity.
  - cbn [mentions Py.contains bind Py.getitem].
    destruct (existsb _ items); [reflexivity|].
    destruct (open_ (TOKEN_FILE cfg)); eexists; split; reflexivity.
  - cbn [Py.contains bind Py.getitem]. unfold Py.has_key.
    destruct (Py.assoc "token" items).
    + eexists; split; reflexivity.
    + destruct (open_ (TOKEN_FILE cfg)); eexists; split; reflexivity.
Qed.

(** X20.  A cookie file that exists decides whether the first [call] of a
    wrapper raises.  If its text does not parse, or parses to [None], a
    boolean or a number, or to an array or a string in which ["token"]
    occurs, the constructor raises (JSONDecodeError, else TypeError) and
    [call] raises the RuntimeError of line 88: nothing is sent or printed
    and the wrapper stays uninitialised, so the next [call] constructs
    again.  In every other case the constructor succeeds with the parsed
    value as cookies, and [call] returns a string and leaves the wrapper
    initialised. *)
Theorem X20_cookie_file_decides_whether_call_raises :
  forall json_loads transport uuid4 time_time llm cfg open_ m w contents,
    Llm._initialized llm = false ->
    open_ (COOKIES_FILE cfg) = Text contents ->
    match cookie_file_error (json_loads contents) with
    | Some e =>
        __init__ json_loads cfg open_ = Raise e
        /\ Llm.call json_loads transport uuid4 time_time llm cfg open_ m w
           = (Llm.CallRaises e, llm, w)
    | None =>
        exists c text llm' w',
          __init__ json_loads cfg open_ = Ok c
          /\ Some (cookies c) = json_loads contents
          /\ Llm.call json_loads transport uuid4 time_time llm cfg open_ m w
             = (Llm.CallReturns text, llm', w')
          /\ Llm._initialized llm' = true
    end.
Proof.
  intros json_loads transport uuid4 time_time llm cfg open_ m w contents
    Hinit Hc.
  pose proof (init_outcome json_loads cfg open_ contents Hc) as H.
  destruct (cookie_file_error (json_loads contents)) as [e|].
  - split; [exact H|]. unfold Llm.call, Llm._ensure_client.
    rewrite Hinit, H. reflexivity.
  - destruct H as (c & H & Hck). exists c.
    unfold Llm.call, Llm._ensure_client. rewrite Hinit, H. cbn [negb].
    destruct (Llm.extract_prompt m) as [prompt system_prompt].
    cbn [Llm._client Llm._initialized].
    destruct (send_message json_loads transport uuid4 time_time c prompt
                system_prompt w) as [[response c'] w'].
    do 3 eexists. repeat split; auto.
Qed.

Lemma X20_cookie_file_decides_whether_call_raises_witness :
  let open_ := fun path => if String.eqb path "cookies.json"
                           then Text "null" else Missing in
  __init__ Cases.json_loads Samples.sample_config open_ = Raise TypeError
  /\ Llm.call Cases.json_loads
       (Samples.service 200 Samples.creation_ok [Samples.done])
       Samples.sample_uuid4 Samples.sample_time Llm.new_llm
       Samples.sample_config open_ (Llm.Plain "hi") Samples.silent
     = (Llm.CallRaises TypeError, Llm.new_llm, Samples.silent).
Proof.
  exact (X20_cookie_file_decides_whether_call_raises Cases.json_loads
           (Samples.service 200 Samples.creation_ok [Samples.done])
           Samples.sample_uuid4 Samples.sample_time Llm.new_llm
           Samples.sample_config
           (fun path => if String.eqb path "cookies.json"
                        then Text "null" else Missing)
           (Llm.Plain "hi") Samples.silent "null" eq_refl eq_refl).
Defined.

(** X21.  Without a cookie file a wrapper never reaches the service.  Its
    first [call] constructs a client with no cookies and returns the
    no-cookies error of [send_message]; nothing is sent or printed.  The
    wrapper then counts as initialised: every later [call] returns the same
    error whatever the credential files hold by then, because they are not
    read again. *)
Theorem X21_wrapper_without_cookie_file :
  forall json_loads transport uuid4 time_time llm cfg open_ m w,
    Llm._initialized llm = false ->
    open_ (COOKIES_FILE cfg) = Missing ->
    exists llm1,
      Llm.call json_loads transport uuid4 time_time llm cfg open_ m w
      = (Llm.CallReturns (Llm.Reply ErrorNoCookies), llm1, w)
      /\ Llm._initialized llm1 = true
      /\ forall open_' m' w',
           Llm.call json_loads transport uuid4 time_time llm1 cfg open_' m' w'
           = (Llm.CallReturns (Llm.Reply ErrorNoCookies), llm1, w').
Proof.
  intros json_loads transport uuid4 time_time llm cfg open_ m w Hinit Hc.
  unfold Llm.call at 1. unfold Llm._ensure_client, __init__, _load_cookies,
    _get_token_from_cookies.
  rewrite Hinit, Hc. cbn [negb bind Py.contains Py.has_key Py.assoc].
  destruct (Llm.extract_prompt m) as [prompt system_prompt].
  destruct (open_ (TOKEN_FILE cfg)) as [|token_text];
    cbn [bind Llm._client Llm._initialized]; unfold send_message;
    cbn [cookies Py.truthy negb Llm.reply_truthy].
  all: eexists; split; [reflexivity|]; split; [reflexivity|].
  all: intros open_' m' w'; unfold Llm.call, Llm._ensure_client.
  all: cbn [Llm._initialized Llm._client negb].
  all: destruct (Llm.extract_prompt m') as [prompt' system_prompt'].
  all: unfold send_message; cbn [cookies Py.truthy negb Llm.reply_truthy].
  all: reflexivity.
Qed.

Lemma X21_wrapper_without_cookie_file_witness :
  let serve := Samples.service 200 Samples.creation_ok [Samples.done] in
  exists llm1,
    Llm.call Samples.sample_json_loads serve Samples.sample_uuid4
      Samples.sample_time Llm.new_llm Samples.sample_config
      (fun _ => Missing) (Llm.Plain "hi") Samples.silent
    = (Llm.CallReturns (Llm.Reply ErrorNoCookies), llm1, Samples.silent)
    /\ Llm._initialized llm1 = true
    /\ forall open_' m' w',
         Llm.call Samples.sample_json_loads serve Samples.sample_uuid4
           Samples.sample_time llm1 Samples.sample_config open_' m' w'
         = (Llm.CallReturns (Llm.Reply ErrorNoCookies), llm1, w').
Proof.
  exact (X21_wrapper_without_cookie_file Samples.sample_json_loads
           (Samples.service 200 Samples.creation_ok [Samples.done])
           Samples.sample_uuid4 Samples.sample_time Llm.new_llm
           Samples.sample_config (fun _ => Missing) (Llm.Plain "hi")
           Samples.silent eq_refl eq_refl).
Defined.

(** * The interactive loop *)

Section ChatAdds.

Variable json_loads : string -> option pyval.
Variable transport : list request -> request -> http_reply.
Variable uuid4 : nat -> string.
Variable time_time : nat -> Q.

Lemma turn_request_content (self : QwenClient) (prompt : string) (w : world) :
  sent_content (fst (turn_request uuid4 time_time self prompt w)) = Some prompt.
Proof. reflexivity. Qed.

(** What a call of [chat] adds to the calls made, and what it keeps. *)
Lemma chat_adds (self : QwenClient) (prompt : string) (w : world) :
  let r := chat json_loads transport uuid4 time_time self prompt w in
  same_settings self (snd (fst r))
  /\ exists added,
       sent (snd r) = sent w ++ added
       /\ stream_calls added <= 1
       /\ Forall (fun t => call t = Stream -> sent_content t = Some prompt)
            added.
Proof.
  cbv zeta. unfold chat.
  destruct (Py.truthy (cookies self)); cbn [negb].
  2:{ split; [unfold same_settings; auto 10|].
      exists []. cbn. rewrite app_nil_r. auto. }
  destruct (Py.truthy (conversation_id self)) eqn:Hconv; cbn [negb].
  - destruct (chat_turn_effect json_loads transport uuid4 time_time self prompt w)
      as (Hsame & t & Hs & Hc & _ & _ & Ht).
    split; [now apply same_but_parent_settings|].
    exists [t]. split; [exact Hs|]. unfold stream_calls. cbn. rewrite Hc.
    split; [auto|]. constructor; [|constructor]. intros _. rewrite Ht.
    apply turn_request_content.
  - pose proof (create_settings json_loads transport uuid4 time_time self
                  (say MsgCreatingSession w)) as (Hset & _).
    destruct (create_effect json_loads transport uuid4 time_time self
                (say MsgCreatingSession w) Hconv) as (c & Hs & Hc & _).
    destruct (_create_conversation json_loads transport uuid4 time_time self
                (say MsgCreatingSession w)) as [[id s1] w1].
    cbn [fst snd] in *. cbn [say emit sent] in Hs.
    destruct (Py.truthy id); cbn [negb fst snd].
    + destruct (chat_turn_effect json_loads transport uuid4 time_time s1 prompt
                  w1) as (Hsame & t & Hs' & Hc' & _ & _ & Ht).
      split.
      { eapply same_settings_trans; [exact Hset|].
        now apply same_but_parent_settings. }
      exists [c; t]. rewrite Hs', Hs, <- app_assoc. split; [reflexivity|].
      unfold stream_calls. cbn. rewrite Hc, Hc'. split; [auto|].
      constructor; [intros H; rewrite Hc in H; discriminate|].
      constructor; [|constructor]. intros _. rewrite Ht.
      apply turn_request_content.
    + split; [exact Hset|]. exists [c]. cbn [say emit sent]. rewrite Hs.
      split; [reflexivity|]. unfold stream_calls. cbn. rewrite Hc.
      split; [auto|]. constructor; [|constructor].
      intros H. rewrite Hc in H. discriminate.
Qed.

End ChatAdds.

Lemma stream_calls_app (a b : list request) :
  stream_calls (a ++ b) = stream_calls a + stream_calls b.
Proof. unfold stream_calls. now rewrite filter_app, length_app. Qed.

Lemma same_credentials_refl (a : QwenClient) : same_credentials a a.
Proof. unfold same_credentials. auto. Qed.

Lemma same_credentials_trans (a b c : QwenClient) :
  same_credentials a b -> same_credentials b c -> same_credentials a c.
Proof. unfold same_credentials. intuition congruence. Qed.

Lemma same_settings_credentials (a b : QwenClient) :
  same_settings a b -> same_credentials a b.
Proof. unfold same_settings, same_credentials. intuition. Qed.

Section LoopFacts.

Variable json_loads : string -> option pyval.
Variable transport : list request -> request -> http_reply.
Variable uuid4 : nat -> string.
Variable time_time : nat -> Q.

(** What one answer does to the program. *)
Lemma step_adds (p : Cli.place) (self : QwenClient) (w : world)
    (answer : string) :
  let '(p', self', w') :=
    Cli.step json_loads transport uuid4 time_time (p, self, w) answer in
  same_credentials self self'
  /\ exists added,
       sent w' = sent w ++ added
       /\ stream_calls added <= length (Cli.plain_prompts [answer])
       /\ Forall (fun t => call t = Stream ->
                           In answer (Cli.plain_prompts [answer])
                           /\ sent_content t = Some answer) added.
Proof.
  assert (Hidle : same_credentials self self
                  /\ exists added,
                       sent w = sent w ++ added
                       /\ stream_calls added
                          <= length (Cli.plain_prompts [answer])
                       /\ Forall (fun t => call t = Stream ->
                                    In answer (Cli.plain_prompts [answer])
                                    /\ sent_content t = Some answer) added).
  { split; [apply same_credentials_refl|]. exists [].
    rewrite app_nil_r. cbn. repeat split; auto. lia. }
  unfold Cli.step. destruct p.
  - unfold Cli.interactive_step.
    destruct (PyStr.is_empty answer) eqn:Hempty; [exact Hidle|].
    set (cmd := Cli.lower (PyStr.strip answer)).
    cbn [Cli.among existsb].
    destruct (String.eqb cmd "/exit") eqn:H1; [exact Hidle|].
    destruct (String.eqb cmd "/quit") eqn:H2; [exact Hidle|].
    destruct (String.eqb cmd "/q") eqn:H3; [exact Hidle|]. cbn [orb].
    destruct (String.eqb cmd "/new") eqn:H4.
    { cbn [new_conversation]. destruct Hidle as [_ (added & Hs & Hrest)].
      split; [unfold same_credentials; cbn; auto|].
      exists added. cbn [say emit sent]. auto. }
    destruct (String.eqb cmd "/tools") eqn:H5; [exact Hidle|].
    assert (Hplain : Cli.plain_prompts [answer] = [answer]).
    { unfold Cli.plain_prompts, Cli.is_command. cbn [filter Cli.among existsb].
      fold cmd. now rewrite Hempty, H1, H2, H3, H4, H5. }
    rewrite Hplain. cbn [length In].
    destruct (chat_adds json_loads transport uuid4 time_time self answer w)
      as (Hsame & added & Hs & Hle & Hall).
    destruct (chat json_loads transport uuid4 time_time self answer w)
      as [[result self'] w'].
    cbn [fst snd] in *. split; [now apply same_settings_credentials|].
    exists added. repeat split; auto.
    eapply Forall_impl; [|exact Hall]. cbn. auto.
  - unfold Cli.tools_menu_step.
    destruct (Cli.among _ ["/back"; "back"; "/exit"; "exit"]); [exact Hidle|].
    destruct (Cli.among _ ["/thinking"; "thinking"]); [|exact Hidle].
    destruct Hidle as [_ Hidle]. split; [|exact Hidle].
    unfold same_credentials. cbn. auto.
  - exact Hidle.
Qed.

Lemma plain_prompts_cons (answer : string) (answers : list string) :
  Cli.plain_prompts (answer :: answers)
  = Cli.plain_prompts [answer] ++ Cli.plain_prompts answers.
Proof.
  unfold Cli.plain_prompts. cbn [filter].
  now destruct (negb (PyStr.is_empty answer) && negb (Cli.is_command answer)).
Qed.

Lemma run_adds (answers : list string) :
  forall p self w,
    let '(p', self', w') :=
      fold_left (Cli.step json_loads transport uuid4 time_time) answers
        (p, self, w) in
    same_credentials self self'
    /\ exists added,
         sent w' = sent w ++ added
         /\ stream_calls added <= length (Cli.plain_prompts answers)
         /\ Forall (fun t => call t = Stream ->
                      exists a, In a (Cli.plain_prompts answers)
                                /\ sent_content t = Some a) added.
Proof.
  induction answers as [|answer answers IH]; intros p self w.
  - cbn. split; [apply same_credentials_refl|]. exists [].
    rewrite app_nil_r. cbn. auto.
  - cbn [fold_left].
    pose proof (step_adds p self w answer) as Hstep.
    destruct (Cli.step json_loads transport uuid4 time_time (p, self, w) answer)
      as [[p1 self1] w1].
    destruct Hstep as (Hc1 & added1 & Hs1 & Hle1 & Hall1).
    specialize (IH p1 self1 w1).
    destruct (fold_left (Cli.step json_loads transport uuid4 time_time) answers
                (p1, self1, w1)) as [[p2 self2] w2].
    destruct IH as (Hc2 & added2 & Hs2 & Hle2 & Hall2).
    split; [eapply same_credentials_trans; eauto|].
    exists (added1 ++ added2). rewrite Hs2, Hs1, <- app_assoc.
    split; [reflexivity|]. rewrite plain_prompts_cons, length_app.
    rewrite stream_calls_app. split; [lia|].
    apply Forall_app. split.
    + eapply Forall_impl; [|exact Hall1]. cbn beta. intros t H Hc.
      destruct (H Hc) as [Hin Hcontent]. exists answer. split; [|exact Hcontent].
      apply in_or_app. now left.
    + eapply Forall_impl; [|exact Hall2]. cbn beta. intros t H Hc.
      destruct (H Hc) as (a & Hin & Hcontent). exists a. split; [|exact Hcontent].
      apply in_or_app. now right.
Qed.

End LoopFacts.

(** X22.  In interactive mode commands never reach the service.  Whatever
    is answered at the prompts and whatever the service replies, the calls
    made are only added to, there are at most as many streaming calls as
    answers that are neither empty nor one of [/exit], [/quit], [/q],
    [/new] and [/tools] (in any letter case, with white space around), and
    each streaming call carries one of those answers as typed.  The
    configuration, the cookies, the token and the thinking budget of the
    client are the ones it started with. *)
Theorem X22_commands_never_reach_the_service :
  forall json_loads transport uuid4 time_time self answers w,
    let '(p', self', w') :=
      Cli.interactive_mode json_loads transport uuid4 time_time self answers w
    in
    same_credentials self self'
    /\ exists added,
         sent w' = sent w ++ added
         /\ stream_calls added <= length (Cli.plain_prompts answers)
         /\ Forall (fun t => call t = Stream ->
                      exists a, In a (Cli.plain_prompts answers)
                                /\ sent_content t = Some a) added.
Proof.
  intros json_loads transport uuid4 time_time self answers w.
  apply (run_adds json_loads transport uuid4 time_time answers Cli.AtPrompt
           self w).
Qed.

Lemma toggle_thinking_twice (self : QwenClient) :
  Cli.toggle_thinking (Cli.toggle_thinking self) = self.
Proof.
  destruct self. unfold Cli.toggle_thinking, set_thinking. cbn.
  now rewrite Bool.negb_involutive.
Qed.

(** X23.  The tools menu changes the thinking flag and nothing else.  As
    long as no answer is one of [/back], [back], [/exit] and [exit], the
    program stays in the menu, nothing is sent or printed by the client,
    and the client is the one that entered the menu with its thinking flag
    flipped once for each answer [/thinking] or [thinking]: an even number
    of them leaves it as it was.  The thinking budget is not touched. *)
Theorem X23_tools_menu_only_flips_the_thinking_flag :
  forall json_loads transport uuid4 time_time answers self w,
    forallb (fun a => negb (Cli.leaves_menu a)) answers = true ->
    fold_left (Cli.step json_loads transport uuid4 time_time) answers
      (Cli.InTools, self, w)
    = (Cli.InTools,
       (if Nat.odd (length (filter Cli.toggles answers))
        then Cli.toggle_thinking self else self),
       w).
Proof.
  intros json_loads transport uuid4 time_time answers.
  induction answers as [|answer answers IH]; intros self w Hstay.
  - reflexivity.
  - cbn [forallb] in Hstay. apply Bool.andb_true_iff in Hstay as [Hhere Hstay].
    apply Bool.negb_true_iff in Hhere.
    assert (Htoggles : Cli.toggles answer
                       = Cli.among (Cli.lower (PyStr.strip answer))
                           ["/thinking"; "thinking"])
      by (unfold Cli.toggles; now rewrite Hhere).
    cbn [fold_left filter Cli.step]. unfold Cli.tools_menu_step.
    rewrite Htoggles. unfold Cli.leaves_menu in Hhere. rewrite Hhere.
    destruct (Cli.among (Cli.lower (PyStr.strip answer)) ["/thinking"; "thinking"]).
    + rewrite IH by exact Hstay. cbn [length]. rewrite Nat.odd_succ.
      rewrite <- Nat.negb_odd.
      destruct (Nat.odd (length (filter Cli.toggles answers))); cbn [negb];
        [now rewrite toggle_thinking_twice | reflexivity].
    + now rewrite IH by exact Hstay.
Qed.

Lemma X23_tools_menu_only_flips_the_thinking_flag_witness :
  fold_left (Cli.step Samples.sample_json_loads
               (Samples.service 200 Samples.creation_ok [Samples.done])
               Samples.sample_uuid4 Samples.sample_time)
    [" /Thinking "; "help"; "THINKING"; "thinking"]
    (Cli.InTools, Samples.open_client, Samples.silent)
  = (Cli.InTools, Cli.toggle_thinking Samples.open_client, Samples.silent).
Proof.
  exact (X23_tools_menu_only_flips_the_thinking_flag Samples.sample_json_loads
           (Samples.service 200 Samples.creation_ok [Samples.done])
           Samples.sample_uuid4 Samples.sample_time
           [" /Thinking "; "help"; "THINKING"; "thinking"]
           Samples.open_client Samples.silent eq_refl).
Defined.
